(** * LSE stock value retriever: a shallow embedding of
      [stock_values_retriever.py] and the properties of its batch loop.

    The program reads a CSV of companies, visits one page of the London
    Stock Exchange site per row, and writes the rows back with the price
    and the last-update time it found.  The embedding keeps the shape of
    the Python source: the methods of [CStockValuesRetriever] are
    computations in a small state-and-exception monad over the fields of
    the object, the pandas frame is a table with explicit row labels, and
    everything the program does not own (the file system, the site, the
    browser driver, the regular-expression engine) is a field of an
    environment record the methods are read against. *)

From Stdlib Require Import String Ascii List Bool ZArith NArith Arith Lia.
From Stdlib Require Import Floats DecimalString.
Import ListNotations.
Open Scope string_scope.
Open Scope list_scope.

(** ** Python [str] methods used by the source

    A character is an [ascii], read as a code point below 256; the
    tables of Python's Unicode database are the ones of that range. *)
Module PyStr.

Definition code (c : ascii) : N := N_of_ascii c.

(** [str.isspace] on one character: TAB..CR, FS..US, SPACE, NEL, NBSP. *)
Definition is_space (c : ascii) : bool :=
  let n := code c in
  ((9 <=? n) && (n <=? 13) || (28 <=? n) && (n <=? 32)
   || (n =? 133) || (n =? 160))%N.

Definition is_upper (c : ascii) : bool :=
  let n := code c in
  ((65 <=? n) && (n <=? 90)
   || (192 <=? n) && (n <=? 222) && negb (n =? 215))%N.

Definition lower_char (c : ascii) : ascii :=
  if is_upper c then ascii_of_N (code c + 32) else c.

(** [s.lower()] *)
Fixpoint lower (s : string) : string :=
  match s with
  | EmptyString => EmptyString
  | String c s' => String (lower_char c) (lower s')
  end.

(** Leading, then trailing, characters of a class dropped: a trailing
    character goes when everything after it has gone. *)
Fixpoint lstrip_of (drop : ascii -> bool) (s : string) : string :=
  match s with
  | String c s' => if drop c then lstrip_of drop s' else s
  | EmptyString => EmptyString
  end.

Fixpoint rstrip_of (drop : ascii -> bool) (s : string) : string :=
  match s with
  | EmptyString => EmptyString
  | String c s' =>
      match rstrip_of drop s' with
      | EmptyString => if drop c then EmptyString else String c EmptyString
      | r => String c r
      end
  end.

(** [s.strip()] *)
Definition strip (s : string) : string :=
  rstrip_of is_space (lstrip_of is_space s).

(** [c in s] for a one-character [c] *)
Fixpoint contains (c : ascii) (s : string) : bool :=
  match s with
  | EmptyString => false
  | String d s' => Ascii.eqb c d || contains c s'
  end.

(** [s.replace(old, new)] for a one-character [old] *)
Fixpoint replace (old : ascii) (new : string) (s : string) : string :=
  match s with
  | EmptyString => EmptyString
  | String c s' =>
      if Ascii.eqb c old then (new ++ replace old new s')%string
      else String c (replace old new s')
  end.

(** [template.format(a, b, ...)] for templates whose replacement fields
    are all the automatic [{}]; [{{] and [}}] are the escaped braces.
    [None] stands for the exception Python raises (too few arguments,
    a lone brace) and for the field syntax the source does not use. *)
Fixpoint format (template : string) (args : list string) : option string :=
  match template with
  | EmptyString => Some EmptyString
  | String "{" (String "}" t) =>
      match args with
      | a :: args' => option_map (append a) (format t args')
      | [] => None
      end
  | String "{" (String "{" t) => option_map (String "{") (format t args)
  | String "}" (String "}" t) => option_map (String "}") (format t args)
  | String "{" _ => None
  | String "}" _ => None
  | String c t => option_map (String c) (format t args)
  end.

(** [str(n)] for an integer *)
Definition str_of_Z (z : Z) : string :=
  match z with
  | Z0 => "0"
  | Zpos p => NilEmpty.string_of_uint (Pos.to_uint p)
  | Zneg p => String "-" (NilEmpty.string_of_uint (Pos.to_uint p))
  end.

Definition nl : string := String (ascii_of_N 10) EmptyString.

End PyStr.

(** ** The builtin [float(str)]

    The grammar is the one of the language reference: optional sign,
    then [inf], [infinity] or [nan] in any case, or a decimal number
    with an optional exponent, digits optionally grouped by single
    underscores; white space around it is ignored.  The value is the
    binary64 number nearest to the decimal one, ties to even; a number
    too large for the format is an infinity. *)
Module PyFloat.

Definition is_digit (c : ascii) : bool :=
  let n := PyStr.code c in ((48 <=? n) && (n <=? 57))%N.

Definition digit_val (c : ascii) : Z := Z.of_N (PyStr.code c) - 48.

(** The rest of a [digitpart] after one of its digits:
    [(["_"] digit)*]; returns the digits read and what follows. *)
Fixpoint digits_tail (s : string) : list Z * string :=
  match s with
  | String c s' =>
      if is_digit c then
        let (ds, r) := digits_tail s' in (digit_val c :: ds, r)
      else if Ascii.eqb c "_" then
        match s' with
        | String c2 s'' =>
            if is_digit c2 then
              let (ds, r) := digits_tail s'' in (digit_val c2 :: ds, r)
            else ([], s)
        | EmptyString => ([], s)
        end
      else ([], s)
  | EmptyString => ([], s)
  end.

(** An optional [digitpart] at the head of [s]. *)
Definition digitpart (s : string) : list Z * string :=
  match s with
  | String c s' =>
      if is_digit c then
        let (ds, r) := digits_tail s' in (digit_val c :: ds, r)
      else ([], s)
  | EmptyString => ([], s)
  end.

Definition sign (s : string) : bool * string :=
  match s with
  | String "-" s' => (true, s')
  | String "+" s' => (false, s')
  | _ => (false, s)
  end.

Definition Z_of_digits (ds : list Z) : Z :=
  fold_left (fun acc d => 10 * acc + d)%Z ds 0%Z.

(** A parsed decimal: the digits of the integer and of the fraction
    part, and the exponent. *)
Record decimal := { dec_int : list Z; dec_frac : list Z; dec_exp : Z }.

(** [floatnumber ::= ([digitpart] "." digitpart | digitpart ["."]) [exponent]],
    to the end of the string. *)
Definition exponent (s : string) : option Z :=
  match s with
  | EmptyString => Some 0%Z
  | String c s' =>
      if Ascii.eqb c "e" || Ascii.eqb c "E" then
        let (neg, s1) := sign s' in
        match digitpart s1 with
        | (d :: ds, EmptyString) =>
            let e := Z_of_digits (d :: ds) in
            Some (if neg then (- e)%Z else e)
        | _ => None
        end
      else None
  end.

Definition floatnumber (s : string) : option decimal :=
  let (ip, s1) := digitpart s in
  let (fp, s2) :=
    match s1 with
    | String "." s1' => digitpart s1'
    | _ => ([], s1)
    end in
  match ip, fp with
  | [], [] => None
  | _, _ =>
      match exponent s2 with
      | Some e => Some {| dec_int := ip; dec_frac := fp; dec_exp := e |}
      | None => None
      end
  end.

(** The binary64 number nearest to [num / den] (both positive): the
    quotient is taken with at least 54 bits and the remainder gives
    the position of the exact value between two consecutive ones. *)
Definition round_ratio (neg : bool) (num den : Z) : spec_float :=
  let k := Z.max 0 (54 + Z.log2 den - Z.log2 num) in
  let n := Z.shiftl num k in
  let q := (n / den)%Z in
  let r := (n mod den)%Z in
  let loc := if (r =? 0)%Z then loc_Exact
             else loc_Inexact (Z.compare (2 * r) den) in
  binary_round_aux prec emax neg q (- k) loc.

(** The value of a decimal.  A decimal with [d] digits and exponent
    [e] lies in [[10^(e+d-1), 10^(e+d))] once its leading zeros are
    gone, so the two tests only shortcut what rounding gives. *)
Definition decimal_value (neg : bool) (d : decimal) : spec_float :=
  let m := Z_of_digits (dec_int d ++ dec_frac d) in
  let e := (dec_exp d - Z.of_nat (length (dec_frac d)))%Z in
  let nd := Z.of_nat (length (dec_int d ++ dec_frac d)) in
  if (m =? 0)%Z then S754_zero neg
  else if (400 + nd <? e)%Z then S754_infinity neg
  else if (e + nd <? -400)%Z then S754_zero neg
  else if (0 <=? e)%Z then round_ratio neg (m * 10 ^ e) 1
  else round_ratio neg m (10 ^ (- e)).

(** The white space [float] ignores around the number: the ASCII one,
    and NEL and NBSP. *)
Definition is_space (c : ascii) : bool :=
  let n := PyStr.code c in
  ((9 <=? n) && (n <=? 13) || (n =? 32) || (n =? 133) || (n =? 160))%N.

Definition parse (s : string) : option spec_float :=
  let (neg, body) :=
    sign (PyStr.rstrip_of is_space (PyStr.lstrip_of is_space s)) in
  let low := PyStr.lower body in
  if String.eqb low "inf" || String.eqb low "infinity" then
    Some (S754_infinity neg)
  else if String.eqb low "nan" then Some S754_nan
  else option_map (decimal_value neg) (floatnumber body).

(** [float(s)]; [None] is the [ValueError]. *)
Definition float_of_string (s : string) : option float :=
  option_map SF2Prim (parse s).

End PyFloat.

(** ** The pandas frame

    A cell holds what [read_csv] infers (a missing value, a string, an
    integer, a float) and a frame is its column labels and its rows,
    each row under its index label.  [read_csv] without [index_col]
    labels the rows 0, 1, ... *)
Module Frame.

Inductive cell :=
| NA
| Str (s : string)
| Int (z : Z)
| Float (f : float).

Record DataFrame := mkFrame {
  columns : list string;
  rows : list (nat * list cell)
}.

(** Position of a column label. *)
Fixpoint col_pos (c : string) (cols : list string) : option nat :=
  match cols with
  | [] => None
  | c' :: cols' =>
      if String.eqb c c' then Some 0 else option_map S (col_pos c cols')
  end.

(** [row[c]] on the series [iterrows] yields; [None] is the [KeyError]. *)
Definition getitem (cols : list string) (cells : list cell) (c : string)
  : option cell :=
  match col_pos c cols with
  | Some j => nth_error cells j
  | None => None
  end.

Fixpoint set_nth {A} (j : nat) (v : A) (l : list A) : list A :=
  match l, j with
  | [], _ => []
  | _ :: l', 0 => v :: l'
  | a :: l', S j' => a :: set_nth j' v l'
  end.

Definition has_label (idx : nat) (rs : list (nat * list cell)) : bool :=
  existsb (fun r => Nat.eqb (fst r) idx) rs.

(** The scalar store at an existing column [j]: every row labelled
    [idx] takes [v]; with no such row the frame grows by one. *)
Definition set_cell (idx j : nat) (v : cell) (width : nat)
    (rs : list (nat * list cell)) : list (nat * list cell) :=
  if has_label idx rs then
    map (fun r => if Nat.eqb (fst r) idx
                  then (fst r, set_nth j v (snd r)) else r) rs
  else rs ++ [(idx, set_nth j v (repeat NA width))].

(** [df.at[idx, col] = v] for a value of the column's type (a float
    under a column of floats, a string under a column of strings), or
    under a column that is not there yet.  A label that is not there
    is not an error: the store falls back to [loc], which enlarges the
    frame, by a column of missing values at the right, by a row at the
    bottom.  What pandas makes of a value of another type than the
    column's (a cast with a warning or [TypeError], by version) is not
    part of the model: the statements about what a store leaves in the
    frame carry the condition on the column. *)
Definition at_set (df : DataFrame) (idx : nat) (col : string) (v : cell)
  : DataFrame :=
  match col_pos col (columns df) with
  | Some j =>
      mkFrame (columns df)
              (set_cell idx j v (length (columns df)) (rows df))
  | None =>
      let j := length (columns df) in
      mkFrame (columns df ++ [col])
              (set_cell idx j v (S j)
                 (map (fun r => (fst r, snd r ++ [NA])) (rows df)))
  end.

(** [df[col] = f(df[col])]: the column is rewritten where it stands. *)
Definition map_column (f : cell -> cell) (j : nat) (df : DataFrame)
  : DataFrame :=
  mkFrame (columns df)
          (map (fun r => (fst r,
                          match nth_error (snd r) j with
                          | Some c => set_nth j (f c) (snd r)
                          | None => snd r
                          end)) (rows df)).

(** What [read_csv] returns: distinct column labels, the rows
    labelled 0, 1, ... in file order, one cell per column. *)
Definition well_formed (df : DataFrame) : Prop :=
  NoDup (columns df)
  /\ map fst (rows df) = seq 0 (length (rows df))
  /\ Forall (fun r => length (snd r) = length (columns df)) (rows df).

(** Cell of the row labelled [idx] under column [col]. *)
Definition cell_at (df : DataFrame) (idx : nat) (col : string)
  : option cell :=
  match find (fun r => Nat.eqb (fst r) idx) (rows df) with
  | Some r => getitem (columns df) (snd r) col
  | None => None
  end.

End Frame.
Export Frame.

(** ** Exceptions and outcomes *)

Inductive exn :=
| RuntimeError (msg : string)
| ValueError (msg : string)
| KeyError (key : string)
| AttributeError (msg : string)
| FileNotFoundError
| EmptyDataError
| AssertionError
| ReError
| TimeoutError
| PlaywrightError (msg : string)
| OtherError (name : string).

Inductive result (A : Type) :=
| Ok (a : A)
| Raise (e : exn).
Arguments Ok {A} a.
Arguments Raise {A} e.

(** ** What the program runs against *)

(** The HTTP response [page.goto] returns. *)
Record response := mkResponse { status : Z; status_text : string }.

(** A loaded page, as far as the source looks at it:
    - [landmark]: the outcome of
      [expect(get_by_role('link', name='Company page')).to_be_visible(timeout=5000)];
    - [headings]: the accessible names of the headings the role locator
      sees; a locator that resolves to one element is visible, to none
      fails the expectation, to several is a strictness error;
    - [price_tag], [delay_ticker]: the outcome of [.first.text_content()]
      on [span.price-tag] and on
      [div.ticker-item.delay span.bold-font-weight]: the text, [None]
      when the node has none, or the exception of an element that never
      shows up ([TimeoutError]). *)
Record document := mkDocument {
  landmark : result unit;
  headings : list string;
  price_tag : result (option string);
  delay_ticker : result (option string)
}.

Inductive resource := RPlaywright | RBrowser | RContext | RPage.

(** The environment.
    - [read_csv]: [pd.read_csv] on a path;
    - [to_csv]: whether [df.to_csv(path, index=False)] succeeds;
    - [repr_float]: the text of a float64 ([str(x)]);
    - [re_compile]: [re.compile(pattern, re.I)] together with the test
      the role locator makes of a name against it; [None] is [re.error];
    - [acquire]: the four steps of [start];
    - [release]: the four calls of [stop], [page.close()],
      [context.close()], [browser.close()] and [playwright.stop()],
      which are calls of the driver and may raise as well;
    - [goto]: [page.goto(url, wait_until='domcontentloaded')] on the
      n-th navigation of the run. *)
Record Env := mkEnv {
  read_csv : string -> result DataFrame;
  to_csv : string -> DataFrame -> result unit;
  repr_float : float -> string;
  re_compile : string -> option (string -> bool);
  acquire : resource -> result unit;
  release : resource -> result unit;
  goto : nat -> string -> result (option response * document)
}.

(** What a run leaves behind, in order. *)
Inductive event :=
| Print (text : string)
| Goto (url : string)
| ToCsv (path : string) (df : DataFrame)
| Acquire (r : resource)
| Release (r : resource).

(** ** The retriever object

    The fields [__init__] sets and the program uses ([input_file] and
    [output_file] are never read), with the number of navigations made
    and the events so far.  A handle is [None] until [start] sets it;
    [page] carries the document it shows. *)
Record retriever := mkRetriever {
  df_in : option DataFrame;
  playwright : bool;
  browser : bool;
  context : bool;
  page : option document;
  visits : nat;
  trace : list event
}.

Definition blank : document :=
  {| landmark := Raise AssertionError; headings := [];
     price_tag := Raise TimeoutError; delay_ticker := Raise TimeoutError |}.

(** [CStockValuesRetriever()] *)
Definition __init__ : retriever :=
  {| df_in := None; playwright := false; browser := false;
     context := false; page := None; visits := 0; trace := [] |}.

Definition log (ev : event) (st : retriever) : retriever :=
  {| df_in := df_in st; playwright := playwright st; browser := browser st;
     context := context st; page := page st; visits := visits st;
     trace := trace st ++ [ev] |}.

Definition set_df_in (df : DataFrame) (st : retriever) : retriever :=
  {| df_in := Some df; playwright := playwright st; browser := browser st;
     context := context st; page := page st; visits := visits st;
     trace := trace st |}.

Definition set_page (d : document) (st : retriever) : retriever :=
  {| df_in := df_in st; playwright := playwright st; browser := browser st;
     context := context st; page := Some d; visits := visits st;
     trace := trace st |}.

Definition count_visit (st : retriever) : retriever :=
  {| df_in := df_in st; playwright := playwright st; browser := browser st;
     context := context st; page := page st; visits := S (visits st);
     trace := trace st |}.

Definition set_handle (r : resource) (st : retriever) : retriever :=
  {| df_in := df_in st;
     playwright := match r with RPlaywright => true | _ => playwright st end;
     browser := match r with RBrowser => true | _ => browser st end;
     context := match r with RContext => true | _ => context st end;
     page := match r with RPage => Some blank | _ => page st end;
     visits := visits st; trace := trace st |}.

(** ** Statements: state and exceptions *)

Definition M (A : Type) : Type := retriever -> result A * retriever.

Definition ret {A} (a : A) : M A := fun st => (Ok a, st).

Definition raise {A} (e : exn) : M A := fun st => (Raise e, st).

Definition bind {A B} (c : M A) (k : A -> M B) : M B :=
  fun st =>
    match c st with
    | (Ok a, st') => k a st'
    | (Raise e, st') => (Raise e, st')
    end.

Notation "x <- c ;; k" := (bind c (fun x => k))
  (at level 61, c at next level, right associativity).
Notation "c ;;; k" := (bind c (fun _ => k))
  (at level 61, right associativity).

Definition lift {A} (r : result A) : M A := fun st => (r, st).

(** [try: c except ...: h]; [h e] is [None] when no clause names [e]. *)
Definition try_except {A} (c : M A) (h : exn -> option (M A)) : M A :=
  fun st =>
    match c st with
    | (Ok a, st') => (Ok a, st')
    | (Raise e, st') =>
        match h e with
        | Some handler => handler st'
        | None => (Raise e, st')
        end
    end.

(** [try: c finally: f] *)
Definition try_finally {A} (c : M A) (f : M unit) : M A :=
  fun st =>
    let (r, st') := c st in
    match f st' with
    | (Ok _, st'') => (r, st'')
    | (Raise e, st'') => (Raise e, st'')
    end.

(** [for x in xs: body] *)
Fixpoint for_each {A} (xs : list A) (body : A -> M unit) : M unit :=
  match xs with
  | [] => ret tt
  | x :: xs' => body x ;;; for_each xs' body
  end.

Definition print (text : string) : M unit :=
  fun st => (Ok tt, log (Print text) st).

Definition on_assertion_error {A} (handler : M A) (e : exn) : option (M A) :=
  match e with AssertionError => Some handler | _ => None end.

Definition on_timeout_error {A} (handler : M A) (e : exn) : option (M A) :=
  match e with TimeoutError => Some handler | _ => None end.

(** The value of [_get_stock_value] and [_get_last_update_timestamp]:
    a string or [False]. *)
Inductive str_or_false :=
| PyFalse
| PyText (s : string).

Definition truthy (v : str_or_false) : bool :=
  match v with
  | PyFalse => false
  | PyText EmptyString => false
  | PyText _ => true
  end.

Definition URL_BASE : string :=
  "https://www.londonstockexchange.com/stock/{}/{}/company-page".

Section Retriever.

Variable E : Env.

(** [str(x)] of a cell, as [print] and [format] show it. *)
Definition str_of_cell (c : cell) : string :=
  match c with
  | NA => "nan"
  | Str s => s
  | Int z => PyStr.str_of_Z z
  | Float f => repr_float E f
  end.

(** One cell under [astype('string')]. *)
Definition astype_string (c : cell) : cell :=
  match c with
  | NA => NA
  | Str s => Str s
  | Int z => Str (PyStr.str_of_Z z)
  | Float f => if PrimFloat.is_nan f then NA else Str (repr_float E f)
  end.

(** [self.df_in], and [self.page], of an object that has them. *)
Definition the_frame : M DataFrame :=
  fun st =>
    match df_in st with
    | Some df => (Ok df, st)
    | None => (Raise (AttributeError "NoneType"), st)
    end.

Definition the_page : M document :=
  fun st =>
    match page st with
    | Some d => (Ok d, st)
    | None => (Raise (AttributeError "NoneType"), st)
    end.

Definition _setup (input_path : string) : M bool :=
  print ("Reading input data file " ++ input_path ++ PyStr.nl) ;;;
  read <- try_except
            (df <- lift (read_csv E input_path) ;;
             (fun st => (Ok true, set_df_in df st)))
            (fun e =>
               match e with
               | FileNotFoundError =>
                   Some (print ("File " ++ input_path ++ " not found") ;;;
                         ret false)
               | EmptyDataError =>
                   Some (print ("File " ++ input_path ++ " is empty") ;;;
                         ret false)
               | _ => None
               end) ;;
  if read then
    df <- the_frame ;;
    match col_pos "timestamp" (columns df) with
    | Some j =>
        (fun st => (Ok true, set_df_in (map_column astype_string j df) st))
    | None => raise (KeyError "timestamp")
    end
  else ret false.

(** [expect(heading).to_be_visible(timeout=5000)] for the headings
    whose name the pattern matches. *)
Definition expect_heading (matcher : string -> bool) (d : document)
  : result unit :=
  match filter matcher (headings d) with
  | [] => Raise AssertionError
  | [_] => Ok tt
  | _ :: _ :: _ => Raise (PlaywrightError "strict mode violation")
  end.

Definition _verify_page (resp : option response)
    (company_url company_name : string) : M bool :=
  match resp with
  | None =>
      print ("No response for " ++ company_url) ;;; ret false
  | Some r =>
      if negb (status r =? 200)%Z then
        print ("Bad status: " ++ PyStr.str_of_Z (status r) ++ " "
               ++ status_text r) ;;;
        ret false
      else
        found <- try_except
                   (d <- the_page ;; lift (landmark d) ;;; ret true)
                   (on_assertion_error
                      (print "Company page landmark not found, wrong page opened." ;;;
                       ret false)) ;;
        if found then
          try_except
            (d <- the_page ;;
             match re_compile E (company_name ++ "$") with
             | Some matcher => lift (expect_heading matcher d) ;;; ret true
             | None => raise ReError
             end)
            (on_assertion_error
               (print ("Company heading does not match the expected company name: "
                       ++ company_name) ;;;
                ret false))
        else ret false
  end.

Definition or_empty (t : option string) : string :=
  match t with Some s => s | None => "" end.

Definition _get_stock_value : M str_or_false :=
  try_except
    (d <- the_page ;;
     t <- lift (price_tag d) ;;
     let raw_price := PyStr.strip (or_empty t) in
     ret (PyText (if negb (PyStr.contains "," raw_price) then raw_price
                  else PyStr.replace "," "" raw_price)))
    (on_timeout_error
       (print "Failed to find the latest stock price value" ;;;
        ret PyFalse)).

Definition _get_last_update_timestamp : M str_or_false :=
  try_except
    (d <- the_page ;;
     t <- lift (delay_ticker d) ;;
     ret (PyText (PyStr.strip (or_empty t))))
    (on_timeout_error
       (print "Failed to find the last stock update timestamp" ;;;
        ret PyFalse)).

Definition acquire_handle (r : resource) : M unit :=
  lift (acquire E r) ;;;
  (fun st => (Ok tt, log (Acquire r) (set_handle r st))).

Definition start : M unit :=
  acquire_handle RPlaywright ;;;
  acquire_handle RBrowser ;;;
  acquire_handle RContext ;;;
  acquire_handle RPage.

Definition has_page (st : retriever) : bool :=
  match page st with Some _ => true | None => false end.

(** [if self.h: self.h.close()]: the close is not guarded, so its
    exception leaves [stop]; the event is that of a close that
    returned. *)
Definition release_if (held : retriever -> bool) (r : resource) : M unit :=
  fun st =>
    if held st then
      match release E r with
      | Ok _ => (Ok tt, log (Release r) st)
      | Raise e => (Raise e, st)
      end
    else (Ok tt, st).

Definition stop : M unit :=
  release_if has_page RPage ;;;
  release_if context RContext ;;;
  release_if browser RBrowser ;;;
  release_if playwright RPlaywright.

(** [self.page.goto(url, wait_until='domcontentloaded')] *)
Definition page_goto (url : string) : M (option response) :=
  the_page ;;;
  (fun st =>
     let st1 := count_visit (log (Goto url) st) in
     match goto E (visits st) url with
     | Ok (resp, d) => (Ok resp, set_page d st1)
     | Raise e => (Raise e, st1)
     end).

(** [self.df_in.at[idx, col] = v] *)
Definition frame_at_set (idx : nat) (col : string) (v : cell) : M unit :=
  df <- the_frame ;;
  (fun st => (Ok tt, set_df_in (at_set df idx col v) st)).

(** [float(s)] *)
Definition py_float (s : string) : M float :=
  match PyFloat.float_of_string s with
  | Some f => ret f
  | None => raise (ValueError s)
  end.

Definition row_getitem (cols : list string) (cells : list cell)
    (c : string) : M cell :=
  match getitem cols cells c with
  | Some v => ret v
  | None => raise (KeyError c)
  end.

(** [x.lower] exists on strings only. *)
Definition str_lower (c : cell) : M string :=
  match c with
  | Str s => ret (PyStr.lower s)
  | _ => raise (AttributeError "lower")
  end.

Definition py_format (template : string) (args : list string) : M string :=
  match PyStr.format template args with
  | Some s => ret s
  | None => raise (ValueError "format")
  end.

(** The statements of the loop body once the page is verified
    (from [print('Stock page loaded successfully')] on). *)
Definition retrieve_and_store (idx : nat) : M unit :=
  print "Stock page loaded successfully" ;;;
  print "Retrieving latest stock price value and last update timestamp" ;;;
  stock_value <- _get_stock_value ;;
  timestamp <- _get_last_update_timestamp ;;
  (if truthy stock_value then
     match stock_value with
     | PyText s => f <- py_float s ;; frame_at_set idx "value" (Float f)
     | PyFalse => ret tt
     end
   else ret tt) ;;;
  (if truthy timestamp then
     match timestamp with
     | PyText s => frame_at_set idx "timestamp" (Str s)
     | PyFalse => ret tt
     end
   else ret tt) ;;;
  print "".

(** The body of the loop of [get_stock_values_csv] for the row
    [(idx, cells)] that [iterrows] yields; [continue] ends it. *)
Definition loop_body (cols : list string) (r : nat * list cell) : M unit :=
  let (idx, cells) := r in
  company_name <- row_getitem cols cells "company name" ;;
  stock_code <- row_getitem cols cells "stock code" ;;
  print ("Looking for latest stock price value for "
         ++ str_of_cell company_name) ;;;
  lowered <- str_lower company_name ;;
  let name_converted := PyStr.replace " " "-" lowered in
  company_url <- py_format URL_BASE
                   [str_of_cell stock_code; name_converted] ;;
  print ("Loading company stock page: " ++ company_url) ;;;
  resp <- page_goto company_url ;;
  verified <- _verify_page resp company_url (str_of_cell company_name) ;;
  if negb verified then
    print ("Failed to correctly load company stock page" ++ PyStr.nl
           ++ "Continue to next company" ++ PyStr.nl)
  else retrieve_and_store idx.

Definition frame_to_csv (output_path : string) : M unit :=
  df <- the_frame ;;
  lift (to_csv E output_path df) ;;;
  (fun st => (Ok tt, log (ToCsv output_path df) st)).

Definition get_stock_values_csv (input_path output_path : string) : M unit :=
  read <- _setup input_path ;;
  if negb read then
    raise (RuntimeError ("Failed to read the input CSV file " ++ input_path))
  else
    df <- the_frame ;;
    for_each (rows df) (loop_body (columns df)) ;;;
    frame_to_csv output_path ;;;
    print ("Data saved in " ++ output_path).

(** The body of [if __name__ == '__main__'] once the arguments are
    parsed. *)
Definition main (input output : string) : result unit * retriever :=
  try_finally (start ;;; get_stock_values_csv input output) stop __init__.

End Retriever.

(** ** A regular-expression engine for the common core of the syntax

    Literal characters, [.], [^], [$], groups, [|] and one of [*], [+],
    [?] after an atom, a backslash before a character that is not a
    letter or a digit, matched without regard to case.  This is the
    part on which Python's [re] (which compiles the pattern) and the
    driver (which tests names against it) agree; [compile] answers
    [None] for everything else, the patterns [re] rejects included. *)
Module MiniRe.

Inductive re :=
| Eps
| Chr (c : ascii)
| Any
| Bol
| Eol
| Cat (a b : re)
| Alt (a b : re)
| Star (a : re).

Definition is_alnum (c : ascii) : bool :=
  let n := PyStr.code c in
  ((48 <=? n) && (n <=? 57) || (65 <=? n) && (n <=? 90)
   || (97 <=? n) && (n <=? 122))%N.

Definition is_quantifier (c : ascii) : bool :=
  Ascii.eqb c "*" || Ascii.eqb c "+" || Ascii.eqb c "?".

Definition repeatable (r : re) : bool :=
  match r with Bol | Eol => false | _ => true end.

(** Recursive descent, on fuel:
    [alt ::= cat ("|" alt)?], [cat ::= rep*],
    [rep ::= atom ("*" | "+" | "?")?],
    [atom ::= "(" alt ")" | "." | "^" | "$" | "\" c | c]. *)
Fixpoint p_alt (n : nat) (s : string) : option (re * string) :=
  match n with
  | 0 => None
  | S n' =>
      match p_cat n' s with
      | Some (a, String "|" s') =>
          match p_alt n' s' with
          | Some (b, s'') => Some (Alt a b, s'')
          | None => None
          end
      | other => other
      end
  end
with p_cat (n : nat) (s : string) : option (re * string) :=
  match n with
  | 0 => None
  | S n' =>
      match s with
      | EmptyString => Some (Eps, s)
      | String "|" _ => Some (Eps, s)
      | String ")" _ => Some (Eps, s)
      | _ =>
          match p_rep n' s with
          | Some (a, s') =>
              match p_cat n' s' with
              | Some (b, s'') => Some (Cat a b, s'')
              | None => None
              end
          | None => None
          end
      end
  end
with p_rep (n : nat) (s : string) : option (re * string) :=
  match n with
  | 0 => None
  | S n' =>
      match p_atom n' s with
      | Some (a, String q s') =>
          if is_quantifier q then
            match s' with
            | String q' _ =>
                if is_quantifier q' || Ascii.eqb q' "{" then None
                else if negb (repeatable a) then None
                else if Ascii.eqb q "*" then Some (Star a, s')
                else if Ascii.eqb q "+" then Some (Cat a (Star a), s')
                else Some (Alt a Eps, s')
            | EmptyString =>
                if negb (repeatable a) then None
                else if Ascii.eqb q "*" then Some (Star a, s')
                else if Ascii.eqb q "+" then Some (Cat a (Star a), s')
                else Some (Alt a Eps, s')
            end
          else if Ascii.eqb q "{" then None
          else Some (a, String q s')
      | other => other
      end
  end
with p_atom (n : nat) (s : string) : option (re * string) :=
  match n with
  | 0 => None
  | S n' =>
      match s with
      | EmptyString => None
      | String "(" (String "?" _) => None
      | String "(" s' =>
          match p_alt n' s' with
          | Some (a, String ")" s'') => Some (a, s'')
          | _ => None
          end
      | String "." s' => Some (Any, s')
      | String "^" s' => Some (Bol, s')
      | String "$" s' => Some (Eol, s')
      | String "\" (String c s') =>
          if is_alnum c then None else Some (Chr (PyStr.lower_char c), s')
      | String "\" EmptyString => None
      | String c s' =>
          if is_quantifier c || Ascii.eqb c "[" || Ascii.eqb c "{"
             || Ascii.eqb c ")" || Ascii.eqb c "|"
          then None
          else Some (Chr (PyStr.lower_char c), s')
      end
  end.

Definition parse (pattern : string) : option re :=
  match p_alt (4 * String.length pattern + 4) pattern with
  | Some (r, EmptyString) => Some r
  | _ => None
  end.

(** Backtracking match of [r] at the head of [s]; [bol] tells
    whether [s] is the whole subject, [k] is what has to match after. *)
Fixpoint matches (r : re) (bol : bool) (s : string)
    (k : bool -> string -> bool) : bool :=
  match r with
  | Eps => k bol s
  | Chr c =>
      match s with
      | String d s' => Ascii.eqb (PyStr.lower_char d) c && k false s'
      | EmptyString => false
      end
  | Any =>
      match s with
      | String d s' => negb (PyStr.code d =? 10)%N && k false s'
      | EmptyString => false
      end
  | Bol => bol && k bol s
  | Eol =>
      match s with
      | EmptyString => k bol s
      | String _ _ => false
      end
  | Cat a b => matches a bol s (fun bol' s' => matches b bol' s' k)
  | Alt a b => matches a bol s k || matches b bol s k
  | Star a =>
      (fix loop (n : nat) (bol : bool) (s : string) {struct n} : bool :=
         k bol s
         || match n with
            | 0 => false
            | S n' =>
                matches a bol s
                  (fun bol' s' =>
                     (String.length s' <? String.length s)%nat && loop n' bol' s')
            end) (String.length s) bol s
  end.

(** [pattern.search(s)]: a match at some position. *)
Fixpoint search_from (r : re) (bol : bool) (s : string) : bool :=
  matches r bol s (fun _ _ => true)
  || match s with
     | String _ s' => search_from r false s'
     | EmptyString => false
     end.

Definition search (r : re) (s : string) : bool := search_from r true s.

Definition compile (pattern : string) : option (string -> bool) :=
  option_map search (parse pattern).

End MiniRe.

(** The comparison the specification words: the name, taken letter for
    letter and without regard to case, ends the heading. *)
Fixpoint ends_with (suffix s : string) : bool :=
  String.eqb suffix s
  || match s with
     | String _ s' => ends_with suffix s'
     | EmptyString => false
     end.

Definition literal_heading_match (company_name heading : string) : bool :=
  ends_with (PyStr.lower company_name) (PyStr.lower heading).

(** ** Reading a run *)

Definition gotos (tr : list event) : list string :=
  flat_map (fun ev => match ev with Goto u => [u] | _ => [] end) tr.

Definition writes (tr : list event) : list (string * DataFrame) :=
  flat_map (fun ev => match ev with ToCsv p df => [(p, df)] | _ => [] end) tr.

Definition acquired (tr : list event) : list resource :=
  flat_map (fun ev => match ev with Acquire r => [r] | _ => [] end) tr.

Definition released (tr : list event) : list resource :=
  flat_map (fun ev => match ev with Release r => [r] | _ => [] end) tr.

Definition labels (df : DataFrame) : list nat := map fst (rows df).

(** The URL as the specification words it: the fixed template with the
    stock code and the slug, the company name in lower case with a
    hyphen for every space. *)
Definition slug (company_name : string) : string :=
  PyStr.replace " " "-" (PyStr.lower company_name).

Definition company_page_url (code slug : string) : string :=
  "https://www.londonstockexchange.com/stock/" ++ code ++ "/" ++ slug
  ++ "/company-page".

Definition row_url (E : Env) (cols : list string) (cells : list cell)
  : option string :=
  match getitem cols cells "company name", getitem cols cells "stock code" with
  | Some (Str name), Some code =>
      Some (company_page_url (str_of_cell E code) (slug name))
  | _, _ => None
  end.

(** The price text once trimmed and free of commas. *)
Definition clean_price (t : option string) : string :=
  PyStr.replace "," "" (PyStr.strip (or_empty t)).

Definition clean_time (t : option string) : string :=
  PyStr.strip (or_empty t).

(** A page that passes [_verify_page] for a company name. *)
Definition verified (E : Env) (resp : option response) (d : document)
    (company_name : string) : Prop :=
  exists r matcher h,
    resp = Some r /\ status r = 200%Z /\ landmark d = Ok tt
    /\ re_compile E (company_name ++ "$") = Some matcher
    /\ filter matcher (headings d) = [h].

(** The four ways a page fails [_verify_page], with what is printed. *)
Inductive verification_failure (E : Env) (company_url company_name : string)
  : option response -> document -> string -> Prop :=
| no_response d :
    verification_failure E company_url company_name None d
      ("No response for " ++ company_url)
| bad_status r d :
    status r <> 200%Z ->
    verification_failure E company_url company_name (Some r) d
      ("Bad status: " ++ PyStr.str_of_Z (status r) ++ " " ++ status_text r)
| landmark_missing r d :
    status r = 200%Z -> landmark d = Raise AssertionError ->
    verification_failure E company_url company_name (Some r) d
      "Company page landmark not found, wrong page opened."
| heading_mismatch r d matcher :
    status r = 200%Z -> landmark d = Ok tt ->
    re_compile E (company_name ++ "$") = Some matcher ->
    filter matcher (headings d) = [] ->
    verification_failure E company_url company_name (Some r) d
      ("Company heading does not match the expected company name: "
       ++ company_name).

Definition continue_message : string :=
  "Failed to correctly load company stock page" ++ PyStr.nl
  ++ "Continue to next company" ++ PyStr.nl.

(** The state on arrival at a company page: the two prints, the
    navigation, the page showing the document [d]. *)
Definition arrival (url name : string) (d : document) (st : retriever)
  : retriever :=
  set_page d
    (count_visit
       (log (Goto url)
          (log (Print ("Loading company stock page: " ++ url))
             (log (Print ("Looking for latest stock price value for " ++ name))
                st)))).

(** The row [cells] read in state [st] leads to the page [d] of the
    company [name], with the response [resp]. *)
Definition lands_on (E : Env) (cols : list string) (cells : list cell)
    (st : retriever) (name : string) (resp : option response) (d : document)
  : Prop :=
  exists code d0,
    getitem cols cells "company name" = Some (Str name)
    /\ getitem cols cells "stock code" = Some code
    /\ page st = Some d0
    /\ goto E (visits st) (company_page_url (str_of_cell E code) (slug name))
       = Ok (resp, d).

(** An element that is not there, or whose text comes out empty. *)
Definition absent_or_empty (clean : option string -> string)
    (p : result (option string)) : Prop :=
  p = Raise TimeoutError \/ exists t, p = Ok t /\ clean t = "".

(** An element whose text comes out as the non-empty [s]. *)
Definition found_text (clean : option string -> string)
    (p : result (option string)) (s : string) : Prop :=
  exists t, p = Ok t /\ clean t = s /\ s <> "".

(** A locator that times out or returns. *)
Definition settles (p : result (option string)) : Prop :=
  p = Raise TimeoutError \/ exists t, p = Ok t.

(** What the two readers return on a settled locator, and what the two
    stores then make of a frame. *)
Definition read_text (clean : option string -> string)
    (p : result (option string)) : str_or_false :=
  match p with
  | Ok t => PyText (clean t)
  | Raise _ => PyFalse
  end.

Definition store_value (idx : nat) (stock_value : str_or_false)
    (df : DataFrame) : result DataFrame :=
  match stock_value with
  | PyText s =>
      if truthy stock_value then
        match PyFloat.float_of_string s with
        | Some f => Ok (at_set df idx "value" (Float f))
        | None => Raise (ValueError s)
        end
      else Ok df
  | PyFalse => Ok df
  end.

Definition store_timestamp (idx : nat) (timestamp : str_or_false)
    (df : DataFrame) : DataFrame :=
  match timestamp with
  | PyText s => if truthy timestamp then at_set df idx "timestamp" (Str s) else df
  | PyFalse => df
  end.

(** The stores the loop makes: a scalar under [value] or [timestamp], at
    a label the frame has. *)
Inductive evolves : DataFrame -> DataFrame -> Prop :=
| evolves_refl df : evolves df df
| evolves_store df df' idx col v :
    evolves df df' ->
    has_label idx (rows df') = true ->
    col = "value" \/ col = "timestamp" ->
    evolves df (at_set df' idx col v).

(** The rows of a store at a label the frame has, as one map. *)
Definition stored (idx j : nat) (v : cell) (r : nat * list cell) : list cell :=
  if Nat.eqb (fst r) idx then set_nth j v (snd r) else snd r.

(** What one iteration, and so the whole loop, keeps: the events are
    prints and navigations, the handles stay as they are, and the frame
    changes by stores at the labels in [L] only. *)
Definition print_or_goto (ev : event) : Prop :=
  match ev with Print _ | Goto _ => True | _ => False end.

Record loop_inv (L : list nat) (st st' : retriever) : Prop := {
  inv_trace : exists evs, trace st' = trace st ++ evs /\ Forall print_or_goto evs;
  inv_playwright : playwright st' = playwright st;
  inv_browser : browser st' = browser st;
  inv_context : context st' = context st;
  inv_page : has_page st' = has_page st;
  inv_frame : forall df, df_in st = Some df -> incl L (labels df) ->
                exists df', df_in st' = Some df' /\ evolves df df'
}.

(** What the statements that neither navigate nor touch the session
    keep: they only print. *)
Definition is_print (ev : event) : Prop :=
  match ev with Print _ => True | _ => False end.

Record quiet (st st' : retriever) : Prop := {
  quiet_trace : exists evs, trace st' = trace st ++ evs /\ Forall is_print evs;
  quiet_visits : visits st' = visits st
}.

(** The state [_setup] leaves when it has read the frame [df], whose
    [timestamp] column stands at [j]. *)
Definition after_setup (E : Env) (input : string) (j : nat) (df : DataFrame)
    (st : retriever) : retriever :=
  set_df_in (map_column (astype_string E) j df)
    (set_df_in df
       (log (Print ("Reading input data file " ++ input ++ PyStr.nl)) st)).

(** What [get_stock_values_csv] keeps of the session: the handles, and
    a trace without acquisitions and releases. *)
Record session_kept (st st' : retriever) : Prop := {
  kept_playwright : playwright st' = playwright st;
  kept_browser : browser st' = browser st;
  kept_context : context st' = context st;
  kept_page : has_page st' = has_page st;
  kept_trace : exists evs, trace st' = trace st ++ evs
                           /\ acquired evs = [] /\ released evs = []
}.

(** The handles an object holds, in the order [stop] closes them. *)
Definition held (st : retriever) : list resource :=
  (if has_page st then [RPage] else [])
  ++ (if context st then [RContext] else [])
  ++ (if browser st then [RBrowser] else [])
  ++ (if playwright st then [RPlaywright] else []).

(** The object after the first steps of [start]. *)
Definition started_upto (rs : list resource) : retriever :=
  fold_left (fun st r => log (Acquire r) (set_handle r st)) rs __init__.

(** What the iteration of the row labelled [idx] keeps of the other
    rows: the frame keeps its labels and its columns (a column may be
    added at the right), and the cells of every other row under the
    columns it had. *)
Definition row_kept (idx : nat) (st st' : retriever) : Prop :=
  forall df,
    df_in st = Some df -> well_formed df -> In idx (labels df) ->
    exists df',
      df_in st' = Some df'
      /\ well_formed df'
      /\ labels df' = labels df
      /\ incl (columns df) (columns df')
      /\ forall i c, i <> idx -> In c (columns df) ->
                     cell_at df' i c = cell_at df i c.

(** A site on which every page fails verification, whatever the
    company. *)
Definition site_fails (E : Env) : Prop :=
  forall n url name,
    exists resp d msg,
      goto E n url = Ok (resp, d)
      /\ verification_failure E url name resp d msg.

(** A row the loop can address: a string under [company name], a cell
    under [stock code]. *)
Definition addressable (cols : list string) (r : nat * list cell) : Prop :=
  exists name code,
    getitem cols (snd r) "company name" = Some (Str name)
    /\ getitem cols (snd r) "stock code" = Some code.

(** A column of floats (float64: floats and missing values), and a
    column of strings as [_setup] leaves [timestamp]; a frame without
    the column satisfies either. *)
Definition holds_floats (df : DataFrame) (col : string) : Prop :=
  forall i c, cell_at df i col = Some c -> c = NA \/ exists f, c = Float f.

Definition holds_strings (df : DataFrame) (col : string) : Prop :=
  forall i c, cell_at df i col = Some c -> c = NA \/ exists s, c = Str s.

(** The steps of [start] in their order, and the ones that succeed
    before the first that raises: the handles a run opens. *)
Definition start_order : list resource :=
  [RPlaywright; RBrowser; RContext; RPage].

Fixpoint acquired_before_failure (E : Env) (rs : list resource)
  : list resource :=
  match rs with
  | [] => []
  | r :: rs' =>
      match acquire E r with
      | Ok _ => r :: acquired_before_failure E rs'
      | Raise _ => []
      end
  end.

Definition opened (E : Env) : list resource :=
  acquired_before_failure E start_order.

(** The closes [stop] makes of the handles [rs], in order: the ones
    that return before the first that raises, and its exception. *)
Fixpoint closes (E : Env) (rs : list resource) : list resource * option exn :=
  match rs with
  | [] => ([], None)
  | r :: rs' =>
      match release E r with
      | Ok _ => let (done, e) := closes E rs' in (r :: done, e)
      | Raise e => ([], Some e)
      end
  end.

(** How a statement ends when [stop] follows it in a [finally]. *)
Definition after_finally {A} (r : result A) (e : option exn) : result A :=
  match e with
  | None => r
  | Some e' => Raise e'
  end.

Definition preserves {A} (R : retriever -> retriever -> Prop) (c : M A) : Prop :=
  forall st, R st (snd (c st)).

(** ** A small world to run the program in

    Two companies; the site is given per test. *)
Module Fixture.

Definition input : DataFrame :=
  {| columns := ["company name"; "stock code"; "value"; "timestamp"];
     rows := [ (0, [Str "Tesco PLC"; Str "TSCO"; Float 300; Str "16:35"]);
               (1, [Str "Smith (DS) PLC"; Str "SMDS"; NA; NA]) ] |}.

(** The same companies in a file without the [timestamp] column. *)
Definition no_timestamp : DataFrame :=
  {| columns := ["company name"; "stock code"];
     rows := [ (0, [Str "Tesco PLC"; Str "TSCO"]);
               (1, [Str "Smith (DS) PLC"; Str "SMDS"]) ] |}.

Definition ok : option response := Some (mkResponse 200 "OK").

Definition not_found : option response := Some (mkResponse 404 "Not Found").

Definition company_page (heading price time : string) : document :=
  {| landmark := Ok tt; headings := [heading];
     price_tag := Ok (Some price); delay_ticker := Ok (Some time) |}.

(** No cell of the small world is a float that has to be shown, so
    the text of floats is left empty; the company names of the small
    world are patterns of the core [MiniRe] covers. *)
Definition env (csv : result DataFrame)
    (site : nat -> string -> result (option response * document)) : Env :=
  {| read_csv := fun _ => csv;
     to_csv := fun _ _ => Ok tt;
     repr_float := fun _ => "";
     re_compile := MiniRe.compile;
     acquire := fun _ => Ok tt;
     release := fun _ => Ok tt;
     goto := site |}.

(** A started session. *)
Definition started : retriever :=
  {| df_in := None; playwright := true; browser := true; context := true;
     page := Some blank; visits := 0; trace := [] |}.

(** Tesco's page is up with a price in thousands; the other company's
    page answers 404. *)
Definition tesco_only (n : nat) (url : string)
  : result (option response * document) :=
  if String.eqb url
       "https://www.londonstockexchange.com/stock/TSCO/tesco-plc/company-page"
  then Ok (ok, company_page "TESCO PLC" " 1,234.5 " "04.11.26 09:15")
  else Ok (not_found, blank).

(** Every page is Tesco's, and its price reads [n/a]. *)
Definition no_price (n : nat) (url : string)
  : result (option response * document) :=
  Ok (ok, company_page "TESCO PLC" "n/a" "04.11.26 09:15").

(** Tesco's page without the last-update element. *)
Definition no_ticker (price : string) (n : nat) (url : string)
  : result (option response * document) :=
  Ok (ok, {| landmark := Ok tt; headings := ["TESCO PLC"];
             price_tag := Ok (Some price);
             delay_ticker := Raise TimeoutError |}).

(** The object once [_setup] has stored the frame. *)
Definition ready : retriever :=
  {| df_in := Some input; playwright := true; browser := true;
     context := true; page := Some blank; visits := 0; trace := [] |}.

(** The object on a page that passes the landmark test and has one
    heading. *)
Definition showing (heading : string) : retriever :=
  {| df_in := Some input; playwright := true; browser := true;
     context := true; page := Some (company_page heading "1" "09:15");
     visits := 1; trace := [] |}.

Definition tesco : list cell :=
  [Str "Tesco PLC"; Str "TSCO"; Float 300; Str "16:35"].

Definition smith : list cell :=
  [Str "Smith (DS) PLC"; Str "SMDS"; NA; NA].

Definition tesco_url : string :=
  "https://www.londonstockexchange.com/stock/TSCO/tesco-plc/company-page".

Definition smith_url : string :=
  "https://www.londonstockexchange.com/stock/SMDS/smith-(ds)-plc/company-page".

(** A site that answers 503 to everything. *)
Definition down (n : nat) (url : string)
  : result (option response * document) :=
  Ok (Some (mkResponse 503 "Service Unavailable"), blank).

(** A site that cannot be reached. *)
Definition unreachable (n : nat) (url : string)
  : result (option response * document) :=
  Raise (PlaywrightError "net::ERR_NAME_NOT_RESOLVED").

(** The two companies, the first without a name. *)
Definition nameless : list cell := [NA; Str "TSCO"; NA; NA].

(** A file with the header line only. *)
Definition header_only : DataFrame :=
  {| columns := ["company name"; "stock code"; "value"; "timestamp"];
     rows := [] |}.

(** A driver that starts, and a browser that does not launch. *)
Definition no_browser (r : resource) : result unit :=
  match r with
  | RPlaywright => Ok tt
  | _ => Raise (PlaywrightError "Executable doesn't exist")
  end.

(** The same, as an environment. *)
Definition without_browser : Env :=
  {| read_csv := fun _ => Ok input;
     to_csv := fun _ _ => Ok tt;
     repr_float := fun _ => "";
     re_compile := MiniRe.compile;
     acquire := no_browser;
     release := fun _ => Ok tt;
     goto := down |}.

(** A page whose close raises, everything else going well. *)
Definition page_stuck (r : resource) : result unit :=
  match r with
  | RPage => Raise (PlaywrightError "Target crashed")
  | _ => Ok tt
  end.

Definition with_stuck_page : Env :=
  {| read_csv := fun _ => Ok input;
     to_csv := fun _ _ => Ok tt;
     repr_float := fun _ => "";
     re_compile := MiniRe.compile;
     acquire := fun _ => Ok tt;
     release := page_stuck;
     goto := tesco_only |}.

(** A file without the [company name] column. *)
Definition no_names : DataFrame :=
  {| columns := ["stock code"; "timestamp"];
     rows := [ (0, [Str "TSCO"; NA]) ] |}.

(** The object on Tesco's page. *)
Definition on_tesco_page : retriever :=
  {| df_in := Some input; playwright := true; browser := true;
     context := true;
     page := Some (company_page "TESCO PLC" " 1,234.5 " " 04.11.26 09:15 ");
     visits := 1; trace := [] |}.

End Fixture.


(** * Properties *)

(** ** Strings *)

Lemma replace_absent (c : ascii) (new s : string) :
  PyStr.contains c s = false -> PyStr.replace c new s = s.
Proof.
  induction s as [|d s IH]; simpl; intros H; [reflexivity|].
  apply orb_false_iff in H as [Hd Hs].
  rewrite Ascii.eqb_sym, Hd. now rewrite IH.
Qed.

Lemma format_URL_BASE (code slug : string) :
  PyStr.format URL_BASE [code; slug] = Some (company_page_url code slug).
Proof. reflexivity. Qed.

(** ** Reading traces *)

Lemma gotos_app (a b : list event) : gotos (a ++ b) = gotos a ++ gotos b.
Proof. apply flat_map_app. Qed.

Lemma writes_app (a b : list event) : writes (a ++ b) = writes a ++ writes b.
Proof. apply flat_map_app. Qed.

Lemma acquired_app (a b : list event) :
  acquired (a ++ b) = acquired a ++ acquired b.
Proof. apply flat_map_app. Qed.

Lemma released_app (a b : list event) :
  released (a ++ b) = released a ++ released b.
Proof. apply flat_map_app. Qed.

Lemma quiet_gotos (evs : list event) :
  Forall (fun ev => match ev with Goto _ => False | _ => True end) evs ->
  gotos evs = [].
Proof.
  induction 1 as [|ev evs H _ IH]; [reflexivity|].
  destruct ev; simpl; try assumption; contradiction.
Qed.

Lemma print_or_goto_writes (evs : list event) :
  Forall print_or_goto evs -> writes evs = [].
Proof.
  induction 1 as [|ev evs H _ IH]; [reflexivity|].
  destruct ev; simpl in *; try assumption; contradiction.
Qed.

Lemma print_or_goto_acquired (evs : list event) :
  Forall print_or_goto evs -> acquired evs = [] /\ released evs = [].
Proof.
  induction 1 as [|ev evs H _ IH]; [split; reflexivity|].
  destruct ev; simpl in *; try assumption; contradiction.
Qed.

(** ** [_setup] *)

Lemma _setup_not_found (E : Env) (input : string) (st : retriever) :
  read_csv E input = Raise FileNotFoundError ->
  _setup E input st =
  (Ok false,
   log (Print ("File " ++ input ++ " not found"))
     (log (Print ("Reading input data file " ++ input ++ PyStr.nl)) st)).
Proof.
  intros H. unfold _setup, bind, try_except, lift, print. simpl.
  rewrite H. reflexivity.
Qed.

Lemma _setup_empty (E : Env) (input : string) (st : retriever) :
  read_csv E input = Raise EmptyDataError ->
  _setup E input st =
  (Ok false,
   log (Print ("File " ++ input ++ " is empty"))
     (log (Print ("Reading input data file " ++ input ++ PyStr.nl)) st)).
Proof.
  intros H. unfold _setup, bind, try_except, lift, print. simpl.
  rewrite H. reflexivity.
Qed.

Lemma _setup_read (E : Env) (input : string) (st : retriever) (df : DataFrame) :
  read_csv E input = Ok df ->
  _setup E input st =
  let st1 := set_df_in df
               (log (Print ("Reading input data file " ++ input ++ PyStr.nl)) st) in
  match col_pos "timestamp" (columns df) with
  | Some j => (Ok true, set_df_in (map_column (astype_string E) j df) st1)
  | None => (Raise (KeyError "timestamp"), st1)
  end.
Proof.
  intros H. unfold _setup, bind, try_except, lift, print, the_frame. simpl.
  rewrite H. simpl. destruct (col_pos "timestamp" (columns df)); reflexivity.
Qed.

Lemma _setup_raises (E : Env) (input : string) (st : retriever) (e : exn) :
  read_csv E input = Raise e ->
  e <> FileNotFoundError -> e <> EmptyDataError ->
  _setup E input st =
  (Raise e, log (Print ("Reading input data file " ++ input ++ PyStr.nl)) st).
Proof.
  intros H H1 H2. unfold _setup, bind, try_except, lift, print. simpl.
  rewrite H. destruct e; try reflexivity; congruence.
Qed.

(** ** Relations every statement keeps *)

Section Preserves.

Variable R : retriever -> retriever -> Prop.
Hypothesis R_refl : forall st, R st st.
Hypothesis R_trans : forall a b c, R a b -> R b c -> R a c.

Lemma preserves_ret {A} (a : A) : preserves R (ret a).
Proof. intros st. apply R_refl. Qed.

Lemma preserves_raise {A} (e : exn) : preserves R (@raise A e).
Proof. intros st. apply R_refl. Qed.

Lemma preserves_lift {A} (r : result A) : preserves R (lift r).
Proof. intros st. apply R_refl. Qed.

Lemma preserves_bind {A B} (c : M A) (k : A -> M B) :
  preserves R c -> (forall a, preserves R (k a)) -> preserves R (bind c k).
Proof.
  intros Hc Hk st. unfold bind. specialize (Hc st).
  destruct (c st) as [[a|e] st1]; simpl in *; [|assumption].
  eapply R_trans; [eassumption|apply Hk].
Qed.

Lemma preserves_try_except {A} (c : M A) (h : exn -> option (M A)) :
  preserves R c ->
  (forall e handler, h e = Some handler -> preserves R handler) ->
  preserves R (try_except c h).
Proof.
  intros Hc Hh st. unfold try_except. specialize (Hc st).
  destruct (c st) as [[a|e] st1]; simpl in *; [assumption|].
  destruct (h e) as [handler|] eqn:He; simpl; [|assumption].
  eapply R_trans; [eassumption|]. eapply Hh; eassumption.
Qed.

Lemma preserves_for_each {A} (xs : list A) (body : A -> M unit)
    (P : A -> Prop) :
  (forall x, P x -> preserves R (body x)) ->
  Forall P xs -> preserves R (for_each xs body).
Proof.
  intros Hbody. induction 1 as [|x xs Hx _ IH]; simpl.
  - apply preserves_ret.
  - apply preserves_bind; [apply Hbody, Hx|intros _; exact IH].
Qed.

Lemma preserves_the_frame : preserves R the_frame.
Proof. intros st. unfold the_frame. destruct (df_in st); apply R_refl. Qed.

Lemma preserves_the_page : preserves R the_page.
Proof. intros st. unfold the_page. destruct (page st); apply R_refl. Qed.

Lemma preserves_on_assertion_error {A} (handler : M A) :
  preserves R handler ->
  forall e h, on_assertion_error handler e = Some h -> preserves R h.
Proof.
  intros H e h. destruct e; simpl; intros Heq; try discriminate.
  now injection Heq as <-.
Qed.

Lemma preserves_on_timeout_error {A} (handler : M A) :
  preserves R handler ->
  forall e h, on_timeout_error handler e = Some h -> preserves R h.
Proof.
  intros H e h. destruct e; simpl; intros Heq; try discriminate.
  now injection Heq as <-.
Qed.

End Preserves.

(** ** The frame under the stores of the loop *)

Lemma has_label_map_snd (f : nat * list cell -> list cell) idx rs :
  has_label idx (map (fun r => (fst r, f r)) rs) = has_label idx rs.
Proof.
  unfold has_label. induction rs as [|r rs IH]; simpl; [reflexivity|].
  now rewrite IH.
Qed.

Lemma labels_set_cell idx j v w rs :
  has_label idx rs = true ->
  map fst (set_cell idx j v w rs) = map fst rs.
Proof.
  intros H. unfold set_cell. rewrite H. rewrite map_map.
  apply map_ext. intros r. destruct (Nat.eqb (fst r) idx); reflexivity.
Qed.

Lemma labels_at_set df idx col v :
  has_label idx (rows df) = true ->
  labels (at_set df idx col v) = labels df.
Proof.
  intros H. unfold labels, at_set.
  destruct (col_pos col (columns df)); simpl.
  - now apply labels_set_cell.
  - rewrite labels_set_cell by now rewrite has_label_map_snd.
    rewrite map_map. reflexivity.
Qed.

Lemma evolves_labels df df' : evolves df df' -> labels df' = labels df.
Proof.
  induction 1 as [|df df' idx col v _ IH Hl _]; [reflexivity|].
  rewrite labels_at_set; assumption.
Qed.

Lemma evolves_trans a b c : evolves a b -> evolves b c -> evolves a c.
Proof.
  intros Hab Hbc. induction Hbc; [assumption|].
  apply evolves_store; auto.
Qed.

Lemma has_label_In idx (df : DataFrame) :
  In idx (labels df) -> has_label idx (rows df) = true.
Proof.
  unfold labels, has_label. intros H. apply in_map_iff in H as [r [Hr Hin]].
  apply existsb_exists. exists r. split; [assumption|].
  now apply Nat.eqb_eq.
Qed.

(** ** The invariant of the loop *)

Lemma loop_inv_refl L st : loop_inv L st st.
Proof.
  split; try reflexivity.
  - exists []. split; [now rewrite app_nil_r|constructor].
  - intros df H _. exists df. split; [assumption|constructor].
Qed.

Lemma loop_inv_trans L a b c : loop_inv L a b -> loop_inv L b c -> loop_inv L a c.
Proof.
  intros [[e1 [T1 F1]] P1 B1 C1 G1 D1] [[e2 [T2 F2]] P2 B2 C2 G2 D2].
  split; try congruence.
  - exists (e1 ++ e2). split.
    + now rewrite T2, T1, app_assoc.
    + apply Forall_app. split; assumption.
  - intros df Hdf HL. destruct (D1 df Hdf HL) as [df1 [Hdf1 E1]].
    destruct (D2 df1 Hdf1) as [df2 [Hdf2 E2]].
    + now rewrite (evolves_labels _ _ E1).
    + exists df2. split; [assumption|]. eapply evolves_trans; eassumption.
Qed.

Lemma loop_inv_print L text : preserves (loop_inv L) (print text).
Proof.
  intros st. simpl. split; try reflexivity.
  - exists [Print text]. split; [reflexivity|]. repeat constructor.
  - intros df H _. exists df. split; [assumption|constructor].
Qed.

Lemma loop_inv_page_goto E L url : preserves (loop_inv L) (page_goto E url).
Proof.
  intros st. unfold page_goto, bind, the_page.
  destruct (page st) as [d0|] eqn:Hp; simpl; [|apply loop_inv_refl].
  destruct (goto E (visits st) url) as [[resp d]|e]; simpl.
  all: split; simpl; try reflexivity.
  all: try (exists [Goto url]; split; [reflexivity|repeat constructor]).
  all: try (intros df H _; exists df; split; [assumption|constructor]).
  all: unfold has_page; simpl; now rewrite Hp.
Qed.

Lemma loop_inv_frame_at_set L idx col v :
  In idx L -> col = "value" \/ col = "timestamp" ->
  preserves (loop_inv L) (frame_at_set idx col v).
Proof.
  intros Hin Hcol st. unfold frame_at_set, bind, the_frame.
  destruct (df_in st) as [df|] eqn:Hdf; simpl; [|apply loop_inv_refl].
  split; simpl; try reflexivity.
  - exists []. split; [now rewrite app_nil_r|constructor].
  - intros df0 H0 HL. rewrite Hdf in H0. injection H0 as <-.
    exists (at_set df idx col v). split; [reflexivity|].
    apply evolves_store; [constructor| |assumption].
    apply has_label_In, HL, Hin.
Qed.

Ltac keep_step L :=
  first
    [ apply preserves_ret; apply loop_inv_refl
    | apply preserves_raise; apply loop_inv_refl
    | apply preserves_lift; apply loop_inv_refl
    | apply preserves_the_frame; apply loop_inv_refl
    | apply preserves_the_page; apply loop_inv_refl
    | apply loop_inv_print
    | apply loop_inv_page_goto
    | apply preserves_bind; [apply loop_inv_trans| |intros ?]
    | apply preserves_try_except; [apply loop_inv_trans| |]
    | apply preserves_on_assertion_error
    | apply preserves_on_timeout_error ].

Ltac keep L := repeat keep_step L.

Lemma loop_inv__verify_page E L resp url name :
  preserves (loop_inv L) (_verify_page E resp url name).
Proof.
  unfold _verify_page. destruct resp as [r|]; [|keep L].
  destruct (negb (status r =? 200)%Z); [keep L|].
  keep L.
  match goal with b : bool |- _ => destruct b end; keep L.
  destruct (re_compile E (name ++ "$")); keep L.
Qed.

Lemma loop_inv__get_stock_value L : preserves (loop_inv L) _get_stock_value.
Proof. unfold _get_stock_value. keep L. Qed.

Lemma loop_inv__get_last_update_timestamp L :
  preserves (loop_inv L) _get_last_update_timestamp.
Proof. unfold _get_last_update_timestamp. keep L. Qed.

Lemma loop_inv_retrieve_and_store L idx :
  In idx L -> preserves (loop_inv L) (retrieve_and_store idx).
Proof.
  intros Hin. unfold retrieve_and_store.
  apply preserves_bind; [apply loop_inv_trans|keep L|intros _].
  apply preserves_bind; [apply loop_inv_trans|keep L|intros _].
  apply preserves_bind;
    [apply loop_inv_trans|apply loop_inv__get_stock_value|intros stock_value].
  apply preserves_bind;
    [apply loop_inv_trans|apply loop_inv__get_last_update_timestamp
    |intros timestamp].
  apply preserves_bind; [apply loop_inv_trans| |intros _].
  { destruct (truthy stock_value); [|keep L].
    destruct stock_value as [|s]; [keep L|].
    apply preserves_bind; [apply loop_inv_trans| |intros f].
    - unfold py_float. destruct (PyFloat.float_of_string s); keep L.
    - apply loop_inv_frame_at_set; auto. }
  apply preserves_bind; [apply loop_inv_trans| |intros _; keep L].
  destruct (truthy timestamp); [|keep L].
  destruct timestamp as [|s]; [keep L|].
  apply loop_inv_frame_at_set; auto.
Qed.

Lemma loop_inv_loop_body E L cols r :
  In (fst r) L -> preserves (loop_inv L) (loop_body E cols r).
Proof.
  intros Hin. destruct r as [idx cells]. simpl in Hin. unfold loop_body.
  apply preserves_bind; [apply loop_inv_trans| |intros company_name].
  { unfold row_getitem. destruct (getitem _ _ _); keep L. }
  apply preserves_bind; [apply loop_inv_trans| |intros stock_code].
  { unfold row_getitem. destruct (getitem _ _ _); keep L. }
  apply preserves_bind; [apply loop_inv_trans|keep L|intros _].
  apply preserves_bind; [apply loop_inv_trans| |intros lowered].
  { unfold str_lower. destruct company_name; keep L. }
  apply preserves_bind; [apply loop_inv_trans| |intros company_url].
  { unfold py_format. destruct (PyStr.format _ _); keep L. }
  apply preserves_bind; [apply loop_inv_trans|keep L|intros _].
  apply preserves_bind; [apply loop_inv_trans|keep L|intros resp].
  apply preserves_bind;
    [apply loop_inv_trans|apply loop_inv__verify_page|intros verified].
  destruct verified; simpl; [|keep L].
  now apply loop_inv_retrieve_and_store.
Qed.

Lemma loop_inv_for_each E L cols rs :
  incl (map fst rs) L ->
  preserves (loop_inv L) (for_each rs (loop_body E cols)).
Proof.
  intros Hincl.
  apply preserves_for_each with (P := fun r => In (fst r) L).
  - apply loop_inv_refl.
  - apply loop_inv_trans.
  - intros r Hr. now apply loop_inv_loop_body.
  - apply Forall_forall. intros r Hr. apply Hincl. now apply in_map.
Qed.

(** ** Cells and columns under a store *)

Lemma length_set_nth {A} j (v : A) l : length (set_nth j v l) = length l.
Proof.
  revert j. induction l as [|a l IH]; intros [|j]; simpl; auto.
Qed.

Lemma nth_error_set_nth_eq {A} j (v : A) l :
  j < length l -> nth_error (set_nth j v l) j = Some v.
Proof.
  revert j. induction l as [|a l IH]; intros [|j] H; simpl in *; try lia; auto.
  apply IH. lia.
Qed.

Lemma nth_error_set_nth_neq {A} j j' (v : A) l :
  j <> j' -> nth_error (set_nth j v l) j' = nth_error l j'.
Proof.
  revert j j'. induction l as [|a l IH]; intros [|j] [|j'] H; simpl; auto;
    try congruence.
Qed.

Lemma col_pos_None c cols : col_pos c cols = None <-> ~ In c cols.
Proof.
  induction cols as [|c' cols IH]; simpl; [tauto|].
  destruct (String.eqb_spec c c') as [->|Hne].
  - split; [discriminate|]. intros H. exfalso. apply H. now left.
  - destruct (col_pos c cols) eqn:Hp; simpl.
    + split; [discriminate|]. intros H. exfalso.
      assert (Hn : ~ In c cols) by (intros Hi; apply H; now right).
      apply IH in Hn. discriminate.
    + split; [|reflexivity]. intros _ [Heq|Hin]; [congruence|].
      now apply IH in Hin.
Qed.

Lemma col_pos_Some c cols j :
  col_pos c cols = Some j -> nth_error cols j = Some c.
Proof.
  revert j. induction cols as [|c' cols IH]; simpl; intros j; [discriminate|].
  destruct (String.eqb_spec c c') as [->|Hne].
  - now intros [= <-].
  - destruct (col_pos c cols); simpl; [|discriminate].
    intros [= <-]. simpl. now apply IH.
Qed.

Lemma col_pos_lt c cols j : col_pos c cols = Some j -> j < length cols.
Proof.
  intros H. apply col_pos_Some in H. apply nth_error_Some. congruence.
Qed.

Lemma col_pos_inj c c' cols j :
  col_pos c cols = Some j -> col_pos c' cols = Some j -> c = c'.
Proof.
  intros H H'. apply col_pos_Some in H, H'. congruence.
Qed.

Lemma col_pos_app_old c cols extra j :
  col_pos c cols = Some j -> col_pos c (cols ++ extra) = Some j.
Proof.
  revert j. induction cols as [|c' cols IH]; simpl; intros j; [discriminate|].
  destruct (String.eqb c c'); [auto|].
  destruct (col_pos c cols); simpl; [|discriminate].
  intros [= <-]. now rewrite (IH n).
Qed.

Lemma col_pos_app_new c cols :
  col_pos c cols = None -> col_pos c (cols ++ [c]) = Some (length cols).
Proof.
  induction cols as [|c' cols IH]; simpl.
  - now rewrite String.eqb_refl.
  - destruct (String.eqb c c'); [discriminate|].
    destruct (col_pos c cols); simpl; [discriminate|].
    intros _. now rewrite IH.
Qed.

Lemma col_pos_app_other c col cols :
  col_pos c cols = None -> c <> col -> col_pos c (cols ++ [col]) = None.
Proof.
  intros H Hne. apply col_pos_None. apply col_pos_None in H.
  intros Hin. apply in_app_or in Hin as [Hin|[Hin|[]]]; auto.
Qed.

Lemma find_map_label (g : nat * list cell -> list cell) i rs :
  find (fun r => Nat.eqb (fst r) i) (map (fun r => (fst r, g r)) rs)
  = option_map (fun r => (fst r, g r)) (find (fun r => Nat.eqb (fst r) i) rs).
Proof.
  induction rs as [|r rs IH]; simpl; [reflexivity|].
  destruct (Nat.eqb (fst r) i); [reflexivity|assumption].
Qed.

Lemma find_has_label i rs :
  has_label i rs = true ->
  exists r, find (fun r => Nat.eqb (fst r) i) rs = Some r /\ fst r = i /\ In r rs.
Proof.
  unfold has_label. induction rs as [|r rs IH]; simpl; [discriminate|].
  destruct (Nat.eqb (fst r) i) eqn:Hr; simpl.
  - intros _. exists r. apply Nat.eqb_eq in Hr. auto.
  - intros H. destruct (IH H) as [r' [? [? ?]]]. exists r'. auto.
Qed.

Lemma set_cell_stored idx j v w rs :
  has_label idx rs = true ->
  set_cell idx j v w rs = map (fun r => (fst r, stored idx j v r)) rs.
Proof.
  intros H. unfold set_cell. rewrite H. apply map_ext. intros [i cells].
  unfold stored. simpl. destruct (Nat.eqb i idx); reflexivity.
Qed.

Lemma at_set_rows df idx col v :
  has_label idx (rows df) = true ->
  rows (at_set df idx col v) =
  match col_pos col (columns df) with
  | Some j => map (fun r => (fst r, stored idx j v r)) (rows df)
  | None =>
      map (fun r => (fst r, stored idx (length (columns df)) v
                              (fst r, snd r ++ [NA]))) (rows df)
  end.
Proof.
  intros H. unfold at_set. destruct (col_pos col (columns df)); simpl.
  - now apply set_cell_stored.
  - rewrite set_cell_stored by now rewrite has_label_map_snd.
    now rewrite map_map.
Qed.

Lemma well_formed_at_set df idx col v :
  well_formed df -> has_label idx (rows df) = true ->
  well_formed (at_set df idx col v).
Proof.
  intros (Hnd & Hlab & Hw) Hl. unfold well_formed.
  pose proof (labels_at_set df idx col v Hl) as Hlabels. unfold labels in Hlabels.
  rewrite Hlabels.
  assert (Hlen : length (rows (at_set df idx col v)) = length (rows df)).
  { rewrite <- (length_map fst), Hlabels. apply length_map. }
  rewrite Hlen. rewrite at_set_rows by assumption. unfold at_set.
  destruct (col_pos col (columns df)) as [j|] eqn:Hc; simpl.
  - repeat split; try assumption.
    apply Forall_map. eapply Forall_impl; [|exact Hw].
    intros r Hr. simpl. unfold stored.
    destruct (Nat.eqb (fst r) idx); [now rewrite length_set_nth|assumption].
  - repeat split; try assumption.
    + apply NoDup_app; [assumption|repeat constructor; intros []| ].
      intros c Hin [<-|[]]. apply col_pos_None in Hc. contradiction.
    + apply Forall_map. eapply Forall_impl; [|exact Hw].
      intros r Hr. simpl. unfold stored. simpl.
      destruct (Nat.eqb (fst r) idx);
        rewrite ?length_set_nth, !length_app, Hr; reflexivity.
Qed.

Lemma well_formed_evolves df df' :
  well_formed df -> evolves df df' -> well_formed df'.
Proof.
  intros Hwf. induction 1; [assumption|].
  apply well_formed_at_set; auto.
Qed.

Lemma cell_at_at_set_other df idx col v i c :
  well_formed df -> has_label idx (rows df) = true -> c <> col ->
  cell_at (at_set df idx col v) i c = cell_at df i c.
Proof.
  intros (_ & _ & Hw) Hl Hne. unfold cell_at.
  rewrite at_set_rows by assumption. unfold at_set.
  destruct (col_pos col (columns df)) as [j|] eqn:Hc; simpl.
  - rewrite find_map_label.
    destruct (find _ (rows df)) as [r|]; simpl; [|reflexivity].
    unfold getitem. destruct (col_pos c (columns df)) as [j'|] eqn:Hc';
      [|reflexivity].
    unfold stored. destruct (Nat.eqb (fst r) idx); [|reflexivity].
    apply nth_error_set_nth_neq. intros ->. apply Hne.
    eapply col_pos_inj; eassumption.
  - rewrite (find_map_label
               (fun r => stored idx (length (columns df)) v
                           (fst r, snd r ++ [NA]))).
    destruct (find _ (rows df)) as [r|] eqn:Hf; simpl; [|reflexivity].
    apply find_some in Hf as [Hin _].
    rewrite Forall_forall in Hw. specialize (Hw r Hin).
    unfold getitem. destruct (col_pos c (columns df)) as [j'|] eqn:Hc'.
    + rewrite (col_pos_app_old _ _ _ _ Hc').
      pose proof (col_pos_lt _ _ _ Hc') as Hlt.
      unfold stored. simpl.
      destruct (Nat.eqb (fst r) idx);
        rewrite ?nth_error_set_nth_neq by lia;
        apply nth_error_app1; lia.
    + now rewrite col_pos_app_other.
Qed.

Lemma cell_at_at_set_same df idx col v :
  well_formed df -> has_label idx (rows df) = true ->
  cell_at (at_set df idx col v) idx col = Some v.
Proof.
  intros (_ & _ & Hw) Hl. unfold cell_at.
  rewrite at_set_rows by assumption. unfold at_set.
  destruct (find_has_label _ _ Hl) as [r (Hf & Hr & Hin)].
  rewrite Forall_forall in Hw. specialize (Hw r Hin).
  destruct (col_pos col (columns df)) as [j|] eqn:Hc; simpl.
  - rewrite find_map_label, Hf. simpl. unfold getitem. rewrite Hc.
    unfold stored. rewrite Hr, Nat.eqb_refl.
    apply nth_error_set_nth_eq. apply col_pos_lt in Hc. lia.
  - rewrite (find_map_label
               (fun r => stored idx (length (columns df)) v
                           (fst r, snd r ++ [NA]))), Hf.
    simpl. unfold getitem. rewrite (col_pos_app_new _ _ Hc).
    unfold stored. simpl. rewrite Hr, Nat.eqb_refl.
    apply nth_error_set_nth_eq. rewrite length_app. simpl. lia.
Qed.

(** What the loop leaves of a frame that has the [timestamp] column:
    the labels in their order, the columns in their order with [value]
    added at the right when it was not there, and every cell outside
    the two columns. *)
Lemma evolves_columns df df' :
  In "timestamp" (columns df) -> evolves df df' ->
  columns df' = columns df
  \/ (~ In "value" (columns df) /\ columns df' = columns df ++ ["value"]).
Proof.
  intros Hts. induction 1 as [|df df' idx col v _ IH _ Hcol];
    [now left|].
  specialize (IH Hts). unfold at_set. destruct (col_pos col (columns df')) as [j|] eqn:Hc; simpl;
    [assumption|].
  apply col_pos_None in Hc. destruct Hcol as [-> | ->].
  - destruct IH as [IH|[Hv IH]]; rewrite IH in *.
    + right. auto.
    + exfalso. apply Hc. apply in_or_app. right. now left.
  - exfalso. apply Hc. destruct IH as [IH|[_ IH]]; rewrite IH; auto.
    apply in_or_app. now left.
Qed.

Lemma evolves_cells df df' i c :
  well_formed df -> evolves df df' ->
  c <> "value" -> c <> "timestamp" ->
  cell_at df' i c = cell_at df i c.
Proof.
  intros Hwf Hev Hv Ht. induction Hev as [|df df' idx col v Hev IH Hl Hcol];
    [reflexivity|].
  rewrite cell_at_at_set_other; auto.
  - eapply well_formed_evolves; eassumption.
  - destruct Hcol as [-> | ->]; assumption.
Qed.

(** ** The frame [_setup] hands to the loop *)

Lemma labels_map_column f j df : labels (map_column f j df) = labels df.
Proof. unfold labels, map_column. simpl. now rewrite map_map. Qed.

Lemma well_formed_map_column f j df :
  well_formed df -> well_formed (map_column f j df).
Proof.
  intros (Hnd & Hlab & Hw). unfold well_formed.
  pose proof (labels_map_column f j df) as Hl. unfold labels in Hl.
  rewrite Hl. simpl. rewrite length_map. repeat split; try assumption.
  apply Forall_map. eapply Forall_impl; [|exact Hw].
  intros r Hr. simpl. destruct (nth_error (snd r) j);
    [now rewrite length_set_nth|assumption].
Qed.

Lemma cell_at_map_column f j df i c :
  col_pos c (columns df) <> Some j ->
  cell_at (map_column f j df) i c = cell_at df i c.
Proof.
  intros Hne. unfold cell_at, map_column. simpl.
  rewrite (find_map_label
             (fun r => match nth_error (snd r) j with
                       | Some c => set_nth j (f c) (snd r)
                       | None => snd r
                       end)).
  destruct (find _ (rows df)) as [r|]; simpl; [|reflexivity].
  unfold getitem. destruct (col_pos c (columns df)) as [j'|]; [|reflexivity].
  destruct (nth_error (snd r) j); [|reflexivity].
  apply nth_error_set_nth_neq. congruence.
Qed.

Lemma get_stock_values_csv_read (E : Env) (input output : string)
    (st : retriever) (df : DataFrame) (j : nat) :
  read_csv E input = Ok df ->
  col_pos "timestamp" (columns df) = Some j ->
  get_stock_values_csv E input output st =
  (for_each (rows (map_column (astype_string E) j df))
            (loop_body E (columns df)) ;;;
   frame_to_csv E output ;;;
   print ("Data saved in " ++ output))
     (after_setup E input j df st).
Proof.
  intros Hread Hcol. unfold get_stock_values_csv.
  unfold bind at 1. rewrite (_setup_read _ _ _ _ Hread). simpl.
  rewrite Hcol. simpl. unfold bind at 1. reflexivity.
Qed.

Lemma get_stock_values_csv_no_timestamp (E : Env) (input output : string)
    (st : retriever) (df : DataFrame) :
  read_csv E input = Ok df ->
  col_pos "timestamp" (columns df) = None ->
  get_stock_values_csv E input output st =
  (Raise (KeyError "timestamp"),
   set_df_in df
     (log (Print ("Reading input data file " ++ input ++ PyStr.nl)) st)).
Proof.
  intros Hread Hcol. unfold get_stock_values_csv.
  unfold bind at 1. rewrite (_setup_read _ _ _ _ Hread). simpl.
  rewrite Hcol. reflexivity.
Qed.

(** C1, for the calls that return: for every input CSV with N
    well-formed rows, a call of [get_stock_values_csv] that returns (no
    exception left the loop or the write) has written exactly one
    output frame, with the same N row labels in the input's order, the
    input's columns in their order ([value] added at the right when the
    input had none), and every cell outside [value] and [timestamp] as
    it was read. *)
Theorem output_rows_match_input (E : Env) (input output : string)
    (st : retriever) (df : DataFrame) :
  read_csv E input = Ok df ->
  well_formed df ->
  fst (get_stock_values_csv E input output st) = Ok tt ->
  exists out,
    writes (trace (snd (get_stock_values_csv E input output st)))
      = writes (trace st) ++ [(output, out)]
    /\ length (rows out) = length (rows df)
    /\ labels out = labels df
    /\ (columns out = columns df
        \/ (~ In "value" (columns df)
            /\ columns out = columns df ++ ["value"]))
    /\ forall i c, c <> "value" -> c <> "timestamp" ->
                   cell_at out i c = cell_at df i c.
Proof.
  intros Hread Hwf Hok.
  destruct (col_pos "timestamp" (columns df)) as [j|] eqn:Hcol.
  2:{ rewrite (get_stock_values_csv_no_timestamp _ _ _ _ _ Hread Hcol) in Hok.
      discriminate. }
  rewrite (get_stock_values_csv_read _ _ _ _ _ _ Hread Hcol) in *.
  set (st2 := after_setup E input j df st) in *.
  set (df1 := map_column (astype_string E) j df) in *.
  pose proof (loop_inv_for_each E (labels df1) (columns df) (rows df1)
                (incl_refl _) st2) as Hinv.
  unfold bind in Hok |- *.
  destruct (for_each (rows df1) (loop_body E (columns df)) st2)
    as [[[]|e] st3]; [|discriminate].
  simpl in Hinv. destruct Hinv as [[evs [Htr Hevs]] _ _ _ _ Hfr].
  destruct (Hfr df1 eq_refl (incl_refl _)) as [out [Hout Hev]].
  unfold frame_to_csv, bind, the_frame, lift in Hok |- *.
  rewrite Hout in Hok |- *.
  destruct (to_csv E output out) as [[]|e]; [|discriminate].
  simpl. exists out.
  assert (Hwf1 : well_formed df1) by now apply well_formed_map_column.
  assert (Hlab : labels out = labels df).
  { rewrite (evolves_labels _ _ Hev). apply labels_map_column. }
  repeat split.
  - rewrite Htr. subst st2. unfold after_setup. simpl. rewrite !writes_app.
    rewrite (print_or_goto_writes _ Hevs). simpl.
    now rewrite !app_nil_r.
  - unfold labels in Hlab. rewrite <- (length_map fst), Hlab. apply length_map.
  - exact Hlab.
  - apply (evolves_columns df1 out); [|assumption].
    simpl. apply Decidable.not_not.
    + destruct (in_dec string_dec "timestamp" (columns df)); [now left|now right].
    + intros Hn. apply col_pos_None in Hn. congruence.
  - intros i c Hv Ht. rewrite (evolves_cells df1 out) by assumption.
    apply cell_at_map_column. intros Hc. apply Ht.
    eapply col_pos_inj; eassumption.
Qed.

(** ** One iteration, step by step *)

Lemma loop_body_to_goto (E : Env) cols idx cells name code st :
  getitem cols cells "company name" = Some (Str name) ->
  getitem cols cells "stock code" = Some code ->
  loop_body E cols (idx, cells) st =
  (resp <- page_goto E (company_page_url (str_of_cell E code) (slug name)) ;;
   verified <- _verify_page E resp
                 (company_page_url (str_of_cell E code) (slug name)) name ;;
   if negb verified then print continue_message
   else retrieve_and_store idx)
    (log (Print ("Loading company stock page: "
                 ++ company_page_url (str_of_cell E code) (slug name)))
       (log (Print ("Looking for latest stock price value for " ++ name)) st)).
Proof.
  intros Hname Hcode.
  unfold loop_body, row_getitem. rewrite Hname, Hcode.
  unfold bind at 1. simpl. unfold bind at 1. simpl.
  unfold bind at 1. simpl. unfold bind at 1. simpl.
  unfold py_format. rewrite format_URL_BASE.
  unfold bind at 1. simpl. unfold bind at 1. simpl. reflexivity.
Qed.

Lemma page_goto_run (E : Env) url d0 st :
  page st = Some d0 ->
  page_goto E url st =
  match goto E (visits st) url with
  | Ok (resp, d) => (Ok resp, set_page d (count_visit (log (Goto url) st)))
  | Raise e => (Raise e, count_visit (log (Goto url) st))
  end.
Proof.
  intros Hp. unfold page_goto, bind, the_page. rewrite Hp.
  destruct (goto E (visits st) url) as [[resp d]|e]; reflexivity.
Qed.

Lemma page_goto_no_page (E : Env) url st :
  page st = None ->
  page_goto E url st = (Raise (AttributeError "NoneType"), st).
Proof. intros Hp. unfold page_goto, bind, the_page. now rewrite Hp. Qed.

Lemma loop_body_arrives (E : Env) cols idx cells name code d0 resp d st :
  getitem cols cells "company name" = Some (Str name) ->
  getitem cols cells "stock code" = Some code ->
  page st = Some d0 ->
  goto E (visits st) (company_page_url (str_of_cell E code) (slug name))
    = Ok (resp, d) ->
  loop_body E cols (idx, cells) st =
  (verified <- _verify_page E resp
                 (company_page_url (str_of_cell E code) (slug name)) name ;;
   if negb verified then print continue_message
   else retrieve_and_store idx)
    (arrival (company_page_url (str_of_cell E code) (slug name)) name d st).
Proof.
  intros Hname Hcode Hpage Hgoto.
  rewrite (loop_body_to_goto E cols idx cells name code st Hname Hcode).
  unfold bind at 1. rewrite (page_goto_run E _ d0) by exact Hpage.
  cbn [visits log]. rewrite Hgoto. reflexivity.
Qed.

Lemma _verify_page_fails (E : Env) url name resp d msg st :
  verification_failure E url name resp d msg ->
  page st = Some d ->
  _verify_page E resp url name st = (Ok false, log (Print msg) st).
Proof.
  intros Hf Hp. unfold _verify_page.
  destruct Hf as [d|r d Hs|r d Hs Hl|r d m Hs Hl Hc Hh].
  - reflexivity.
  - apply Z.eqb_neq in Hs. rewrite Hs. reflexivity.
  - rewrite Hs. simpl.
    unfold bind, try_except, the_page, lift. simpl. rewrite Hp, Hl. reflexivity.
  - rewrite Hs. simpl.
    unfold bind, try_except, the_page, lift. simpl. rewrite Hp, Hl. simpl.
    rewrite Hp, Hc. unfold expect_heading. rewrite Hh. reflexivity.
Qed.

Lemma _verify_page_passes (E : Env) url name resp d st :
  verified E resp d name ->
  page st = Some d ->
  _verify_page E resp url name st = (Ok true, st).
Proof.
  intros (r & m & h & -> & Hs & Hl & Hc & Hh) Hp. unfold _verify_page.
  rewrite Hs. simpl.
  unfold bind, try_except, the_page, lift. simpl. rewrite Hp, Hl. simpl.
  rewrite Hp, Hc. unfold expect_heading. rewrite Hh. reflexivity.
Qed.

Lemma page_arrival url name d st : page (arrival url name d st) = Some d.
Proof. reflexivity. Qed.

Lemma df_in_arrival url name d st : df_in (arrival url name d st) = df_in st.
Proof. reflexivity. Qed.

(** C2: a row whose page fails verification (no response, a status
    other than 200, no landmark, no heading matching the company name)
    has the failure printed, leaves the frame as it was, so the row
    keeps its value and timestamp, and the loop goes on with the rows
    that follow: the iteration ends without an exception. *)
Theorem failed_verification_skips_row (E : Env) cols idx cells rest
    name code d0 resp d msg st :
  getitem cols cells "company name" = Some (Str name) ->
  getitem cols cells "stock code" = Some code ->
  page st = Some d0 ->
  goto E (visits st) (company_page_url (str_of_cell E code) (slug name))
    = Ok (resp, d) ->
  verification_failure E
    (company_page_url (str_of_cell E code) (slug name)) name resp d msg ->
  exists st',
    loop_body E cols (idx, cells) st = (Ok tt, st')
    /\ trace st' =
       trace st ++
       [ Print ("Looking for latest stock price value for " ++ name);
         Print ("Loading company stock page: "
                ++ company_page_url (str_of_cell E code) (slug name));
         Goto (company_page_url (str_of_cell E code) (slug name));
         Print msg;
         Print continue_message ]
    /\ df_in st' = df_in st
    /\ for_each ((idx, cells) :: rest) (loop_body E cols) st
       = for_each rest (loop_body E cols) st'.
Proof.
  intros Hname Hcode Hpage Hgoto Hfail.
  pose proof (loop_body_arrives E cols idx cells name code d0 resp d st
                Hname Hcode Hpage Hgoto) as Hrun.
  unfold bind in Hrun at 1.
  rewrite (_verify_page_fails _ _ _ _ _ _ _ Hfail (page_arrival _ _ _ _)) in Hrun.
  simpl in Hrun. eexists. split; [exact Hrun|].
  split; [|split].
  - simpl. rewrite <- !app_assoc. reflexivity.
  - reflexivity.
  - simpl. unfold bind at 1. rewrite Hrun. reflexivity.
Qed.

(** ** The two readers and the two stores *)

Lemma _get_stock_value_settled d st :
  page st = Some d -> settles (price_tag d) ->
  exists st1,
    _get_stock_value st = (Ok (read_text clean_price (price_tag d)), st1)
    /\ df_in st1 = df_in st /\ page st1 = page st.
Proof.
  intros Hp Hs. unfold _get_stock_value, try_except, bind, the_page, lift.
  rewrite Hp. destruct Hs as [Hs|[t Hs]]; rewrite Hs; simpl.
  - eexists. split; [reflexivity|]. split; [reflexivity|exact Hp].
  - eexists. split; [|split; [reflexivity|exact Hp]]. unfold ret, clean_price.
    destruct (PyStr.contains "," (PyStr.strip (or_empty t))) eqn:Hc; simpl;
      [reflexivity|].
    now rewrite replace_absent.
Qed.

Lemma _get_last_update_timestamp_settled d st :
  page st = Some d -> settles (delay_ticker d) ->
  exists st1,
    _get_last_update_timestamp st
      = (Ok (read_text clean_time (delay_ticker d)), st1)
    /\ df_in st1 = df_in st /\ page st1 = page st.
Proof.
  intros Hp Hs. unfold _get_last_update_timestamp, try_except, bind, the_page, lift.
  rewrite Hp. destruct Hs as [Hs|[t Hs]]; rewrite Hs; simpl.
  - eexists. split; [reflexivity|]. split; [reflexivity|exact Hp].
  - eexists. split; [reflexivity|]. split; [reflexivity|exact Hp].
Qed.

Lemma frame_at_set_run idx col v df st :
  df_in st = Some df ->
  frame_at_set idx col v st = (Ok tt, set_df_in (at_set df idx col v) st).
Proof.
  intros H. unfold frame_at_set, bind, the_frame. now rewrite H.
Qed.

Lemma retrieve_and_store_run idx d df st :
  page st = Some d -> df_in st = Some df ->
  settles (price_tag d) -> settles (delay_ticker d) ->
  exists st',
    retrieve_and_store idx st =
      (match store_value idx (read_text clean_price (price_tag d)) df with
       | Ok _ => Ok tt
       | Raise e => Raise e
       end, st')
    /\ df_in st' =
       Some (match store_value idx (read_text clean_price (price_tag d)) df with
             | Ok df1 =>
                 store_timestamp idx (read_text clean_time (delay_ticker d)) df1
             | Raise _ => df
             end).
Proof.
  intros Hp Hdf Hprice Htime. unfold retrieve_and_store.
  unfold bind at 1. simpl. unfold bind at 1. simpl.
  set (st0 := log _ (log _ st)).
  assert (Hp0 : page st0 = Some d) by exact Hp.
  assert (Hdf0 : df_in st0 = Some df) by exact Hdf.
  destruct (_get_stock_value_settled d st0 Hp0 Hprice) as (st1 & R1 & D1 & P1).
  unfold bind at 1. rewrite R1.
  assert (Hp1 : page st1 = Some d) by congruence.
  destruct (_get_last_update_timestamp_settled d st1 Hp1 Htime)
    as (st2 & R2 & D2 & P2).
  unfold bind at 1. rewrite R2.
  assert (Hdf2 : df_in st2 = Some df) by congruence.
  generalize (read_text clean_price (price_tag d)) as sv.
  generalize (read_text clean_time (delay_ticker d)) as ts.
  intros ts sv. unfold store_value, store_timestamp.
  assert (Hts : forall st3 df3, df_in st3 = Some df3 ->
            exists st',
              ((if truthy ts then
                  match ts with
                  | PyText s => frame_at_set idx "timestamp" (Str s)
                  | PyFalse => ret tt
                  end
                else ret tt) ;;; print "") st3 = (Ok tt, st')
              /\ df_in st' =
                 Some match ts with
                      | PyText s =>
                          if truthy ts then at_set df3 idx "timestamp" (Str s)
                          else df3
                      | PyFalse => df3
                      end).
  { intros st3 df3 H3. unfold bind.
    destruct ts as [|[|c u]]; simpl; try (eexists; split; [reflexivity|exact H3]).
    rewrite (frame_at_set_run _ _ _ _ _ H3). simpl.
    eexists; split; reflexivity. }
  destruct sv as [|s]; simpl.
  - unfold bind at 1. simpl. apply Hts, Hdf2.
  - destruct s as [|c s]; simpl.
    + unfold bind at 1. simpl. apply Hts, Hdf2.
    + unfold py_float.
      destruct (PyFloat.float_of_string (String c s)) as [f|]; simpl.
      * unfold bind at 1. unfold bind at 1. simpl.
        rewrite (frame_at_set_run _ _ _ _ _ Hdf2). apply Hts. reflexivity.
      * unfold bind, raise. simpl. eexists; split; [reflexivity|assumption].
Qed.

Lemma loop_body_verified (E : Env) cols idx cells name code d0 resp d df st :
  getitem cols cells "company name" = Some (Str name) ->
  getitem cols cells "stock code" = Some code ->
  page st = Some d0 ->
  goto E (visits st) (company_page_url (str_of_cell E code) (slug name))
    = Ok (resp, d) ->
  verified E resp d name ->
  df_in st = Some df ->
  settles (price_tag d) -> settles (delay_ticker d) ->
  exists st',
    loop_body E cols (idx, cells) st =
      (match store_value idx (read_text clean_price (price_tag d)) df with
       | Ok _ => Ok tt
       | Raise e => Raise e
       end, st')
    /\ df_in st' =
       Some (match store_value idx (read_text clean_price (price_tag d)) df with
             | Ok df1 =>
                 store_timestamp idx (read_text clean_time (delay_ticker d)) df1
             | Raise _ => df
             end).
Proof.
  intros Hname Hcode Hpage Hgoto Hver Hdf Hprice Htime.
  rewrite (loop_body_arrives E cols idx cells name code d0 resp d st
             Hname Hcode Hpage Hgoto).
  unfold bind at 1.
  rewrite (_verify_page_passes _ _ _ _ _ _ Hver (page_arrival _ _ _ _)).
  simpl. apply retrieve_and_store_run with (d := d); auto.
Qed.

Lemma for_each_step {A} (x : A) (xs : list A) (body : A -> M unit) st st' :
  body x st = (Ok tt, st') ->
  for_each (x :: xs) body st = for_each xs body st'.
Proof. intros H. simpl. unfold bind. now rewrite H. Qed.

Lemma cell_at_store_timestamp idx ts df i c :
  well_formed df -> In idx (labels df) -> c <> "timestamp" ->
  cell_at (store_timestamp idx ts df) i c = cell_at df i c.
Proof.
  intros Hwf Hin Hc. unfold store_timestamp.
  destruct ts as [|s]; [reflexivity|].
  destruct (truthy (PyText s)); [|reflexivity].
  apply cell_at_at_set_other; auto using has_label_In.
Qed.

Lemma cell_at_store_timestamp_found idx df p s :
  well_formed df -> In idx (labels df) ->
  found_text clean_time p s ->
  cell_at (store_timestamp idx (read_text clean_time p) df) idx "timestamp"
  = Some (Str s).
Proof.
  intros Hwf Hin (t & -> & Hs & Hne). simpl. rewrite Hs.
  destruct s as [|c s]; [congruence|]. simpl.
  apply cell_at_at_set_same; auto using has_label_In.
Qed.

Lemma store_timestamp_absent idx df p :
  absent_or_empty clean_time p ->
  store_timestamp idx (read_text clean_time p) df = df.
Proof. intros [->|(t & -> & Ht)]; simpl; [|rewrite Ht]; reflexivity. Qed.

Lemma store_value_absent idx df p :
  absent_or_empty clean_price p ->
  store_value idx (read_text clean_price p) df = Ok df.
Proof. intros [->|(t & -> & Ht)]; simpl; [|rewrite Ht]; reflexivity. Qed.

Lemma store_value_found idx df p s :
  found_text clean_price p s ->
  store_value idx (read_text clean_price p) df =
  match PyFloat.float_of_string s with
  | Some f => Ok (at_set df idx "value" (Float f))
  | None => Raise (ValueError s)
  end.
Proof.
  intros (t & -> & Hs & Hne). simpl. rewrite Hs.
  destruct s as [|c s]; [congruence|]. reflexivity.
Qed.

Lemma absent_or_found clean p :
  settles p -> absent_or_empty clean p \/ exists s, found_text clean p s.
Proof.
  intros [->|[t ->]]; [left; now left|].
  destruct (string_dec (clean t) "") as [He|Hne].
  - left. right. eauto.
  - right. exists (clean t), t. auto.
Qed.

Lemma labels_store_value idx sv df df1 :
  In idx (labels df) -> store_value idx sv df = Ok df1 ->
  labels df1 = labels df.
Proof.
  intros Hin. unfold store_value. destruct sv as [|s]; [now intros [= <-]|].
  destruct (truthy (PyText s)); [|now intros [= <-]].
  destruct (PyFloat.float_of_string s); [|discriminate].
  intros [= <-]. apply labels_at_set. now apply has_label_In.
Qed.

Lemma well_formed_store_value idx sv df df1 :
  well_formed df -> In idx (labels df) -> store_value idx sv df = Ok df1 ->
  well_formed df1.
Proof.
  intros Hwf Hin. unfold store_value. destruct sv as [|s]; [now intros [= <-]|].
  destruct (truthy (PyText s)); [|now intros [= <-]].
  destruct (PyFloat.float_of_string s); [|discriminate].
  intros [= <-]. apply well_formed_at_set; auto using has_label_In.
Qed.

(** ** The types of the two columns *)

Lemma cell_at_at_set_cases df idx col v i c :
  well_formed df -> has_label idx (rows df) = true ->
  cell_at (at_set df idx col v) i col = Some c ->
  c = v \/ c = NA \/ cell_at df i col = Some c.
Proof.
  intros (_ & _ & Hw) Hl. unfold cell_at.
  rewrite at_set_rows by assumption. unfold at_set.
  destruct (col_pos col (columns df)) as [j|] eqn:Hc; simpl.
  - rewrite find_map_label.
    destruct (find _ (rows df)) as [r|] eqn:Hf; simpl; [|discriminate].
    apply find_some in Hf as [Hin _].
    rewrite Forall_forall in Hw. specialize (Hw r Hin).
    unfold getitem. rewrite Hc. unfold stored.
    destruct (Nat.eqb (fst r) idx); [|auto].
    rewrite nth_error_set_nth_eq by (apply col_pos_lt in Hc; lia).
    intros [= <-]. now left.
  - rewrite (find_map_label
               (fun r => stored idx (length (columns df)) v
                           (fst r, snd r ++ [NA]))).
    destruct (find _ (rows df)) as [r|] eqn:Hf; simpl; [|discriminate].
    apply find_some in Hf as [Hin _].
    rewrite Forall_forall in Hw. specialize (Hw r Hin).
    unfold getitem. rewrite (col_pos_app_new _ _ Hc).
    unfold stored. simpl. destruct (Nat.eqb (fst r) idx).
    + rewrite nth_error_set_nth_eq by (rewrite length_app; simpl; lia).
      intros [= <-]. now left.
    + rewrite nth_error_app2 by lia. rewrite Hw, Nat.sub_diag. simpl.
      intros [= <-]. right. now left.
Qed.

Lemma holds_floats_store_value idx sv df df1 :
  well_formed df -> In idx (labels df) -> holds_floats df "value" ->
  store_value idx sv df = Ok df1 -> holds_floats df1 "value".
Proof.
  intros Hwf Hin Hfl. unfold store_value.
  destruct sv as [|s]; [now intros [= <-]|].
  destruct (truthy (PyText s)); [|now intros [= <-]].
  destruct (PyFloat.float_of_string s) as [f|]; [|discriminate].
  intros [= <-] i c Hc.
  apply cell_at_at_set_cases in Hc; auto using has_label_In.
  destruct Hc as [->|[->|Hc]]; [right; eauto|now left|eapply Hfl; eassumption].
Qed.

Lemma holds_strings_store_value idx sv df df1 :
  well_formed df -> In idx (labels df) -> holds_strings df "timestamp" ->
  store_value idx sv df = Ok df1 -> holds_strings df1 "timestamp".
Proof.
  intros Hwf Hin Hstr. unfold store_value.
  destruct sv as [|s]; [now intros [= <-]|].
  destruct (truthy (PyText s)); [|now intros [= <-]].
  destruct (PyFloat.float_of_string s) as [f|]; [|discriminate].
  intros [= <-] i c Hc.
  rewrite cell_at_at_set_other in Hc;
    auto using has_label_In; [|discriminate].
  eapply Hstr; eassumption.
Qed.

Lemma holds_floats_store_timestamp idx ts df :
  well_formed df -> In idx (labels df) -> holds_floats df "value" ->
  holds_floats (store_timestamp idx ts df) "value".
Proof.
  intros Hwf Hin Hfl i c Hc.
  rewrite cell_at_store_timestamp in Hc; auto; [|discriminate].
  eapply Hfl; eassumption.
Qed.

Lemma holds_strings_store_timestamp idx ts df :
  well_formed df -> In idx (labels df) -> holds_strings df "timestamp" ->
  holds_strings (store_timestamp idx ts df) "timestamp".
Proof.
  intros Hwf Hin Hstr. unfold store_timestamp.
  destruct ts as [|s]; [assumption|].
  destruct (truthy (PyText s)); [|assumption].
  intros i c Hc.
  apply cell_at_at_set_cases in Hc; auto using has_label_In.
  destruct Hc as [->|[->|Hc]]; [right; eauto|now left|eapply Hstr; eassumption].
Qed.

(** C4: on a verified page whose price element has a text, the value
    stored in the row is the float of that text once trimmed and rid of
    all its commas: [1,234.5] is stored as 1234.5.  The frame is one
    whose [value] column, when it has one, is a column of floats, the
    type under which the store of a float is a plain store, and whose
    [timestamp] column is the column of strings [_setup] makes; the
    iteration leaves the two columns such. *)
Theorem price_with_commas_is_stored_as_float (E : Env) cols idx cells name
    resp d df st text f :
  lands_on E cols cells st name resp d ->
  verified E resp d name ->
  df_in st = Some df -> well_formed df -> In idx (labels df) ->
  holds_floats df "value" -> holds_strings df "timestamp" ->
  price_tag d = Ok (Some text) ->
  PyFloat.float_of_string (PyStr.replace "," "" (PyStr.strip text)) = Some f ->
  settles (delay_ticker d) ->
  exists st' df',
    loop_body E cols (idx, cells) st = (Ok tt, st')
    /\ df_in st' = Some df'
    /\ cell_at df' idx "value" = Some (Float f)
    /\ holds_floats df' "value"
    /\ holds_strings df' "timestamp".
Proof.
  intros (code & d0 & Hname & Hcode & Hpage & Hgoto) Hver Hdf Hwf Hin
    Hfl Hstr Hprice Hfloat Htime.
  assert (Hsettles : settles (price_tag d)) by (right; eauto).
  destruct (loop_body_verified E cols idx cells name code d0 resp d df st
              Hname Hcode Hpage Hgoto Hver Hdf Hsettles Htime)
    as (st' & Hrun & Hdf').
  assert (Hfound : found_text clean_price (price_tag d)
                     (PyStr.replace "," "" (PyStr.strip text))).
  { exists (Some text). repeat split; [assumption|]. intros He.
    rewrite He in Hfloat. discriminate. }
  assert (Hstore : store_value idx (read_text clean_price (price_tag d)) df
                   = Ok (at_set df idx "value" (Float f))).
  { now rewrite (store_value_found _ _ _ _ Hfound), Hfloat. }
  rewrite Hstore in Hrun, Hdf'.
  pose proof (labels_store_value _ _ _ _ Hin Hstore) as Hlab1.
  pose proof (well_formed_store_value _ _ _ _ Hwf Hin Hstore) as Hwf1.
  assert (Hin1 : In idx (labels (at_set df idx "value" (Float f))))
    by now rewrite Hlab1.
  exists st', (store_timestamp idx (read_text clean_time (delay_ticker d))
                 (at_set df idx "value" (Float f))).
  split; [assumption|]. split; [assumption|]. split; [|split].
  - rewrite cell_at_store_timestamp; auto; [|discriminate].
    apply cell_at_at_set_same; auto using has_label_In.
  - apply holds_floats_store_timestamp; auto.
    exact (holds_floats_store_value _ _ _ _ Hwf Hin Hfl Hstore).
  - apply holds_strings_store_timestamp; auto.
    exact (holds_strings_store_value _ _ _ _ Hwf Hin Hstr Hstore).
Qed.

(** C6, with a price text that parses and columns of the stored types:
    on a verified page, a price or a last-update element that is absent
    (the locator times out) or whose text comes out empty leaves its
    field of the row as it was; the other field is stored when it is
    found, the value provided its text parses as a float; and the loop
    goes on with the next row.  The [value] column, when the frame has
    one, is a column of floats and the [timestamp] column the column of
    strings [_setup] makes, and the iteration leaves them such. *)
Theorem absent_field_keeps_prior_value (E : Env) cols idx cells rest name
    resp d df st :
  lands_on E cols cells st name resp d ->
  verified E resp d name ->
  df_in st = Some df -> well_formed df -> In idx (labels df) ->
  holds_floats df "value" -> holds_strings df "timestamp" ->
  settles (price_tag d) -> settles (delay_ticker d) ->
  (forall s, found_text clean_price (price_tag d) s ->
             PyFloat.float_of_string s <> None) ->
  exists st' df',
    loop_body E cols (idx, cells) st = (Ok tt, st')
    /\ df_in st' = Some df'
    /\ for_each ((idx, cells) :: rest) (loop_body E cols) st
       = for_each rest (loop_body E cols) st'
    /\ (absent_or_empty clean_price (price_tag d) ->
        cell_at df' idx "value" = cell_at df idx "value")
    /\ (absent_or_empty clean_time (delay_ticker d) ->
        cell_at df' idx "timestamp" = cell_at df idx "timestamp")
    /\ (forall s f, found_text clean_price (price_tag d) s ->
                    PyFloat.float_of_string s = Some f ->
                    cell_at df' idx "value" = Some (Float f))
    /\ (forall s, found_text clean_time (delay_ticker d) s ->
                  cell_at df' idx "timestamp" = Some (Str s))
    /\ holds_floats df' "value"
    /\ holds_strings df' "timestamp".
Proof.
  intros (code & d0 & Hname & Hcode & Hpage & Hgoto) Hver Hdf Hwf Hin
    Hfl Hstr Hprice Htime Hparses.
  destruct (loop_body_verified E cols idx cells name code d0 resp d df st
              Hname Hcode Hpage Hgoto Hver Hdf Hprice Htime)
    as (st' & Hrun & Hdf').
  destruct (store_value idx (read_text clean_price (price_tag d)) df)
    as [df1|e] eqn:Hstore.
  2:{ exfalso. destruct (absent_or_found clean_price _ Hprice) as [Ha|[s Hs]].
      - rewrite (store_value_absent _ _ _ Ha) in Hstore. discriminate.
      - rewrite (store_value_found _ _ _ _ Hs) in Hstore.
        specialize (Hparses s Hs).
        destruct (PyFloat.float_of_string s); [discriminate|congruence]. }
  pose proof (labels_store_value _ _ _ _ Hin Hstore) as Hlab1.
  pose proof (well_formed_store_value _ _ _ _ Hwf Hin Hstore) as Hwf1.
  pose proof (holds_floats_store_value _ _ _ _ Hwf Hin Hfl Hstore) as Hfl1.
  pose proof (holds_strings_store_value _ _ _ _ Hwf Hin Hstr Hstore) as Hstr1.
  assert (Hin1 : In idx (labels df1)) by now rewrite Hlab1.
  exists st', (store_timestamp idx (read_text clean_time (delay_ticker d)) df1).
  split; [assumption|]. split; [assumption|].
  split; [now apply for_each_step|].
  split; [|split; [|split; [|split; [|split]]]].
  - intros Ha. rewrite (store_value_absent _ _ _ Ha) in Hstore.
    injection Hstore as <-. apply cell_at_store_timestamp; auto. discriminate.
  - intros Ha. rewrite (store_timestamp_absent _ _ _ Ha).
    destruct (absent_or_found clean_price _ Hprice) as [Hp|[s Hs]].
    + rewrite (store_value_absent _ _ _ Hp) in Hstore. now injection Hstore as <-.
    + rewrite (store_value_found _ _ _ _ Hs) in Hstore.
      destruct (PyFloat.float_of_string s); [|discriminate].
      injection Hstore as <-.
      apply cell_at_at_set_other; auto using has_label_In. discriminate.
  - intros s f Hs Hf. rewrite (store_value_found _ _ _ _ Hs), Hf in Hstore.
    injection Hstore as <-. rewrite cell_at_store_timestamp; auto.
    + apply cell_at_at_set_same; auto using has_label_In.
    + discriminate.
  - intros s Hs. now apply cell_at_store_timestamp_found.
  - now apply holds_floats_store_timestamp.
  - now apply holds_strings_store_timestamp.
Qed.

(** ** Statements that only print *)

Lemma quiet_refl st : quiet st st.
Proof.
  split; [|reflexivity]. exists []. split; [now rewrite app_nil_r|constructor].
Qed.

Lemma quiet_trans a b c : quiet a b -> quiet b c -> quiet a c.
Proof.
  intros [[e1 [T1 F1]] V1] [[e2 [T2 F2]] V2]. split; [|congruence].
  exists (e1 ++ e2). split; [now rewrite T2, T1, app_assoc|].
  apply Forall_app. split; assumption.
Qed.

Lemma quiet_print text : preserves quiet (print text).
Proof.
  intros st. split; [|reflexivity]. exists [Print text].
  split; [reflexivity|repeat constructor].
Qed.

Lemma quiet_frame_at_set idx col v : preserves quiet (frame_at_set idx col v).
Proof.
  intros st. unfold frame_at_set, bind, the_frame.
  destruct (df_in st); simpl; [|apply quiet_refl].
  split; [|reflexivity]. exists []. split; [now rewrite app_nil_r|constructor].
Qed.

Ltac hush_step :=
  first
    [ apply preserves_ret; apply quiet_refl
    | apply preserves_raise; apply quiet_refl
    | apply preserves_lift; apply quiet_refl
    | apply preserves_the_frame; apply quiet_refl
    | apply preserves_the_page; apply quiet_refl
    | apply quiet_print
    | apply quiet_frame_at_set
    | apply preserves_bind; [apply quiet_trans| |intros ?]
    | apply preserves_try_except; [apply quiet_trans| |]
    | apply preserves_on_assertion_error
    | apply preserves_on_timeout_error ].

Ltac hush := repeat hush_step.

Lemma quiet__verify_page E resp url name :
  preserves quiet (_verify_page E resp url name).
Proof.
  unfold _verify_page. destruct resp as [r|]; [|hush].
  destruct (negb (status r =? 200)%Z); [hush|].
  hush.
  match goal with b : bool |- _ => destruct b end; hush.
  destruct (re_compile E (name ++ "$")); hush.
Qed.

Lemma quiet_retrieve_and_store idx : preserves quiet (retrieve_and_store idx).
Proof.
  unfold retrieve_and_store.
  apply preserves_bind; [apply quiet_trans|hush|intros _].
  apply preserves_bind; [apply quiet_trans|hush|intros _].
  apply preserves_bind;
    [apply quiet_trans|unfold _get_stock_value; hush|intros stock_value].
  apply preserves_bind;
    [apply quiet_trans|unfold _get_last_update_timestamp; hush
    |intros timestamp].
  apply preserves_bind; [apply quiet_trans| |intros _].
  { destruct (truthy stock_value); [|hush].
    destruct stock_value as [|s]; [hush|].
    apply preserves_bind; [apply quiet_trans| |intros f; hush].
    unfold py_float. destruct (PyFloat.float_of_string s); hush. }
  apply preserves_bind; [apply quiet_trans| |intros _; hush].
  destruct (truthy timestamp); [|hush].
  destruct timestamp as [|s]; hush.
Qed.

Lemma quiet_gotos_eq st st' : quiet st st' -> gotos (trace st') = gotos (trace st).
Proof.
  intros [[evs [-> Hevs]] _]. rewrite gotos_app.
  rewrite (quiet_gotos evs), app_nil_r; [reflexivity|].
  eapply Forall_impl; [|exact Hevs]. intros []; simpl; tauto.
Qed.

(** The part of an iteration after the navigation. *)
Lemma quiet_after_goto E resp url name idx :
  preserves quiet
    (verified <- _verify_page E resp url name ;;
     if negb verified then print continue_message
     else retrieve_and_store idx).
Proof.
  apply preserves_bind; [apply quiet_trans|apply quiet__verify_page|].
  intros []; simpl; [apply quiet_retrieve_and_store|apply quiet_print].
Qed.

(** ** The pages an iteration visits *)

Lemma bind_run {A B} (c : M A) (k : A -> M B) st :
  bind c k st =
  match c st with
  | (Ok a, st') => k a st'
  | (Raise e, st') => (Raise e, st')
  end.
Proof. reflexivity. Qed.

Lemma loop_body_gotos (E : Env) cols r st :
  (fst (loop_body E cols r st) <> Ok tt
   /\ gotos (trace (snd (loop_body E cols r st))) = gotos (trace st))
  \/ (exists u, row_url E cols (snd r) = Some u
      /\ gotos (trace (snd (loop_body E cols r st))) = gotos (trace st) ++ [u]).
Proof.
  destruct r as [idx cells]. unfold row_url.
  change (snd (idx, cells)) with cells.
  destruct (getitem cols cells "company name") as [cn|] eqn:Hname.
  2:{ left. unfold loop_body, row_getitem, bind, raise. rewrite Hname. simpl.
      split; [discriminate|reflexivity]. }
  destruct (getitem cols cells "stock code") as [code|] eqn:Hcode.
  2:{ left. unfold loop_body, row_getitem, bind, raise, ret.
      rewrite Hname, Hcode. simpl. split; [discriminate|].
      destruct cn; reflexivity. }
  destruct cn as [|name|z|f].
  1,3,4: left; unfold loop_body, row_getitem, bind, raise, ret;
    rewrite Hname, Hcode; simpl; split; [discriminate|];
    rewrite gotos_app; simpl; apply app_nil_r.
  rewrite (loop_body_to_goto E cols idx cells name code st Hname Hcode).
  set (st0 := log _ (log _ st)).
  assert (Hg0 : gotos (trace st0) = gotos (trace st)).
  { subst st0. cbn [trace log]. rewrite !gotos_app. simpl.
    now rewrite !app_nil_r. }
  assert (Hv0 : visits st0 = visits st) by reflexivity.
  destruct (page st) as [d0|] eqn:Hpage.
  2:{ left. rewrite bind_run.
      rewrite page_goto_no_page by exact Hpage. cbn [fst snd].
      split; [discriminate|exact Hg0]. }
  right. exists (company_page_url (str_of_cell E code) (slug name)).
  split; [reflexivity|]. rewrite bind_run.
  rewrite (page_goto_run E _ d0) by exact Hpage. rewrite Hv0.
  destruct (goto E (visits st)
              (company_page_url (str_of_cell E code) (slug name)))
    as [[resp d]|e] eqn:Hgoto.
  - rewrite (quiet_gotos_eq _ _ (quiet_after_goto E resp _ name idx _)).
    cbn [trace set_page count_visit log]. rewrite gotos_app, Hg0.
    reflexivity.
  - cbn [snd trace set_page count_visit log]. rewrite gotos_app, Hg0.
    reflexivity.
Qed.

Lemma for_each_gotos (E : Env) cols rs st :
  exists n,
    n <= length rs
    /\ gotos (trace (snd (for_each rs (loop_body E cols) st)))
       = gotos (trace st) ++ 
         flat_map (fun r => match row_url E cols (snd r) with
                            | Some u => [u]
                            | None => []
                            end) (firstn n rs)
    /\ Forall (fun r => row_url E cols (snd r) <> None) (firstn n rs)
    /\ (fst (for_each rs (loop_body E cols) st) = Ok tt -> n = length rs).
Proof.
  revert st. induction rs as [|r rs IH]; intros st.
  - exists 0. simpl. rewrite app_nil_r. repeat split; auto.
  - simpl for_each. unfold bind.
    destruct (loop_body_gotos E cols r st) as [[Hres Hg]|[u [Hu Hg]]].
    + exists 0. destruct (loop_body E cols r st) as [[[]|e] st1]; simpl in *;
        [congruence|].
      rewrite Hg, app_nil_r. repeat split; auto; try lia. discriminate.
    + destruct (loop_body E cols r st) as [[[]|e] st1]; simpl in *.
      * destruct (IH st1) as (n & Hn & Hgs & Hall & Hfull).
        exists (S n). simpl. rewrite Hu. simpl.
        repeat split; try lia.
        -- rewrite Hgs, Hg, <- app_assoc. reflexivity.
        -- constructor; [congruence|assumption].
        -- intros H. f_equal. auto.
      * exists 1. simpl. rewrite Hu. simpl.
        repeat split; try lia; try discriminate; auto.
        constructor; [congruence|constructor].
Qed.

Lemma map_Some_flat_map {A B} (f : A -> option B) (l : list A) :
  Forall (fun x => f x <> None) l ->
  map Some (flat_map (fun x => match f x with
                               | Some u => [u]
                               | None => []
                               end) l) = map f l.
Proof.
  induction 1 as [|x l Hx _ IH]; [reflexivity|]. simpl.
  destruct (f x); [|congruence]. simpl. now rewrite IH.
Qed.

Lemma row_url_map_column (E : Env) f j cols cells :
  col_pos "timestamp" cols = Some j ->
  row_url E cols (match nth_error cells j with
                  | Some c => set_nth j (f c) cells
                  | None => cells
                  end) = row_url E cols cells.
Proof.
  intros Hj.
  assert (H : forall c, c <> "timestamp" ->
            getitem cols (match nth_error cells j with
                          | Some c => set_nth j (f c) cells
                          | None => cells
                          end) c = getitem cols cells c).
  { intros c Hc. unfold getitem.
    destruct (col_pos c cols) as [j'|] eqn:Hc'; [|reflexivity].
    destruct (nth_error cells j); [|reflexivity].
    apply nth_error_set_nth_neq. intros ->. apply Hc.
    eapply col_pos_inj; eassumption. }
  unfold row_url. rewrite !H by discriminate. reflexivity.
Qed.

Lemma frame_to_csv_gotos (E : Env) output st :
  gotos (trace (snd ((frame_to_csv E output ;;;
                      print ("Data saved in " ++ output)) st)))
  = gotos (trace st).
Proof.
  unfold frame_to_csv, bind, the_frame, lift, print.
  destruct (df_in st) as [df|]; [|reflexivity].
  destruct (to_csv E output df) as [[]|e]; [|reflexivity].
  cbn [snd trace log]. rewrite !gotos_app. simpl. now rewrite !app_nil_r.
Qed.

(** C7: the pages a run visits are, in the order of the rows and one
    per row up to the row the run got to (all of them when it
    returns), those of the fixed template
    [https://www.londonstockexchange.com/stock/{code}/{slug}/company-page]
    with the row's stock code and the slug of its company name: the
    name in lower case, a hyphen for every space. *)
Theorem visited_urls_follow_template (E : Env) (input output : string)
    (st : retriever) (df : DataFrame) :
  read_csv E input = Ok df ->
  exists n urls,
    gotos (trace (snd (get_stock_values_csv E input output st)))
      = gotos (trace st) ++ urls
    /\ n <= length (rows df)
    /\ map Some urls
       = map (fun r => row_url E (columns df) (snd r)) (firstn n (rows df))
    /\ (fst (get_stock_values_csv E input output st) = Ok tt ->
        n = length (rows df)).
Proof.
  intros Hread.
  destruct (col_pos "timestamp" (columns df)) as [j|] eqn:Hcol.
  2:{ rewrite (get_stock_values_csv_no_timestamp _ _ _ _ _ Hread Hcol).
      exists 0, []. cbn [fst snd trace set_df_in log].
      rewrite gotos_app, app_nil_r. simpl.
      repeat split; try lia; try discriminate. now rewrite app_nil_r. }
  rewrite (get_stock_values_csv_read _ _ _ _ _ _ Hread Hcol).
  set (st2 := after_setup E input j df st).
  assert (Hg2 : gotos (trace st2) = gotos (trace st)).
  { subst st2. unfold after_setup. cbn [trace set_df_in log].
    rewrite gotos_app. simpl. now rewrite app_nil_r. }
  set (df1 := map_column (astype_string E) j df).
  destruct (for_each_gotos E (columns df) (rows df1) st2)
    as (n & Hn & Hg & Hall & Hfull).
  assert (Hrows : rows df1 =
            map (fun r => (fst r,
                           match nth_error (snd r) j with
                           | Some c => set_nth j (astype_string E c) (snd r)
                           | None => snd r
                           end)) (rows df)) by reflexivity.
  exists n, (flat_map (fun r => match row_url E (columns df) (snd r) with
                                | Some u => [u]
                                | None => []
                                end) (firstn n (rows df1))).
  rewrite bind_run.
  destruct (for_each (rows df1) (loop_body E (columns df)) st2)
    as [[[]|e] st3] eqn:Hloop; cbn [fst snd] in Hg, Hfull |- *.
  1: rewrite frame_to_csv_gotos.
  all: rewrite Hg, Hg2; split; [reflexivity|].
  all: split; [rewrite Hrows, length_map in Hn; exact Hn|].
  all: split;
    [rewrite map_Some_flat_map by exact Hall;
     rewrite Hrows, firstn_map, map_map; apply map_ext; intros r;
     cbn [snd]; now apply row_url_map_column|].
  - intros _. rewrite Hfull by reflexivity. rewrite Hrows. apply length_map.
  - discriminate.
Qed.

Lemma for_each_app_raise {A} (pre post : list A) (x : A) (body : A -> M unit)
    st st1 e st' :
  for_each pre body st = (Ok tt, st1) ->
  body x st1 = (Raise e, st') ->
  for_each (pre ++ x :: post) body st = (Raise e, st').
Proof.
  revert st. induction pre as [|y pre IH]; intros st Hpre Hx; simpl in *.
  - injection Hpre as <-. rewrite bind_run, Hx. reflexivity.
  - rewrite bind_run in Hpre |- *.
    destruct (body y st) as [[[]|e0] st0]; [|discriminate]. now apply IH.
Qed.

(** C9: when the price text of a row, on its verified page, is not
    empty and is not the text of a float, [float] raises [ValueError]
    there and nothing catches it: [get_stock_values_csv] ends with that
    exception, no page is visited after that row's, and no output is
    written. *)
Theorem unparseable_price_aborts_batch (E : Env) (input output : string)
    (st : retriever) (df : DataFrame) j pre idx cells post st1 name resp d s :
  read_csv E input = Ok df ->
  col_pos "timestamp" (columns df) = Some j ->
  rows (map_column (astype_string E) j df) = pre ++ (idx, cells) :: post ->
  for_each pre (loop_body E (columns df)) (after_setup E input j df st)
    = (Ok tt, st1) ->
  lands_on E (columns df) cells st1 name resp d ->
  verified E resp d name ->
  found_text clean_price (price_tag d) s ->
  PyFloat.float_of_string s = None ->
  settles (delay_ticker d) ->
  exists st',
    get_stock_values_csv E input output st = (Raise (ValueError s), st')
    /\ writes (trace st') = writes (trace st)
    /\ visits st' = S (visits st1).
Proof.
  intros Hread Hcol Hrows Hpre (code & d0 & Hname & Hcode & Hpage & Hgoto)
    Hver Hfound Hnone Htime.
  rewrite (get_stock_values_csv_read _ _ _ _ _ _ Hread Hcol).
  set (st2 := after_setup E input j df st) in *.
  set (df1 := map_column (astype_string E) j df) in *.
  assert (Hlabels : labels df1 = map fst pre ++ idx :: map fst post).
  { unfold labels. rewrite Hrows, map_app. reflexivity. }
  (* the rows before *)
  pose proof (loop_inv_for_each E (labels df1) (columns df) pre) as Hinv.
  specialize (Hinv (ltac:(rewrite Hlabels; apply incl_appl, incl_refl)) st2).
  rewrite Hpre in Hinv. cbn [snd] in Hinv.
  destruct Hinv as [[evs [Htr Hevs]] _ _ _ _ Hfr].
  destruct (Hfr df1 eq_refl (incl_refl _)) as [df' [Hdf' _]].
  (* the row *)
  assert (Hprice : settles (price_tag d)).
  { destruct Hfound as (t & Ht & _). right. eauto. }
  destruct (loop_body_verified E (columns df) idx cells name code d0 resp d
              df' st1 Hname Hcode Hpage Hgoto Hver Hdf' Hprice Htime)
    as (st' & Hrun & _).
  rewrite (store_value_found _ _ _ _ Hfound), Hnone in Hrun.
  exists st'. split; [|split].
  - rewrite bind_run, Hrows.
    rewrite (for_each_app_raise pre post (idx, cells) _ st2 st1
               (ValueError s) st' Hpre Hrun).
    reflexivity.
  - pose proof (loop_inv_loop_body E [idx] (columns df) (idx, cells)
                  (or_introl eq_refl) st1) as Hrow.
    rewrite Hrun in Hrow. cbn [snd] in Hrow.
    destruct Hrow as [[evs' [Htr' Hevs']] _ _ _ _ _].
    rewrite Htr', Htr. subst st2. unfold after_setup.
    cbn [trace set_df_in log]. rewrite !writes_app.
    rewrite (print_or_goto_writes _ Hevs), (print_or_goto_writes _ Hevs').
    simpl. now rewrite !app_nil_r.
  - pose proof (loop_body_arrives E (columns df) idx cells name code d0 resp d
                  st1 Hname Hcode Hpage Hgoto) as Harr.
    rewrite Hrun in Harr.
    pose proof (quiet_after_goto E resp
                  (company_page_url (str_of_cell E code) (slug name)) name idx
                  (arrival (company_page_url (str_of_cell E code) (slug name))
                     name d st1)) as Hq.
    rewrite <- Harr in Hq. cbn [snd] in Hq.
    destruct Hq as [_ Hv]. rewrite Hv. reflexivity.
Qed.

(** ** Opening and closing the session *)

Lemma gotos_releases l : gotos (map Release l) = [].
Proof. induction l; simpl; auto. Qed.

Lemma writes_releases l : writes (map Release l) = [].
Proof. induction l; simpl; auto. Qed.

Lemma acquired_releases l : acquired (map Release l) = [].
Proof. induction l; simpl; auto. Qed.

Lemma released_releases l : released (map Release l) = l.
Proof. induction l; simpl; congruence. Qed.

Lemma stop_run (E : Env) st :
  exists st',
    stop E st = (after_finally (Ok tt) (snd (closes E (held st))), st')
    /\ trace st' = trace st ++ map Release (fst (closes E (held st)))
    /\ held st' = held st
    /\ df_in st' = df_in st /\ page st' = page st /\ visits st' = visits st.
Proof.
  destruct st as [df pw br cx pg vs tr].
  unfold stop, release_if, bind, held, has_page.
  cbn [page context browser playwright log].
  destruct pg, cx, br, pw; cbn [app closes];
    destruct (release E RPage) as [[]|e1];
    destruct (release E RContext) as [[]|e2];
    destruct (release E RBrowser) as [[]|e3];
    destruct (release E RPlaywright) as [[]|e4];
    eexists; (split; [reflexivity|]);
    cbn [trace log fst snd map df_in page visits context browser playwright];
    rewrite <- ?app_assoc; cbn [app]; rewrite ?app_nil_r; auto 7.
Qed.

Lemma closes_all (E : Env) rs :
  (forall r, release E r = Ok tt) -> closes E rs = (rs, None).
Proof.
  intros H. induction rs as [|r rs IH]; simpl; [reflexivity|].
  now rewrite H, IH.
Qed.

Lemma closes_first_failure (E : Env) before r e after :
  (forall r', In r' before -> release E r' = Ok tt) ->
  release E r = Raise e ->
  closes E (before ++ r :: after) = (before, Some e).
Proof.
  intros Hb Hr. induction before as [|b before IH]; simpl.
  - now rewrite Hr.
  - rewrite (Hb b) by now left. rewrite IH; [reflexivity|].
    intros r' Hin. apply Hb. now right.
Qed.

Lemma start_cases (E : Env) :
  start E __init__
    = (Ok tt, started_upto [RPlaywright; RBrowser; RContext; RPage])
  \/ exists e rs,
       start E __init__ = (Raise e, started_upto rs)
       /\ In rs [ []; [RPlaywright]; [RPlaywright; RBrowser];
                  [RPlaywright; RBrowser; RContext] ].
Proof.
  unfold start, acquire_handle, lift. rewrite !bind_run.
  destruct (acquire E RPlaywright) as [[]|e];
    [|right; exists e, []; simpl; auto].
  rewrite !bind_run.
  destruct (acquire E RBrowser) as [[]|e];
    [|right; exists e, [RPlaywright]; simpl; auto].
  rewrite !bind_run.
  destruct (acquire E RContext) as [[]|e];
    [|right; exists e, [RPlaywright; RBrowser]; simpl; auto].
  destruct (acquire E RPage) as [[]|e];
    [|right; exists e, [RPlaywright; RBrowser; RContext]; simpl; auto 6].
  left. reflexivity.
Qed.

Lemma start_run (E : Env) :
  (start E __init__ = (Ok tt, started_upto start_order)
   /\ opened E = start_order
   /\ forall r, acquire E r = Ok tt)
  \/ (exists e,
        start E __init__ = (Raise e, started_upto (opened E))
        /\ In (opened E) [ []; [RPlaywright]; [RPlaywright; RBrowser];
                           [RPlaywright; RBrowser; RContext] ]
        /\ exists r, acquire E r = Raise e).
Proof.
  unfold start, acquire_handle, lift, opened, start_order.
  cbn [acquired_before_failure]. rewrite !bind_run.
  destruct (acquire E RPlaywright) as [[]|e] eqn:H1.
  2:{ right. exists e. split; [reflexivity|]. split; [simpl; auto|eauto]. }
  rewrite !bind_run.
  destruct (acquire E RBrowser) as [[]|e] eqn:H2.
  2:{ right. exists e. split; [reflexivity|]. split; [simpl; auto|eauto]. }
  rewrite !bind_run.
  destruct (acquire E RContext) as [[]|e] eqn:H3.
  2:{ right. exists e. split; [reflexivity|]. split; [simpl; auto|eauto]. }
  destruct (acquire E RPage) as [[]|e] eqn:H4.
  2:{ right. exists e. split; [reflexivity|]. split; [simpl; auto 6|eauto]. }
  left. repeat split. intros []; assumption.
Qed.

(** How the body of the [try] ends: [start] fails at one of its steps,
    or [get_stock_values_csv] runs on the started object. *)
Lemma body_run (E : Env) input output :
  (exists e,
     In (opened E) [ []; [RPlaywright]; [RPlaywright; RBrowser];
                     [RPlaywright; RBrowser; RContext] ]
     /\ (start E ;;; get_stock_values_csv E input output) __init__
        = (Raise e, started_upto (opened E)))
  \/ (opened E = start_order
      /\ (start E ;;; get_stock_values_csv E input output) __init__
         = get_stock_values_csv E input output (started_upto start_order)).
Proof.
  rewrite bind_run.
  destruct (start_run E) as [(-> & Ho & _)|(e & -> & Hrs & _)];
    [now right|].
  left. eauto.
Qed.

Lemma main_run (E : Env) input output :
  exists st',
    main E input output
    = (after_finally
         (fst ((start E ;;; get_stock_values_csv E input output) __init__))
         (snd (closes E
                 (held (snd ((start E ;;; get_stock_values_csv E input output)
                               __init__))))),
       st')
    /\ trace st'
       = trace (snd ((start E ;;; get_stock_values_csv E input output)
                       __init__))
         ++ map Release
              (fst (closes E
                      (held (snd ((start E ;;;
                                   get_stock_values_csv E input output)
                                    __init__))))).
Proof.
  unfold main, try_finally.
  destruct ((start E ;;; get_stock_values_csv E input output) __init__)
    as [r st1].
  destruct (stop_run E st1) as (st' & -> & Htr & _). cbn [fst snd].
  exists st'. split; [|exact Htr].
  destruct (snd (closes E (held st1))); reflexivity.
Qed.

(** ** The session through [get_stock_values_csv] *)

Lemma session_kept_refl st : session_kept st st.
Proof.
  split; try reflexivity. exists []. now rewrite app_nil_r.
Qed.

Lemma session_kept_trans a b c :
  session_kept a b -> session_kept b c -> session_kept a c.
Proof.
  intros [P1 B1 C1 G1 (e1 & T1 & A1 & R1)] [P2 B2 C2 G2 (e2 & T2 & A2 & R2)].
  split; try congruence. exists (e1 ++ e2).
  rewrite T2, T1, app_assoc, acquired_app, released_app, A1, A2, R1, R2. auto.
Qed.

Lemma session_kept_loop_inv L st st' : loop_inv L st st' -> session_kept st st'.
Proof.
  intros [(evs & T & F) P B C G _]. split; try assumption.
  exists evs. split; [assumption|]. now apply print_or_goto_acquired.
Qed.

Lemma session_kept_print text : preserves session_kept (print text).
Proof.
  intros st. split; try reflexivity. exists [Print text]. auto.
Qed.

Lemma session_kept_set_df_in {A} (a : A) df :
  preserves session_kept (fun st => (Ok a, set_df_in df st)).
Proof.
  intros st. split; try reflexivity. exists []. now rewrite app_nil_r.
Qed.

Lemma session_kept_to_csv path df :
  preserves session_kept (fun st => (Ok tt, log (ToCsv path df) st)).
Proof.
  intros st. split; try reflexivity. exists [ToCsv path df]. auto.
Qed.

Ltac session_step :=
  first
    [ apply preserves_ret; apply session_kept_refl
    | apply preserves_raise; apply session_kept_refl
    | apply preserves_lift; apply session_kept_refl
    | apply preserves_the_frame; apply session_kept_refl
    | apply session_kept_print
    | apply session_kept_set_df_in
    | apply session_kept_to_csv
    | apply preserves_bind; [apply session_kept_trans| |intros ?]
    | apply preserves_try_except; [apply session_kept_trans| |] ].

Lemma session_kept__setup (E : Env) input : preserves session_kept (_setup E input).
Proof.
  unfold _setup. repeat session_step.
  - intros e handler. destruct e; try discriminate;
      intros [= <-]; repeat session_step.
  - match goal with b : bool |- _ => destruct b end; repeat session_step.
    match goal with |- context [col_pos ?c ?l] => destruct (col_pos c l) end;
      repeat session_step.
Qed.

Lemma session_kept_get_stock_values_csv (E : Env) input output :
  preserves session_kept (get_stock_values_csv E input output).
Proof.
  unfold get_stock_values_csv.
  apply preserves_bind;
    [apply session_kept_trans|apply session_kept__setup|intros read].
  destruct read; simpl; [|repeat session_step].
  apply preserves_bind; [apply session_kept_trans|session_step|intros df].
  apply preserves_bind; [apply session_kept_trans| |intros _].
  - intros st. eapply session_kept_loop_inv.
    apply (loop_inv_for_each E (labels df)). apply incl_refl.
  - unfold frame_to_csv. repeat session_step.
Qed.

(** ** The input file *)

(** C3: when the input file is missing or empty, [get_stock_values_csv]
    raises [RuntimeError] having only printed: no page has been visited
    and nothing has been written; the whole program ends with an
    exception, without a navigation and without an output. *)
Theorem missing_or_empty_input_is_fatal (E : Env) (input output : string)
    (st : retriever) :
  read_csv E input = Raise FileNotFoundError
  \/ read_csv E input = Raise EmptyDataError ->
  (exists st',
     get_stock_values_csv E input output st
       = (Raise (RuntimeError ("Failed to read the input CSV file " ++ input)),
          st')
     /\ gotos (trace st') = gotos (trace st)
     /\ visits st' = visits st
     /\ writes (trace st') = writes (trace st)
     /\ df_in st' = df_in st)
  /\ (exists e, fst (main E input output) = Raise e)
  /\ gotos (trace (snd (main E input output))) = []
  /\ writes (trace (snd (main E input output))) = [].
Proof.
  intros Hread.
  assert (Hrun : forall st0, exists st',
    get_stock_values_csv E input output st0
      = (Raise (RuntimeError ("Failed to read the input CSV file " ++ input)),
         st')
    /\ gotos (trace st') = gotos (trace st0)
    /\ visits st' = visits st0
    /\ writes (trace st') = writes (trace st0)
    /\ df_in st' = df_in st0).
  { intros st0. unfold get_stock_values_csv. rewrite bind_run.
    destruct Hread as [H|H];
      [rewrite (_setup_not_found _ _ _ H)|rewrite (_setup_empty _ _ _ H)];
      cbn [negb]; unfold raise; eexists; (split; [reflexivity|]);
      cbn [trace log visits df_in]; rewrite <- !app_assoc;
      rewrite gotos_app, writes_app; simpl; rewrite !app_nil_r; auto. }
  split; [apply Hrun|].
  destruct (main_run E input output) as (st' & Hmain & Htr).
  rewrite Hmain. cbn [fst snd].
  rewrite Htr, gotos_app, writes_app, gotos_releases, writes_releases.
  rewrite !app_nil_r.
  destruct (body_run E input output) as [(e & Hrs & Hb)|[_ Hb]]; rewrite Hb.
  - cbn [fst snd]. split.
    + destruct (snd (closes E (held (started_upto (opened E))))); simpl; eauto.
    + simpl in Hrs.
      destruct Hrs as [<-|[<-|[<-|[<-|[]]]]]; split; reflexivity.
  - destruct (Hrun (started_upto start_order))
      as (st1 & Heq & Hg & _ & Hw & _).
    rewrite Heq. cbn [fst snd]. split.
    + destruct (snd (closes E (held st1))); simpl; eauto.
    + rewrite Hg, Hw. split; reflexivity.
Qed.

(** C10: when the input CSV is read but has no [timestamp] column,
    [_setup] does not return [False]: the column access raises
    [KeyError], which leaves [get_stock_values_csv] before any page is
    visited and before anything is written.  [_setup] returns [False],
    the way to the [RuntimeError], for [FileNotFoundError] and
    [EmptyDataError] only. *)
Theorem missing_timestamp_column_raises_KeyError (E : Env)
    (input output : string) (st : retriever) (df : DataFrame) :
  read_csv E input = Ok df ->
  ~ In "timestamp" (columns df) ->
  (exists st',
     _setup E input st = (Raise (KeyError "timestamp"), st')
     /\ get_stock_values_csv E input output st
        = (Raise (KeyError "timestamp"), st')
     /\ gotos (trace st') = gotos (trace st)
     /\ visits st' = visits st
     /\ writes (trace st') = writes (trace st))
  /\ (forall path st0,
        fst (_setup E path st0) = Ok false
        <-> (read_csv E path = Raise FileNotFoundError
             \/ read_csv E path = Raise EmptyDataError)).
Proof.
  intros Hread Hno. apply col_pos_None in Hno. split.
  - eexists. split; [|split].
    + rewrite (_setup_read _ _ _ _ Hread). cbn zeta. rewrite Hno. reflexivity.
    + apply (get_stock_values_csv_no_timestamp _ _ _ _ _ Hread Hno).
    + cbn [trace set_df_in log visits].
      rewrite gotos_app, writes_app. simpl. rewrite !app_nil_r. auto.
  - intros path st0. split.
    + destruct (read_csv E path) as [df0|e] eqn:Hr.
      * rewrite (_setup_read _ _ _ _ Hr). cbn zeta.
        destruct (col_pos "timestamp" (columns df0)); discriminate.
      * destruct e; auto;
          (rewrite (_setup_raises _ _ _ _ Hr) by discriminate); discriminate.
    + intros [H|H];
        [rewrite (_setup_not_found _ _ _ H)|rewrite (_setup_empty _ _ _ H)];
        reflexivity.
Qed.

(** ** The session over a whole run *)

Lemma held_session_kept st st' : session_kept st st' -> held st' = held st.
Proof.
  intros [P B C G _]. unfold held. now rewrite P, B, C, G.
Qed.

Ltac distinct_resources :=
  repeat constructor; simpl; intuition discriminate.

(** C8, for the runs whose closes return: in every run of the program
    in which the four calls [stop] makes return, whichever step of
    [start] or of [get_stock_values_csv] raises, the run opens the
    handles [start] got before its first failure (all four, driver,
    browser, context and page, when no step fails), each once and
    first of all, and [stop] releases exactly those, each once, in the
    reverse order, as the last events of the run. *)
Theorem session_released_exactly_once (E : Env) (input output : string) :
  (forall r, release E r = Ok tt) ->
  exists body,
    trace (snd (main E input output))
      = map Acquire (opened E) ++ body ++ map Release (rev (opened E))
    /\ acquired body = [] /\ released body = []
    /\ acquired (trace (snd (main E input output))) = opened E
    /\ released (trace (snd (main E input output))) = rev (opened E)
    /\ NoDup (opened E)
    /\ ((forall r, acquire E r = Ok tt) -> opened E = start_order).
Proof.
  intros Hrel.
  assert (Hall : (forall r, acquire E r = Ok tt) -> opened E = start_order).
  { intros H. unfold opened, start_order. simpl. now rewrite !H. }
  assert (Hshape : forall body,
            acquired body = [] -> released body = [] ->
            acquired (map Acquire (opened E) ++ body
                      ++ map Release (rev (opened E))) = opened E
            /\ released (map Acquire (opened E) ++ body
                         ++ map Release (rev (opened E))) = rev (opened E)).
  { intros body Ha Hr.
    rewrite !acquired_app, !released_app, Ha, Hr, acquired_releases,
      released_releases.
    generalize (opened E) as l. intros l. split.
    - rewrite app_nil_r. induction l; simpl; congruence.
    - replace (released (map Acquire l)) with (@nil resource);
        [reflexivity|]. induction l; simpl; auto. }
  destruct (main_run E input output) as (st' & -> & Htr). cbn [snd].
  rewrite Htr. rewrite (closes_all E _ Hrel). cbn [fst].
  destruct (body_run E input output) as [(e & Hrs & Hb)|[Ho Hb]]; rewrite Hb.
  - cbn [snd]. exists [].
    assert (Htrace : trace (started_upto (opened E))
                       ++ map Release (held (started_upto (opened E)))
                     = map Acquire (opened E) ++ []
                       ++ map Release (rev (opened E)))
      by (simpl in Hrs;
          destruct Hrs as [<-|[<-|[<-|[<-|[]]]]]; reflexivity).
    rewrite Htrace.
    destruct (Hshape [] eq_refl eq_refl) as [Ha Hr].
    repeat split; auto.
    simpl in Hrs. destruct Hrs as [<-|[<-|[<-|[<-|[]]]]]; distinct_resources.
  - pose proof (session_kept_get_stock_values_csv E input output
                  (started_upto start_order)) as Hkept.
    rewrite (held_session_kept _ _ Hkept).
    destruct Hkept as [_ _ _ _ (evs & Hevs & Ha & Hr)].
    rewrite Hevs. exists evs.
    assert (Htrace : (trace (started_upto start_order) ++ evs)
                       ++ map Release (held (started_upto start_order))
                     = map Acquire (opened E) ++ evs
                       ++ map Release (rev (opened E)))
      by (rewrite Ho, <- app_assoc; reflexivity).
    rewrite Htrace.
    destruct (Hshape evs Ha Hr) as [Ha' Hr'].
    repeat split; auto. rewrite Ho. distinct_resources.
Qed.

(** ** The heading test *)

Lemma _verify_page_accepts (E : Env) resp url name d st :
  page st = Some d ->
  fst (_verify_page E resp url name st) = Ok true ->
  verified E resp d name.
Proof.
  intros Hp. unfold _verify_page.
  destruct resp as [r|]; [|discriminate].
  destruct (status r =? 200)%Z eqn:Hs; simpl; [|discriminate].
  apply Z.eqb_eq in Hs.
  unfold bind, try_except, the_page, lift. rewrite Hp.
  destruct (landmark d) as [[]|e] eqn:Hl; simpl.
  2:{ destruct e; simpl; discriminate. }
  rewrite Hp.
  destruct (re_compile E (name ++ "$")) as [m|] eqn:Hc; simpl;
    [|discriminate].
  unfold expect_heading.
  destruct (filter m (headings d)) as [|h [|h' hs]] eqn:Hf; simpl;
    try discriminate.
  intros _. exists r, m, h. auto.
Qed.

(** C5: the company name is not compared letter for letter: it is the
    text of a pattern.  For the name [Smith (DS) PLC] the page whose
    heading is that very name is turned down, the page whose heading is
    [SMITH DS PLC] is taken, and for [Smith (DS PLC] the test raises
    [re.error] instead of answering. *)
Theorem heading_match_reads_name_as_pattern :
  let E := Fixture.env (Ok Fixture.input) Fixture.tesco_only in
  literal_heading_match "Smith (DS) PLC" "SMITH (DS) PLC" = true
  /\ fst (_verify_page E Fixture.ok Fixture.smith_url "Smith (DS) PLC"
            (Fixture.showing "SMITH (DS) PLC")) = Ok false
  /\ literal_heading_match "Smith (DS) PLC" "SMITH DS PLC" = false
  /\ fst (_verify_page E Fixture.ok Fixture.smith_url "Smith (DS) PLC"
            (Fixture.showing "SMITH DS PLC")) = Ok true
  /\ literal_heading_match "Smith (DS PLC" "SMITH (DS PLC" = true
  /\ fst (_verify_page E Fixture.ok Fixture.smith_url "Smith (DS PLC"
            (Fixture.showing "SMITH (DS PLC")) = Raise ReError.
Proof. vm_compute. repeat split; reflexivity. Qed.

(** ** The properties at work in the small world *)

Lemma fixture_input_well_formed : well_formed Fixture.input.
Proof.
  repeat split.
  - repeat constructor; simpl; intuition discriminate.
  - repeat constructor.
Defined.

Lemma fixture_input_holds_floats : holds_floats Fixture.input "value".
Proof.
  intros [|[|i]] c Hc; vm_compute in Hc; try discriminate;
    injection Hc as <-; [right; eexists; reflexivity|now left].
Defined.

Lemma fixture_input_holds_strings : holds_strings Fixture.input "timestamp".
Proof.
  intros [|[|i]] c Hc; vm_compute in Hc; try discriminate;
    injection Hc as <-; [right; eexists; reflexivity|now left].
Defined.

Lemma fixture_lands_on_tesco site d :
  site 0 Fixture.tesco_url = Ok (Fixture.ok, d) ->
  lands_on (Fixture.env (Ok Fixture.input) site) (columns Fixture.input)
    Fixture.tesco Fixture.ready "Tesco PLC" Fixture.ok d.
Proof.
  intros H. exists (Str "TSCO"), blank. repeat split. exact H.
Defined.

Lemma fixture_verified_tesco site price_text time_text :
  verified (Fixture.env (Ok Fixture.input) site) Fixture.ok
    {| landmark := Ok tt; headings := ["TESCO PLC"];
       price_tag := price_text; delay_ticker := time_text |} "Tesco PLC".
Proof.
  eexists (mkResponse 200 "OK"), _, "TESCO PLC".
  split; [reflexivity|]. split; [reflexivity|]. split; [reflexivity|].
  split; [vm_compute; reflexivity|]. vm_compute. reflexivity.
Defined.

(** C1 on a run that returns: Tesco's page is up,
    the other company's page answers 404. *)
Lemma output_rows_match_input_witness :
  let E := Fixture.env (Ok Fixture.input) Fixture.tesco_only in
  read_csv E "in.csv" = Ok Fixture.input
  /\ well_formed Fixture.input
  /\ fst (get_stock_values_csv E "in.csv" "out.csv" Fixture.started) = Ok tt
  /\ exists out,
       writes (trace (snd (get_stock_values_csv E "in.csv" "out.csv"
                             Fixture.started)))
         = writes (trace Fixture.started) ++ [("out.csv", out)]
       /\ length (rows out) = length (rows Fixture.input)
       /\ labels out = labels Fixture.input
       /\ (columns out = columns Fixture.input
           \/ (~ In "value" (columns Fixture.input)
               /\ columns out = columns Fixture.input ++ ["value"]))
       /\ forall i c, c <> "value" -> c <> "timestamp" ->
                      cell_at out i c = cell_at Fixture.input i c.
Proof.
  intros E.
  assert (H1 : read_csv E "in.csv" = Ok Fixture.input) by reflexivity.
  assert (H3 : fst (get_stock_values_csv E "in.csv" "out.csv" Fixture.started)
               = Ok tt) by (vm_compute; reflexivity).
  split; [exact H1|]. split; [exact fixture_input_well_formed|].
  split; [exact H3|].
  exact (output_rows_match_input E "in.csv" "out.csv" Fixture.started
           Fixture.input H1 fixture_input_well_formed H3).
Defined.

(** C1 as stated fails: two well-formed rows, the first price reads
    [n/a], and the call ends in [ValueError] with no output at all. *)
Lemma output_rows_counterexample :
  read_csv (Fixture.env (Ok Fixture.input) Fixture.no_price) "in.csv"
    = Ok Fixture.input
  /\ well_formed Fixture.input
  /\ length (rows Fixture.input) = 2
  /\ fst (get_stock_values_csv
            (Fixture.env (Ok Fixture.input) Fixture.no_price)
            "in.csv" "out.csv" Fixture.started) = Raise (ValueError "n/a")
  /\ writes (trace (snd (get_stock_values_csv
                           (Fixture.env (Ok Fixture.input) Fixture.no_price)
                           "in.csv" "out.csv" Fixture.started))) = [].
Proof.
  split; [reflexivity|]. split; [exact fixture_input_well_formed|].
  split; [reflexivity|]. split; vm_compute; reflexivity.
Qed.

(** C2 on the row whose page answers 404. *)
Lemma failed_verification_skips_row_witness :
  let E := Fixture.env (Ok Fixture.input) Fixture.tesco_only in
  let cols := columns Fixture.input in
  goto E (visits Fixture.ready) Fixture.smith_url
    = Ok (Fixture.not_found, blank)
  /\ verification_failure E Fixture.smith_url "Smith (DS) PLC"
       Fixture.not_found blank "Bad status: 404 Not Found"
  /\ exists st',
       loop_body E cols (1, Fixture.smith) Fixture.ready = (Ok tt, st')
       /\ trace st' =
          trace Fixture.ready ++
          [ Print "Looking for latest stock price value for Smith (DS) PLC";
            Print ("Loading company stock page: " ++ Fixture.smith_url);
            Goto Fixture.smith_url;
            Print "Bad status: 404 Not Found";
            Print continue_message ]
       /\ df_in st' = df_in Fixture.ready
       /\ for_each [(1, Fixture.smith)] (loop_body E cols) Fixture.ready
          = for_each [] (loop_body E cols) st'.
Proof.
  intros E cols.
  assert (Hgoto : goto E (visits Fixture.ready) Fixture.smith_url
                  = Ok (Fixture.not_found, blank)) by reflexivity.
  assert (Hfail : verification_failure E Fixture.smith_url "Smith (DS) PLC"
                    Fixture.not_found blank "Bad status: 404 Not Found").
  { apply (bad_status E Fixture.smith_url "Smith (DS) PLC"
             (mkResponse 404 "Not Found") blank).
    simpl. discriminate. }
  split; [exact Hgoto|]. split; [exact Hfail|].
  exact (failed_verification_skips_row E cols 1 Fixture.smith []
           "Smith (DS) PLC" (Str "SMDS") blank Fixture.not_found blank
           "Bad status: 404 Not Found" Fixture.ready
           eq_refl eq_refl eq_refl Hgoto Hfail).
Defined.

(** C3 on a missing file. *)
Lemma missing_or_empty_input_is_fatal_witness :
  let E := Fixture.env (Raise FileNotFoundError) Fixture.tesco_only in
  read_csv E "in.csv" = Raise FileNotFoundError
  /\ (exists st',
        get_stock_values_csv E "in.csv" "out.csv" Fixture.started
          = (Raise (RuntimeError "Failed to read the input CSV file in.csv"),
             st')
        /\ gotos (trace st') = gotos (trace Fixture.started)
        /\ visits st' = visits Fixture.started
        /\ writes (trace st') = writes (trace Fixture.started)
        /\ df_in st' = df_in Fixture.started)
  /\ (exists e, fst (main E "in.csv" "out.csv") = Raise e)
  /\ gotos (trace (snd (main E "in.csv" "out.csv"))) = []
  /\ writes (trace (snd (main E "in.csv" "out.csv"))) = [].
Proof.
  intros E. split; [reflexivity|].
  exact (missing_or_empty_input_is_fatal E "in.csv" "out.csv" Fixture.started
           (or_introl eq_refl)).
Defined.

(** C4 on the price text [ 1,234.5 ]: the row's value becomes 1234.5. *)
Lemma price_with_commas_is_stored_as_float_witness :
  let E := Fixture.env (Ok Fixture.input) Fixture.tesco_only in
  let d := Fixture.company_page "TESCO PLC" " 1,234.5 " "04.11.26 09:15" in
  holds_floats Fixture.input "value"
  /\ holds_strings Fixture.input "timestamp"
  /\ price_tag d = Ok (Some " 1,234.5 ")
  /\ PyFloat.float_of_string (PyStr.replace "," "" (PyStr.strip " 1,234.5 "))
     = Some 1234.5%float
  /\ exists st' df',
       loop_body E (columns Fixture.input) (0, Fixture.tesco) Fixture.ready
         = (Ok tt, st')
       /\ df_in st' = Some df'
       /\ cell_at df' 0 "value" = Some (Float 1234.5)
       /\ holds_floats df' "value"
       /\ holds_strings df' "timestamp".
Proof.
  intros E d.
  assert (Hfloat : PyFloat.float_of_string
                     (PyStr.replace "," "" (PyStr.strip " 1,234.5 "))
                   = Some 1234.5%float) by (vm_compute; reflexivity).
  split; [exact fixture_input_holds_floats|].
  split; [exact fixture_input_holds_strings|].
  split; [reflexivity|]. split; [exact Hfloat|].
  exact (price_with_commas_is_stored_as_float E (columns Fixture.input) 0
           Fixture.tesco "Tesco PLC" Fixture.ok d Fixture.input Fixture.ready
           " 1,234.5 " 1234.5%float
           (fixture_lands_on_tesco Fixture.tesco_only d eq_refl)
           (fixture_verified_tesco Fixture.tesco_only _ _)
           eq_refl fixture_input_well_formed (or_introl eq_refl)
           fixture_input_holds_floats fixture_input_holds_strings
           eq_refl Hfloat
           (or_intror (ex_intro _ (Some "04.11.26 09:15") eq_refl))).
Defined.

(** C6 on a page without the last-update element:
    the timestamp stays, the value is stored. *)
Lemma absent_field_keeps_prior_value_witness :
  let E := Fixture.env (Ok Fixture.input) (Fixture.no_ticker "1,234.5") in
  let d := {| landmark := Ok tt; headings := ["TESCO PLC"];
              price_tag := Ok (Some "1,234.5");
              delay_ticker := Raise TimeoutError |} in
  holds_floats Fixture.input "value"
  /\ holds_strings Fixture.input "timestamp"
  /\ absent_or_empty clean_time (delay_ticker d)
  /\ found_text clean_price (price_tag d) "1234.5"
  /\ exists st' df',
       loop_body E (columns Fixture.input) (0, Fixture.tesco) Fixture.ready
         = (Ok tt, st')
       /\ df_in st' = Some df'
       /\ for_each [(0, Fixture.tesco); (1, Fixture.smith)]
            (loop_body E (columns Fixture.input)) Fixture.ready
          = for_each [(1, Fixture.smith)]
              (loop_body E (columns Fixture.input)) st'
       /\ (absent_or_empty clean_price (price_tag d) ->
           cell_at df' 0 "value" = cell_at Fixture.input 0 "value")
       /\ (absent_or_empty clean_time (delay_ticker d) ->
           cell_at df' 0 "timestamp" = cell_at Fixture.input 0 "timestamp")
       /\ (forall s f, found_text clean_price (price_tag d) s ->
                       PyFloat.float_of_string s = Some f ->
                       cell_at df' 0 "value" = Some (Float f))
       /\ (forall s, found_text clean_time (delay_ticker d) s ->
                     cell_at df' 0 "timestamp" = Some (Str s))
       /\ holds_floats df' "value"
       /\ holds_strings df' "timestamp".
Proof.
  intros E d.
  assert (Habs : absent_or_empty clean_time (delay_ticker d))
    by (left; reflexivity).
  assert (Hfound : found_text clean_price (price_tag d) "1234.5").
  { exists (Some "1,234.5"). split; [reflexivity|].
    split; [reflexivity|discriminate]. }
  assert (Hparses : forall s, found_text clean_price (price_tag d) s ->
                              PyFloat.float_of_string s <> None).
  { intros s (t & Ht & Hs & _). injection Ht as <-. rewrite <- Hs.
    vm_compute. discriminate. }
  split; [exact fixture_input_holds_floats|].
  split; [exact fixture_input_holds_strings|].
  split; [exact Habs|]. split; [exact Hfound|].
  exact (absent_field_keeps_prior_value E (columns Fixture.input) 0
           Fixture.tesco [(1, Fixture.smith)] "Tesco PLC" Fixture.ok d
           Fixture.input Fixture.ready
           (fixture_lands_on_tesco (Fixture.no_ticker "1,234.5") d eq_refl)
           (fixture_verified_tesco (Fixture.no_ticker "1,234.5") _ _)
           eq_refl fixture_input_well_formed (or_introl eq_refl)
           fixture_input_holds_floats fixture_input_holds_strings
           (or_intror (ex_intro _ (Some "1,234.5") eq_refl))
           (or_introl eq_refl) Hparses).
Defined.

(** C6 as stated fails: the last-update element is absent and the
    price is found, but its text is [n/a]; the iteration ends in
    [ValueError] and the loop does not reach the next row. *)
Lemma absent_field_counterexample :
  let E := Fixture.env (Ok Fixture.input) (Fixture.no_ticker "n/a") in
  let d := {| landmark := Ok tt; headings := ["TESCO PLC"];
              price_tag := Ok (Some "n/a");
              delay_ticker := Raise TimeoutError |} in
  lands_on E (columns Fixture.input) Fixture.tesco Fixture.ready
    "Tesco PLC" Fixture.ok d
  /\ verified E Fixture.ok d "Tesco PLC"
  /\ absent_or_empty clean_time (delay_ticker d)
  /\ found_text clean_price (price_tag d) "n/a"
  /\ fst (loop_body E (columns Fixture.input) (0, Fixture.tesco) Fixture.ready)
     = Raise (ValueError "n/a")
  /\ fst (for_each [(0, Fixture.tesco); (1, Fixture.smith)]
            (loop_body E (columns Fixture.input)) Fixture.ready)
     = Raise (ValueError "n/a")
  /\ gotos (trace (snd (for_each [(0, Fixture.tesco); (1, Fixture.smith)]
                          (loop_body E (columns Fixture.input)) Fixture.ready)))
     = [Fixture.tesco_url].
Proof.
  cbv zeta.
  split; [exact (fixture_lands_on_tesco (Fixture.no_ticker "n/a") _ eq_refl)|].
  split; [exact (fixture_verified_tesco (Fixture.no_ticker "n/a") _ _)|].
  split; [left; reflexivity|].
  split; [exists (Some "n/a"); repeat split; discriminate|].
  split; [vm_compute; reflexivity|]. split; vm_compute; reflexivity.
Qed.

(** C7 on the two companies. *)
Lemma visited_urls_follow_template_witness :
  let E := Fixture.env (Ok Fixture.input) Fixture.tesco_only in
  read_csv E "in.csv" = Ok Fixture.input
  /\ gotos (trace (snd (get_stock_values_csv E "in.csv" "out.csv"
                          Fixture.started)))
     = [Fixture.tesco_url; Fixture.smith_url]
  /\ exists n urls,
       gotos (trace (snd (get_stock_values_csv E "in.csv" "out.csv"
                            Fixture.started)))
         = gotos (trace Fixture.started) ++ urls
       /\ n <= length (rows Fixture.input)
       /\ map Some urls
          = map (fun r => row_url E (columns Fixture.input) (snd r))
              (firstn n (rows Fixture.input))
       /\ (fst (get_stock_values_csv E "in.csv" "out.csv" Fixture.started)
           = Ok tt -> n = length (rows Fixture.input)).
Proof.
  intros E. split; [reflexivity|]. split; [vm_compute; reflexivity|].
  exact (visited_urls_follow_template E "in.csv" "out.csv" Fixture.started
           Fixture.input eq_refl).
Defined.

(** C8 on the two companies, every step of [start] and every close
    going well: the four handles are opened and then released in the
    reverse order. *)
Lemma session_released_exactly_once_witness :
  let E := Fixture.env (Ok Fixture.input) Fixture.tesco_only in
  (forall r, release E r = Ok tt)
  /\ opened E = start_order
  /\ exists body,
       trace (snd (main E "in.csv" "out.csv"))
         = map Acquire (opened E) ++ body ++ map Release (rev (opened E))
       /\ acquired body = [] /\ released body = []
       /\ acquired (trace (snd (main E "in.csv" "out.csv"))) = opened E
       /\ released (trace (snd (main E "in.csv" "out.csv"))) = rev (opened E)
       /\ NoDup (opened E)
       /\ ((forall r, acquire E r = Ok tt) -> opened E = start_order).
Proof.
  intros E. split; [intros r; reflexivity|]. split; [reflexivity|].
  exact (session_released_exactly_once E "in.csv" "out.csv"
           (fun _ => eq_refl)).
Defined.

(** C8 as stated fails when a close raises: [start] opens the four
    handles and [get_stock_values_csv] returns, having written the
    output; in the [finally] clause [page.close()] raises, so [stop]
    ends there, the context, the browser and the driver are never
    released, and the program ends in that exception. *)
Lemma session_not_released_counterexample :
  let E := Fixture.with_stuck_page in
  fst (start E __init__) = Ok tt
  /\ fst ((start E ;;; get_stock_values_csv E "in.csv" "out.csv") __init__)
     = Ok tt
  /\ length (writes (trace (snd (main E "in.csv" "out.csv")))) = 1
  /\ acquired (trace (snd (main E "in.csv" "out.csv")))
     = [RPlaywright; RBrowser; RContext; RPage]
  /\ released (trace (snd (main E "in.csv" "out.csv"))) = []
  /\ held (snd (main E "in.csv" "out.csv"))
     = [RPage; RContext; RBrowser; RPlaywright]
  /\ fst (main E "in.csv" "out.csv")
     = Raise (PlaywrightError "Target crashed").
Proof. cbv zeta. repeat split; vm_compute; reflexivity. Qed.

(** C9 on a first row whose price reads [n/a]. *)
Lemma unparseable_price_aborts_batch_witness :
  let E := Fixture.env (Ok Fixture.input) Fixture.no_price in
  let d := Fixture.company_page "TESCO PLC" "n/a" "04.11.26 09:15" in
  let st1 := after_setup E "in.csv" 3 Fixture.input Fixture.started in
  found_text clean_price (price_tag d) "n/a"
  /\ PyFloat.float_of_string "n/a" = None
  /\ exists st',
       get_stock_values_csv E "in.csv" "out.csv" Fixture.started
         = (Raise (ValueError "n/a"), st')
       /\ writes (trace st') = writes (trace Fixture.started)
       /\ visits st' = S (visits st1).
Proof.
  intros E d st1.
  assert (Hfound : found_text clean_price (price_tag d) "n/a").
  { exists (Some "n/a"). repeat split. discriminate. }
  assert (Hnone : PyFloat.float_of_string "n/a" = None)
    by (vm_compute; reflexivity).
  assert (Hland : lands_on E (columns Fixture.input) Fixture.tesco st1
                    "Tesco PLC" Fixture.ok d).
  { exists (Str "TSCO"), blank. repeat split. }
  split; [exact Hfound|]. split; [exact Hnone|].
  exact (unparseable_price_aborts_batch E "in.csv" "out.csv" Fixture.started
           Fixture.input 3 [] 0 Fixture.tesco [(1, Fixture.smith)] st1
           "Tesco PLC" Fixture.ok d "n/a"
           eq_refl eq_refl eq_refl eq_refl Hland
           (fixture_verified_tesco Fixture.no_price _ _)
           Hfound Hnone
           (or_intror (ex_intro _ (Some "04.11.26 09:15") eq_refl))).
Defined.

(** C10 on a file with the two companies and no [timestamp] column. *)
Lemma missing_timestamp_column_raises_KeyError_witness :
  let E := Fixture.env (Ok Fixture.no_timestamp) Fixture.tesco_only in
  read_csv E "in.csv" = Ok Fixture.no_timestamp
  /\ ~ In "timestamp" (columns Fixture.no_timestamp)
  /\ (exists st',
        _setup E "in.csv" Fixture.started = (Raise (KeyError "timestamp"), st')
        /\ get_stock_values_csv E "in.csv" "out.csv" Fixture.started
           = (Raise (KeyError "timestamp"), st')
        /\ gotos (trace st') = gotos (trace Fixture.started)
        /\ visits st' = visits Fixture.started
        /\ writes (trace st') = writes (trace Fixture.started))
  /\ (forall path st0,
        fst (_setup E path st0) = Ok false
        <-> (read_csv E path = Raise FileNotFoundError
             \/ read_csv E path = Raise EmptyDataError)).
Proof.
  intros E.
  assert (Hno : ~ In "timestamp" (columns Fixture.no_timestamp))
    by (simpl; intuition discriminate).
  split; [reflexivity|]. split; [exact Hno|].
  exact (missing_timestamp_column_raises_KeyError E "in.csv" "out.csv"
           Fixture.started Fixture.no_timestamp eq_refl Hno).
Defined.

(** * Further properties of the methods *)

(** ** [_verify_page] *)

Lemma _verify_page_keeps (E : Env) resp url name st :
  df_in (snd (_verify_page E resp url name st)) = df_in st
  /\ page (snd (_verify_page E resp url name st)) = page st
  /\ visits (snd (_verify_page E resp url name st)) = visits st.
Proof.
  unfold _verify_page. destruct resp as [r|]; [|auto].
  destruct (negb (status r =? 200)%Z); [auto|].
  unfold bind, try_except, the_page, lift.
  destruct (page st) as [d|] eqn:Hp; simpl; [|auto].
  destruct (landmark d) as [[]|e]; simpl.
  2:{ destruct e; simpl; auto. }
  rewrite Hp. destruct (re_compile E (name ++ "$")) as [m|]; simpl; [|auto].
  destruct (expect_heading m d) as [[]|e]; simpl; [auto|].
  destruct e; simpl; auto.
Qed.

(** X1: [_verify_page] answers [True] exactly for a response with
    status 200 on a page where the landmark link is seen and exactly
    one heading matches the pattern made of the company name; whatever
    it answers, it leaves the frame, the page and the count of
    navigations as they were. *)
Theorem _verify_page_accepts_iff (E : Env) resp url name d st :
  page st = Some d ->
  (fst (_verify_page E resp url name st) = Ok true <-> verified E resp d name)
  /\ df_in (snd (_verify_page E resp url name st)) = df_in st
  /\ page (snd (_verify_page E resp url name st)) = page st
  /\ visits (snd (_verify_page E resp url name st)) = visits st.
Proof.
  intros Hp. split; [|apply _verify_page_keeps]. split.
  - now apply _verify_page_accepts.
  - intros Hv. now rewrite (_verify_page_passes _ _ _ _ _ _ Hv Hp).
Qed.

(** ** The two readers *)

Lemma replace_removes (c : ascii) (s : string) :
  PyStr.contains c (PyStr.replace c "" s) = false.
Proof.
  induction s as [|d s IH]; simpl; [reflexivity|].
  destruct (Ascii.eqb d c) eqn:Hd; simpl; [assumption|].
  rewrite Ascii.eqb_sym, Hd. assumption.
Qed.

(** X2: with a page open, [_get_stock_value] returns [False] when the
    price element times out, the trimmed text rid of its commas when
    the element is there, and lets any other exception through; the
    text it returns never has a comma. *)
Theorem _get_stock_value_has_no_comma (d : document) (st : retriever) :
  page st = Some d ->
  fst (_get_stock_value st) =
    match price_tag d with
    | Ok t => Ok (PyText (clean_price t))
    | Raise TimeoutError => Ok PyFalse
    | Raise e => Raise e
    end
  /\ forall s, fst (_get_stock_value st) = Ok (PyText s) ->
               PyStr.contains "," s = false.
Proof.
  intros Hp.
  assert (H : fst (_get_stock_value st) =
              match price_tag d with
              | Ok t => Ok (PyText (clean_price t))
              | Raise TimeoutError => Ok PyFalse
              | Raise e => Raise e
              end).
  { unfold _get_stock_value, try_except, bind, the_page, lift. rewrite Hp.
    destruct (price_tag d) as [t|e]; simpl.
    - unfold clean_price.
      destruct (PyStr.contains "," (PyStr.strip (or_empty t))) eqn:Hc; simpl;
        [reflexivity|].
      now rewrite replace_absent.
    - destruct e; reflexivity. }
  split; [exact H|]. intros s. rewrite H.
  destruct (price_tag d) as [t|e].
  - intros [= <-]. apply replace_removes.
  - destruct e; discriminate.
Qed.

Lemma rstrip_of_idempotent drop s :
  PyStr.rstrip_of drop (PyStr.rstrip_of drop s) = PyStr.rstrip_of drop s.
Proof.
  induction s as [|c s IH]; simpl; [reflexivity|].
  destruct (PyStr.rstrip_of drop s) as [|c' r] eqn:Hr.
  - destruct (drop c) eqn:Hc; simpl; [reflexivity|]. now rewrite Hc.
  - simpl in IH |- *. rewrite IH. reflexivity.
Qed.

Lemma lstrip_of_head drop s :
  PyStr.lstrip_of drop s = EmptyString
  \/ exists c r, PyStr.lstrip_of drop s = String c r /\ drop c = false.
Proof.
  induction s as [|c s IH]; simpl; [now left|].
  destruct (drop c) eqn:Hc; [assumption|]. right. eauto.
Qed.

Lemma rstrip_of_head drop c r :
  drop c = false ->
  exists r', PyStr.rstrip_of drop (String c r) = String c r'.
Proof.
  intros Hc. simpl. destruct (PyStr.rstrip_of drop r); [|eauto].
  rewrite Hc. eauto.
Qed.

Lemma strip_idempotent s : PyStr.strip (PyStr.strip s) = PyStr.strip s.
Proof.
  unfold PyStr.strip.
  destruct (lstrip_of_head PyStr.is_space s) as [->|(c & r & -> & Hc)];
    [reflexivity|].
  destruct (rstrip_of_head PyStr.is_space c r Hc) as [r' Hr].
  rewrite Hr. simpl PyStr.lstrip_of. rewrite Hc. rewrite <- Hr.
  apply rstrip_of_idempotent.
Qed.

(** X3: with a page open, [_get_last_update_timestamp] returns [False]
    when the element times out and its trimmed text otherwise; a text
    it returns has no white space left at either end: trimming it
    again changes nothing. *)
Theorem _get_last_update_timestamp_is_trimmed (d : document) (st : retriever) :
  page st = Some d ->
  fst (_get_last_update_timestamp st) =
    match delay_ticker d with
    | Ok t => Ok (PyText (PyStr.strip (or_empty t)))
    | Raise TimeoutError => Ok PyFalse
    | Raise e => Raise e
    end
  /\ forall s, fst (_get_last_update_timestamp st) = Ok (PyText s) ->
               PyStr.strip s = s.
Proof.
  intros Hp.
  assert (H : fst (_get_last_update_timestamp st) =
              match delay_ticker d with
              | Ok t => Ok (PyText (PyStr.strip (or_empty t)))
              | Raise TimeoutError => Ok PyFalse
              | Raise e => Raise e
              end).
  { unfold _get_last_update_timestamp, try_except, bind, the_page, lift.
    rewrite Hp. destruct (delay_ticker d) as [t|e]; simpl; [reflexivity|].
    destruct e; reflexivity. }
  split; [exact H|]. intros s. rewrite H.
  destruct (delay_ticker d) as [t|e].
  - intros [= <-]. apply strip_idempotent.
  - destruct e; discriminate.
Qed.

(** ** The slug of a company name *)

Lemma lower_char_idempotent c :
  PyStr.lower_char (PyStr.lower_char c) = PyStr.lower_char c.
Proof.
  destruct c as [[] [] [] [] [] [] [] []]; reflexivity.
Qed.

Lemma lower_idempotent s : PyStr.lower (PyStr.lower s) = PyStr.lower s.
Proof.
  induction s as [|c s IH]; simpl; [reflexivity|].
  now rewrite lower_char_idempotent, IH.
Qed.

Lemma lower_replace c s :
  PyStr.lower (PyStr.replace c "-" (PyStr.lower s))
  = PyStr.replace c "-" (PyStr.lower s).
Proof.
  induction s as [|d s IH]; simpl; [reflexivity|].
  destruct (Ascii.eqb (PyStr.lower_char d) c).
  - change (PyStr.lower ("-" ++ ?x)) with (String "-" (PyStr.lower x)).
    simpl. now rewrite IH.
  - simpl. now rewrite lower_char_idempotent, IH.
Qed.

Lemma lower_replace_space s :
  PyStr.lower (PyStr.replace " " "-" (PyStr.lower s))
  = PyStr.replace " " "-" (PyStr.lower s).
Proof. apply lower_replace. Qed.

Lemma contains_append c a b :
  PyStr.contains c (a ++ b) = PyStr.contains c a || PyStr.contains c b.
Proof.
  induction a as [|d a IH]; simpl; [reflexivity|].
  now rewrite IH, orb_assoc.
Qed.

Lemma replace_clears c new s :
  PyStr.contains c new = false ->
  PyStr.contains c (PyStr.replace c new s) = false.
Proof.
  intros Hnew. induction s as [|d s IH]; simpl; [reflexivity|].
  destruct (Ascii.eqb d c) eqn:Hd.
  - now rewrite contains_append, Hnew, IH.
  - simpl. now rewrite Ascii.eqb_sym, Hd, IH.
Qed.

Lemma replace_space_free s :
  PyStr.contains " " (PyStr.replace " " "-" s) = false.
Proof. now apply replace_clears. Qed.

Lemma replace_space_idempotent s :
  PyStr.replace " " "-" (PyStr.replace " " "-" s) = PyStr.replace " " "-" s.
Proof.
  apply replace_absent, replace_space_free.
Qed.

Lemma is_upper_lower_char c : PyStr.is_upper (PyStr.lower_char c) = false.
Proof. destruct c as [[] [] [] [] [] [] [] []]; reflexivity. Qed.

Lemma lower_has_no_upper c s :
  PyStr.contains c (PyStr.lower s) = true -> PyStr.is_upper c = false.
Proof.
  induction s as [|d s IH]; simpl; [discriminate|].
  intros H. apply orb_true_iff in H. destruct H as [H|H]; [|now apply IH].
  apply Ascii.eqb_eq in H. subst c. apply is_upper_lower_char.
Qed.

Lemma contains_replace c old new s :
  PyStr.contains c (PyStr.replace old new s) = true ->
  PyStr.contains c new = true \/ PyStr.contains c s = true.
Proof.
  induction s as [|d s IH]; simpl; [discriminate|].
  destruct (Ascii.eqb d old).
  - rewrite contains_append. intros H. apply orb_true_iff in H.
    destruct H as [H|H]; [now left|].
    destruct (IH H) as [H'|H']; [now left|right].
    rewrite H'. apply orb_true_r.
  - simpl. intros H. apply orb_true_iff in H.
    destruct H as [H|H]; [right; now rewrite H|].
    destruct (IH H) as [H'|H']; [now left|right].
    rewrite H'. apply orb_true_r.
Qed.

(** X4: the name part of a company URL, [company_name.lower().replace(' ', '-')],
    for a name of characters below code point 256: it has no space,
    none of its characters is an upper-case letter ([str.isupper] is
    false of each), lowering it again changes nothing, and building
    it from itself gives it back. *)
Theorem slug_is_lower_and_space_free (company_name : string) :
  PyStr.contains " " (slug company_name) = false
  /\ (forall c, PyStr.contains c (slug company_name) = true ->
                PyStr.is_upper c = false)
  /\ PyStr.lower (slug company_name) = slug company_name
  /\ slug (slug company_name) = slug company_name.
Proof.
  unfold slug. split; [apply replace_space_free|].
  split.
  { intros c Hc. apply contains_replace in Hc. destruct Hc as [Hc|Hc].
    - simpl in Hc. rewrite orb_false_r in Hc. apply Ascii.eqb_eq in Hc.
      now subst c.
    - now apply lower_has_no_upper in Hc. }
  split; [apply lower_replace_space|].
  rewrite lower_replace_space. apply replace_space_idempotent.
Qed.

(** ** [start], [stop] and the program *)

(** X5: [stop] closes the page, the context, the browser and the
    driver, in that order, those that are set, up to the first close
    that raises: it ends with that exception and leaves the handles
    after it open; when every close returns it returns, having closed
    all that was set.  It changes nothing else: the handles stay set,
    and on an object never started it does nothing. *)
Theorem stop_closes_what_is_held (E : Env) (st : retriever) :
  exists st',
    stop E st = (after_finally (Ok tt) (snd (closes E (held st))), st')
    /\ trace st' = trace st ++ map Release (fst (closes E (held st)))
    /\ held st' = held st
    /\ df_in st' = df_in st /\ page st' = page st /\ visits st' = visits st
    /\ stop E __init__ = (Ok tt, __init__)
    /\ ((forall r, release E r = Ok tt) ->
        stop E st = (Ok tt, st')
        /\ trace st' = trace st ++ map Release (held st))
    /\ (forall before r e after,
          held st = before ++ r :: after ->
          (forall r', In r' before -> release E r' = Ok tt) ->
          release E r = Raise e ->
          stop E st = (Raise e, st')
          /\ trace st' = trace st ++ map Release before).
Proof.
  destruct (stop_run E st) as (st' & Hrun & Htr & Hheld & Hdf & Hpg & Hv).
  exists st'. repeat (split; [assumption|]).
  split; [reflexivity|]. split.
  - intros Hrel. rewrite Hrun, Htr, (closes_all E _ Hrel). split; reflexivity.
  - intros before r e after Hsplit Hb Hr.
    rewrite Hrun, Htr, Hsplit, (closes_first_failure E _ _ _ _ Hb Hr).
    split; reflexivity.
Qed.

(** X6: [start] takes the driver, the browser, the context and the
    page in that order and stops at the first step that raises, with
    that exception: the handles of the steps before are set, the
    others are not; when no step raises all four are. *)
Theorem start_stops_at_first_failure (E : Env) :
  (forall pre r post e,
      [RPlaywright; RBrowser; RContext; RPage] = pre ++ r :: post ->
      (forall x, In x pre -> acquire E x = Ok tt) ->
      acquire E r = Raise e ->
      start E __init__ = (Raise e, started_upto pre)
      /\ acquired (trace (started_upto pre)) = pre
      /\ held (started_upto pre) = rev pre)
  /\ ((forall x, acquire E x = Ok tt) ->
      start E __init__
        = (Ok tt, started_upto [RPlaywright; RBrowser; RContext; RPage])
      /\ held (started_upto [RPlaywright; RBrowser; RContext; RPage])
         = [RPage; RContext; RBrowser; RPlaywright]).
Proof.
  split.
  - intros pre r post e Hsplit Hpre He.
    unfold start, acquire_handle, lift.
    destruct pre as [|a [|b [|c [|x pre]]]]; simpl in Hsplit.
    + injection Hsplit as <- _. rewrite bind_run, bind_run, He.
      repeat split.
    + injection Hsplit as <- <- _.
      rewrite bind_run, bind_run, (Hpre RPlaywright) by (simpl; auto).
      rewrite !bind_run, He. repeat split.
    + injection Hsplit as <- <- <- _.
      rewrite bind_run, bind_run, (Hpre RPlaywright) by (simpl; auto).
      rewrite !bind_run, (Hpre RBrowser) by (simpl; auto).
      rewrite !bind_run, He. repeat split.
    + injection Hsplit as <- <- <- <- _.
      rewrite bind_run, bind_run, (Hpre RPlaywright) by (simpl; auto).
      rewrite !bind_run, (Hpre RBrowser) by (simpl; auto).
      rewrite !bind_run, (Hpre RContext) by (simpl; auto 6).
      rewrite !bind_run, He. repeat split.
    + exfalso. injection Hsplit as _ _ _ _ H. destruct pre; discriminate.
  - intros Hall. unfold start, acquire_handle, lift.
    rewrite !bind_run, Hall. rewrite !bind_run, Hall.
    rewrite !bind_run, Hall. rewrite !bind_run, Hall.
    split; reflexivity.
Qed.

(** X7: the [finally] clause runs [stop] after the body.  When the
    closes return, the program ends as its body did: with the
    exception of [start] when [start] raises, and otherwise the way
    [get_stock_values_csv] ends on the started object.  When a close
    raises, that exception is how the program ends, whatever the body
    did: so it is with the page's close on a started session. *)
Theorem main_ends_as_its_body (E : Env) (input output : string) :
  fst (main E input output)
  = after_finally
      (match start E __init__ with
       | (Ok _, st) => fst (get_stock_values_csv E input output st)
       | (Raise e, _) => Raise e
       end)
      (snd (closes E
              (held (snd ((start E ;;; get_stock_values_csv E input output)
                            __init__)))))
  /\ ((forall r, release E r = Ok tt) ->
      fst (main E input output)
      = match start E __init__ with
        | (Ok _, st) => fst (get_stock_values_csv E input output st)
        | (Raise e, _) => Raise e
        end)
  /\ (forall e, (forall r, acquire E r = Ok tt) ->
                release E RPage = Raise e ->
                fst (main E input output) = Raise e).
Proof.
  assert (Hbody : fst ((start E ;;; get_stock_values_csv E input output)
                         __init__)
                  = match start E __init__ with
                    | (Ok _, st) => fst (get_stock_values_csv E input output st)
                    | (Raise e, _) => Raise e
                    end).
  { rewrite bind_run. destruct (start E __init__) as [[[]|e] st1]; reflexivity. }
  destruct (main_run E input output) as (st' & Hmain & _).
  rewrite Hmain. cbn [fst]. rewrite Hbody.
  split; [reflexivity|]. split.
  - intros Hrel. now rewrite (closes_all E _ Hrel).
  - intros e Hacq Hpage.
    destruct (start_run E) as [(Hstart & _ & _)|(e' & _ & _ & r & Hr)].
    2:{ rewrite Hacq in Hr. discriminate. }
    rewrite bind_run, Hstart.
    pose proof (session_kept_get_stock_values_csv E input output
                  (started_upto start_order)) as Hkept.
    destruct (get_stock_values_csv E input output (started_upto start_order))
      as [res st1]. cbn [fst snd] in Hkept |- *.
    rewrite (held_session_kept _ _ Hkept). cbn [held started_upto].
    simpl. rewrite Hpage. reflexivity.
Qed.

(** ** [get_stock_values_csv] as a whole *)

Lemma _setup_writes (E : Env) input st :
  writes (trace (snd (_setup E input st))) = writes (trace st).
Proof.
  destruct (read_csv E input) as [df|e] eqn:Hr.
  - rewrite (_setup_read _ _ _ _ Hr). cbn zeta.
    destruct (col_pos "timestamp" (columns df)); cbn [snd trace set_df_in log];
      rewrite writes_app; simpl; apply app_nil_r.
  - destruct e;
      try (rewrite (_setup_raises _ _ _ _ Hr) by discriminate;
           cbn [snd trace log]; rewrite writes_app; simpl; apply app_nil_r).
    + rewrite (_setup_not_found _ _ _ Hr). cbn [snd trace log].
      rewrite !writes_app. simpl. now rewrite !app_nil_r.
    + rewrite (_setup_empty _ _ _ Hr). cbn [snd trace log].
      rewrite !writes_app. simpl. now rewrite !app_nil_r.
Qed.

(** X8: the output is all or nothing.  Either [get_stock_values_csv]
    returns, and then it has written exactly one frame, to the output
    path, the frame the object holds at the end; or it raises, and
    then it has written nothing. *)
Theorem output_is_all_or_nothing (E : Env) (input output : string)
    (st : retriever) :
  (fst (get_stock_values_csv E input output st) = Ok tt
   /\ exists df,
        df_in (snd (get_stock_values_csv E input output st)) = Some df
        /\ writes (trace (snd (get_stock_values_csv E input output st)))
           = writes (trace st) ++ [(output, df)])
  \/ ((exists e, fst (get_stock_values_csv E input output st) = Raise e)
      /\ writes (trace (snd (get_stock_values_csv E input output st)))
         = writes (trace st)).
Proof.
  destruct (get_stock_values_csv E input output st) as [res st'] eqn:Hrun.
  cbn [fst snd]. unfold get_stock_values_csv in Hrun.
  rewrite bind_run in Hrun.
  pose proof (_setup_writes E input st) as Hw.
  destruct (_setup E input st) as [[read|e] st1]; cbn [snd] in Hw.
  2:{ injection Hrun as <- <-. right. eauto. }
  destruct read; cbn [negb] in Hrun.
  2:{ injection Hrun as <- <-. right. eauto. }
  rewrite bind_run in Hrun. unfold the_frame at 1 in Hrun.
  destruct (df_in st1) as [df1|] eqn:Hdf1.
  2:{ injection Hrun as <- <-. right. eauto. }
  rewrite bind_run in Hrun.
  pose proof (loop_inv_for_each E (labels df1) (columns df1) (rows df1)
                (incl_refl _) st1) as Hinv.
  destruct (for_each (rows df1) (loop_body E (columns df1)) st1)
    as [[[]|e] st2]; cbn [snd] in Hinv;
    destruct Hinv as [[evs [Htr Hevs]] _ _ _ _ Hfr].
  2:{ injection Hrun as <- <-. right. split; [eauto|].
      rewrite Htr, writes_app, (print_or_goto_writes _ Hevs), app_nil_r.
      exact Hw. }
  destruct (Hfr df1 Hdf1 (incl_refl _)) as [out [Hout _]].
  unfold frame_to_csv in Hrun. rewrite !bind_run in Hrun.
  unfold the_frame in Hrun. rewrite Hout in Hrun.
  unfold lift in Hrun. destruct (to_csv E output out) as [[]|e].
  - injection Hrun as <- <-. left. split; [reflexivity|]. exists out.
    split; [exact Hout|]. cbn [trace log].
    rewrite !writes_app, Htr, writes_app, (print_or_goto_writes _ Hevs), Hw.
    simpl. now rewrite !app_nil_r.
  - injection Hrun as <- <-. right. split; [eauto|].
    rewrite Htr, writes_app, (print_or_goto_writes _ Hevs), app_nil_r.
    exact Hw.
Qed.

Lemma for_each_cons {A} (x : A) (xs : list A) (body : A -> M unit) st :
  for_each (x :: xs) body st =
  match body x st with
  | (Ok _, st') => for_each xs body st'
  | (Raise e, st') => (Raise e, st')
  end.
Proof. reflexivity. Qed.

Lemma frame_to_csv_run (E : Env) output df st :
  df_in st = Some df -> to_csv E output df = Ok tt ->
  (frame_to_csv E output ;;; print ("Data saved in " ++ output)) st
  = (Ok tt, log (Print ("Data saved in " ++ output))
              (log (ToCsv output df) st)).
Proof.
  intros Hdf Hw. unfold frame_to_csv, bind, the_frame, lift, print.
  now rewrite Hdf, Hw.
Qed.

(** X9: a file with the header line only is copied: with no row to
    iterate, [get_stock_values_csv] returns having written the frame
    it read and visited no page; it does so even on an object that
    was never started. *)
Theorem header_only_input_is_copied (E : Env) (input output : string)
    (st : retriever) (df : DataFrame) :
  read_csv E input = Ok df ->
  rows df = [] ->
  In "timestamp" (columns df) ->
  to_csv E output df = Ok tt ->
  exists st',
    get_stock_values_csv E input output st = (Ok tt, st')
    /\ writes (trace st') = writes (trace st) ++ [(output, df)]
    /\ gotos (trace st') = gotos (trace st)
    /\ visits st' = visits st.
Proof.
  intros Hread Hrows Hts Hw.
  destruct (col_pos "timestamp" (columns df)) as [j|] eqn:Hcol.
  2:{ apply col_pos_None in Hcol. contradiction. }
  rewrite (get_stock_values_csv_read _ _ _ _ _ _ Hread Hcol).
  assert (Hsame : map_column (astype_string E) j df = df).
  { destruct df as [cols rs]. simpl in Hrows. subst rs. reflexivity. }
  rewrite Hsame, Hrows. rewrite bind_run. cbn [for_each ret].
  rewrite (frame_to_csv_run E output df)
    by (try exact Hw; unfold after_setup; rewrite Hsame; reflexivity).
  eexists. split; [reflexivity|]. unfold after_setup.
  cbn [trace log set_df_in visits]. rewrite <- !app_assoc.
  rewrite writes_app, gotos_app. simpl. rewrite app_nil_r. auto.
Qed.

(** X10: a navigation that raises ends the batch: the exception of
    [page.goto] leaves the iteration and the loop as it is, after the
    page was asked for, with the frame untouched and the rows that
    follow not visited. *)
Theorem navigation_error_ends_the_loop (E : Env) cols idx cells rest
    name code d0 e st :
  getitem cols cells "company name" = Some (Str name) ->
  getitem cols cells "stock code" = Some code ->
  page st = Some d0 ->
  goto E (visits st) (company_page_url (str_of_cell E code) (slug name))
    = Raise e ->
  exists st',
    for_each ((idx, cells) :: rest) (loop_body E cols) st = (Raise e, st')
    /\ df_in st' = df_in st
    /\ gotos (trace st')
       = gotos (trace st)
         ++ [company_page_url (str_of_cell E code) (slug name)]
    /\ visits st' = S (visits st).
Proof.
  intros Hname Hcode Hpage Hgoto. rewrite for_each_cons.
  rewrite (loop_body_to_goto E cols idx cells name code st Hname Hcode).
  rewrite bind_run. rewrite (page_goto_run E _ d0) by exact Hpage.
  cbn [visits log]. rewrite Hgoto.
  eexists. split; [reflexivity|]. cbn [df_in trace visits count_visit log].
  rewrite <- !app_assoc, gotos_app. simpl. auto.
Qed.

(** X11: a row whose company name is not a string (an empty cell, a
    number) ends the batch before its page is asked for: [lower]
    raises [AttributeError] once the name has been printed, and
    nothing else has happened. *)
Theorem company_name_must_be_a_string (E : Env) cols idx cells rest
    c code st :
  getitem cols cells "company name" = Some c ->
  getitem cols cells "stock code" = Some code ->
  (forall s, c <> Str s) ->
  for_each ((idx, cells) :: rest) (loop_body E cols) st
  = (Raise (AttributeError "lower"),
     log (Print ("Looking for latest stock price value for "
                 ++ str_of_cell E c)) st).
Proof.
  intros Hname Hcode Hc. rewrite for_each_cons.
  unfold loop_body, row_getitem. rewrite Hname, Hcode.
  destruct c as [|s|z|f]; try reflexivity.
  exfalso. now apply (Hc s).
Qed.

(** X12: a file with rows but without the [company name] column, or
    with it and without the [stock code] column, ends the call at its
    first row with the [KeyError] of that column: no page has been
    visited and nothing is written. *)
Theorem missing_required_column_raises_KeyError (E : Env)
    (input output : string) (st : retriever) (df : DataFrame) (key : string) :
  read_csv E input = Ok df ->
  well_formed df ->
  rows df <> [] ->
  In "timestamp" (columns df) ->
  (key = "company name" /\ ~ In "company name" (columns df))
  \/ (key = "stock code" /\ In "company name" (columns df)
      /\ ~ In "stock code" (columns df)) ->
  exists st',
    get_stock_values_csv E input output st = (Raise (KeyError key), st')
    /\ gotos (trace st') = gotos (trace st)
    /\ writes (trace st') = writes (trace st)
    /\ visits st' = visits st.
Proof.
  intros Hread Hwf Hrows Hts Hkey.
  destruct (col_pos "timestamp" (columns df)) as [j|] eqn:Hcol.
  2:{ apply col_pos_None in Hcol. contradiction. }
  rewrite (get_stock_values_csv_read _ _ _ _ _ _ Hread Hcol).
  pose proof (well_formed_map_column (astype_string E) j df Hwf)
    as (_ & _ & Hw1).
  destruct (rows (map_column (astype_string E) j df)) as [|[idx cells] rs]
    eqn:Hrs.
  { exfalso. apply Hrows. unfold map_column in Hrs. simpl in Hrs.
    destruct (rows df); [reflexivity|discriminate]. }
  apply Forall_inv in Hw1. simpl in Hw1.
  assert (Hloop : loop_body E (columns df) (idx, cells)
                    (after_setup E input j df st)
                  = (Raise (KeyError key), after_setup E input j df st)).
  { unfold loop_body, row_getitem, getitem.
    destruct Hkey as [[-> Hno]|(-> & Hyes & Hno)].
    - apply col_pos_None in Hno. rewrite Hno. reflexivity.
    - destruct (col_pos "company name" (columns df)) as [jn|] eqn:Hn.
      2:{ apply col_pos_None in Hn. contradiction. }
      apply col_pos_lt in Hn.
      destruct (nth_error cells jn) as [c|] eqn:Hc.
      2:{ apply nth_error_None in Hc. lia. }
      apply col_pos_None in Hno. rewrite Hno. reflexivity. }
  rewrite bind_run, for_each_cons, Hloop.
  eexists. split; [reflexivity|]. unfold after_setup.
  cbn [trace log set_df_in visits].
  rewrite writes_app, gotos_app. simpl. rewrite !app_nil_r. auto.
Qed.

(** ** [_setup] and the [timestamp] column *)

Lemma cell_at_map_column_same f j df i c :
  col_pos c (columns df) = Some j ->
  cell_at (map_column f j df) i c = option_map f (cell_at df i c).
Proof.
  intros Hc. unfold cell_at, map_column. simpl.
  rewrite (find_map_label
             (fun r => match nth_error (snd r) j with
                       | Some c => set_nth j (f c) (snd r)
                       | None => snd r
                       end)).
  destruct (find _ (rows df)) as [r|]; simpl; [|reflexivity].
  unfold getitem. rewrite Hc.
  destruct (nth_error (snd r) j) as [x|] eqn:Hx; simpl.
  - apply nth_error_set_nth_eq. apply nth_error_Some. congruence.
  - exact Hx.
Qed.

(** X13: when the file is read and has the [timestamp] column,
    [_setup] returns [True] and leaves in the object the frame it read
    with that column as strings: every cell of it is a string or
    missing, a string is the string it was, a missing value stays
    missing, and the labels, the columns and the cells of the other
    columns are those of the file. *)
Theorem _setup_makes_timestamps_strings (E : Env) (input : string)
    (st : retriever) (df : DataFrame) :
  read_csv E input = Ok df ->
  In "timestamp" (columns df) ->
  exists st' df',
    _setup E input st = (Ok true, st')
    /\ df_in st' = Some df'
    /\ columns df' = columns df
    /\ labels df' = labels df
    /\ (forall i c, cell_at df' i "timestamp" = Some c ->
                    c = NA \/ exists s, c = Str s)
    /\ (forall i s, cell_at df i "timestamp" = Some (Str s) ->
                    cell_at df' i "timestamp" = Some (Str s))
    /\ (forall i, cell_at df i "timestamp" = Some NA ->
                  cell_at df' i "timestamp" = Some NA)
    /\ (forall i c, c <> "timestamp" -> cell_at df' i c = cell_at df i c).
Proof.
  intros Hread Hts.
  destruct (col_pos "timestamp" (columns df)) as [j|] eqn:Hcol.
  2:{ apply col_pos_None in Hcol. contradiction. }
  rewrite (_setup_read _ _ _ _ Hread). cbn zeta. rewrite Hcol.
  eexists. exists (map_column (astype_string E) j df).
  split; [reflexivity|]. split; [reflexivity|]. split; [reflexivity|].
  split; [apply labels_map_column|].
  split; [|split; [|split]].
  - intros i c. rewrite (cell_at_map_column_same _ _ _ _ _ Hcol).
    destruct (cell_at df i "timestamp") as [x|]; simpl; [|discriminate].
    intros [= <-]. destruct x as [|s|z|f]; simpl; eauto.
    destruct (PrimFloat.is_nan f); eauto.
  - intros i s H. now rewrite (cell_at_map_column_same _ _ _ _ _ Hcol), H.
  - intros i H. now rewrite (cell_at_map_column_same _ _ _ _ _ Hcol), H.
  - intros i c Hc. apply cell_at_map_column. intros H. apply Hc.
    eapply col_pos_inj; eassumption.
Qed.

(** ** A site on which every page fails *)

Lemma getitem_map_column_cells f j cols cells c :
  col_pos "timestamp" cols = Some j -> c <> "timestamp" ->
  getitem cols (match nth_error cells j with
                | Some x => set_nth j (f x) cells
                | None => cells
                end) c = getitem cols cells c.
Proof.
  intros Hj Hc. unfold getitem.
  destruct (col_pos c cols) as [j'|] eqn:Hc'; [|reflexivity].
  destruct (nth_error cells j); [|reflexivity].
  apply nth_error_set_nth_neq. intros ->. apply Hc.
  eapply col_pos_inj; eassumption.
Qed.

Lemma for_each_on_failing_site (E : Env) cols rs :
  site_fails E ->
  Forall (addressable cols) rs ->
  forall st, page st <> None ->
    exists st',
      for_each rs (loop_body E cols) st = (Ok tt, st')
      /\ df_in st' = df_in st
      /\ page st' <> None
      /\ writes (trace st') = writes (trace st)
      /\ visits st' = visits st + length rs.
Proof.
  intros Hsite. induction 1 as [|[idx cells] rs (name & code & Hn & Hc) _ IH];
    intros st Hpage.
  - exists st. simpl. repeat split; auto.
  - destruct (page st) as [d0|] eqn:Hp; [|congruence].
    destruct (Hsite (visits st)
                (company_page_url (str_of_cell E code) (slug name)) name)
      as (resp & d & msg & Hgoto & Hfail).
    simpl in Hn, Hc.
    rewrite for_each_cons.
    rewrite (loop_body_arrives E cols idx cells name code d0 resp d st
               Hn Hc Hp Hgoto).
    rewrite bind_run.
    rewrite (_verify_page_fails _ _ _ _ _ _ _ Hfail (page_arrival _ _ _ _)).
    cbn [negb print].
    match goal with
    | |- context [for_each rs _ ?s] =>
        destruct (IH s) as (st' & Hrun & Hdf & Hpg & Hw & Hv);
          [cbn; discriminate|]
    end.
    exists st'. split; [exact Hrun|].
    rewrite Hdf, Hw, Hv. unfold arrival.
    cbn [df_in trace visits set_page count_visit log length].
    rewrite !writes_app. simpl. rewrite !app_nil_r.
    repeat split; auto; lia.
Qed.

(** X14: when every page fails verification (the site is down, say)
    and every row has a company name and a stock code, the batch still
    runs to its end: one page is asked for per row, and the frame that
    is written is the one [_setup] made, no value and no timestamp
    changed. *)
Theorem failing_site_leaves_input_unchanged (E : Env) (input output : string)
    (st : retriever) (df : DataFrame) (j : nat) :
  read_csv E input = Ok df ->
  col_pos "timestamp" (columns df) = Some j ->
  Forall (addressable (columns df)) (rows df) ->
  page st <> None ->
  site_fails E ->
  to_csv E output (map_column (astype_string E) j df) = Ok tt ->
  exists st',
    get_stock_values_csv E input output st = (Ok tt, st')
    /\ writes (trace st')
       = writes (trace st) ++ [(output, map_column (astype_string E) j df)]
    /\ visits st' = visits st + length (rows df).
Proof.
  intros Hread Hcol Hrows Hpage Hsite Hw.
  rewrite (get_stock_values_csv_read _ _ _ _ _ _ Hread Hcol).
  set (df1 := map_column (astype_string E) j df) in *.
  assert (Hrows1 : Forall (addressable (columns df)) (rows df1)).
  { unfold df1, map_column. simpl. apply Forall_map.
    eapply Forall_impl; [|exact Hrows].
    intros r (name & code & Hn & Hc). exists name, code. simpl.
    rewrite !(getitem_map_column_cells _ _ _ _ _ Hcol) by discriminate.
    auto. }
  destruct (for_each_on_failing_site E (columns df) (rows df1) Hsite Hrows1
              (after_setup E input j df st) Hpage)
    as (st1 & Hrun & Hdf & _ & Hwr & Hv).
  rewrite bind_run, Hrun.
  rewrite (frame_to_csv_run E output df1) by (try exact Hw; rewrite Hdf; reflexivity).
  eexists. split; [reflexivity|]. cbn [trace visits log].
  rewrite <- app_assoc, writes_app, Hwr, Hv. unfold after_setup.
  cbn [trace visits set_df_in log]. rewrite writes_app. simpl.
  rewrite app_nil_r. split; [reflexivity|].
  unfold df1, map_column. simpl. now rewrite length_map.
Qed.

(** ** One iteration and the other rows *)

Lemma row_kept_same idx st st' : df_in st' = df_in st -> row_kept idx st st'.
Proof.
  intros H df Hdf Hwf Hin. exists df. rewrite H.
  repeat split; auto using incl_refl; apply Hwf.
Qed.

Lemma row_kept_refl idx st : row_kept idx st st.
Proof. now apply row_kept_same. Qed.

Lemma row_kept_trans idx a b c :
  row_kept idx a b -> row_kept idx b c -> row_kept idx a c.
Proof.
  intros Hab Hbc df Hdf Hwf Hin.
  destruct (Hab df Hdf Hwf Hin) as (df1 & Hdf1 & Hwf1 & Hl1 & Hc1 & Hk1).
  destruct (Hbc df1 Hdf1 Hwf1) as (df2 & Hdf2 & Hwf2 & Hl2 & Hc2 & Hk2).
  { now rewrite Hl1. }
  exists df2. split; [assumption|]. split; [assumption|].
  split; [congruence|]. split; [eapply incl_tran; eassumption|].
  intros i col Hi Hcol. rewrite Hk2 by auto. now apply Hk1.
Qed.

Lemma cell_at_at_set_other_row df idx col v i c :
  well_formed df -> has_label idx (rows df) = true ->
  i <> idx -> In c (columns df) ->
  cell_at (at_set df idx col v) i c = cell_at df i c.
Proof.
  intros Hwf Hl Hi Hc.
  destruct (string_dec c col) as [->|Hne];
    [|now apply cell_at_at_set_other].
  destruct (col_pos col (columns df)) as [j|] eqn:Hj.
  2:{ apply col_pos_None in Hj. contradiction. }
  unfold cell_at. rewrite at_set_rows by assumption. unfold at_set.
  rewrite Hj. simpl. rewrite find_map_label.
  destruct (find _ (rows df)) as [r|] eqn:Hf; simpl; [|reflexivity].
  apply find_some in Hf as [_ Hr]. apply Nat.eqb_eq in Hr.
  unfold stored. destruct (Nat.eqb_spec (fst r) idx); [congruence|reflexivity].
Qed.

Lemma row_kept_frame_at_set idx col v :
  preserves (row_kept idx) (frame_at_set idx col v).
Proof.
  intros st df Hdf Hwf Hin. rewrite (frame_at_set_run _ _ _ _ _ Hdf).
  pose proof (has_label_In _ _ Hin) as Hl.
  exists (at_set df idx col v). split; [reflexivity|].
  split; [now apply well_formed_at_set|].
  split; [now apply labels_at_set|]. split.
  - unfold at_set. destruct (col_pos col (columns df)); simpl;
      [apply incl_refl|apply incl_appl, incl_refl].
  - intros i c Hi Hc. now apply cell_at_at_set_other_row.
Qed.

Lemma row_kept_print idx text : preserves (row_kept idx) (print text).
Proof. intros st. now apply row_kept_same. Qed.

Lemma row_kept_page_goto (E : Env) idx url :
  preserves (row_kept idx) (page_goto E url).
Proof.
  intros st. apply row_kept_same. unfold page_goto, bind, the_page.
  destruct (page st); [|reflexivity].
  destruct (goto E (visits st) url) as [[resp d']|e]; reflexivity.
Qed.

Lemma row_kept__verify_page (E : Env) idx resp url name :
  preserves (row_kept idx) (_verify_page E resp url name).
Proof. intros st. apply row_kept_same, _verify_page_keeps. Qed.

Ltac rows_step idx :=
  first
    [ apply preserves_ret; apply row_kept_refl
    | apply preserves_raise; apply row_kept_refl
    | apply preserves_lift; apply row_kept_refl
    | apply preserves_the_frame; apply row_kept_refl
    | apply preserves_the_page; apply row_kept_refl
    | apply row_kept_print
    | apply row_kept_page_goto
    | apply row_kept__verify_page
    | apply row_kept_frame_at_set
    | apply preserves_bind; [apply row_kept_trans| |intros ?]
    | apply preserves_try_except; [apply row_kept_trans| |]
    | apply preserves_on_assertion_error
    | apply preserves_on_timeout_error ].

Lemma row_kept_retrieve_and_store idx :
  preserves (row_kept idx) (retrieve_and_store idx).
Proof.
  unfold retrieve_and_store.
  apply preserves_bind; [apply row_kept_trans|rows_step idx|intros _].
  apply preserves_bind; [apply row_kept_trans|rows_step idx|intros _].
  apply preserves_bind;
    [apply row_kept_trans
    |unfold _get_stock_value; repeat rows_step idx|intros stock_value].
  apply preserves_bind;
    [apply row_kept_trans
    |unfold _get_last_update_timestamp; repeat rows_step idx
    |intros timestamp].
  apply preserves_bind; [apply row_kept_trans| |intros _].
  { destruct (truthy stock_value); [|rows_step idx].
    destruct stock_value as [|s]; [rows_step idx|].
    apply preserves_bind;
      [apply row_kept_trans| |intros f; rows_step idx].
    unfold py_float. destruct (PyFloat.float_of_string s); rows_step idx. }
  apply preserves_bind; [apply row_kept_trans| |intros _; rows_step idx].
  destruct (truthy timestamp); [|rows_step idx].
  destruct timestamp as [|s]; rows_step idx.
Qed.

Lemma row_kept_loop_body (E : Env) cols idx cells :
  preserves (row_kept idx) (loop_body E cols (idx, cells)).
Proof.
  unfold loop_body.
  apply preserves_bind; [apply row_kept_trans| |intros company_name].
  { unfold row_getitem. destruct (getitem _ _ _); rows_step idx. }
  apply preserves_bind; [apply row_kept_trans| |intros stock_code].
  { unfold row_getitem. destruct (getitem _ _ _); rows_step idx. }
  apply preserves_bind; [apply row_kept_trans|rows_step idx|intros _].
  apply preserves_bind; [apply row_kept_trans| |intros lowered].
  { unfold str_lower. destruct company_name; rows_step idx. }
  apply preserves_bind; [apply row_kept_trans| |intros company_url].
  { unfold py_format. destruct (PyStr.format _ _); rows_step idx. }
  apply preserves_bind; [apply row_kept_trans|rows_step idx|intros _].
  apply preserves_bind; [apply row_kept_trans|rows_step idx|intros resp].
  apply preserves_bind;
    [apply row_kept_trans|rows_step idx|intros verified].
  destruct verified; simpl; [|rows_step idx].
  apply row_kept_retrieve_and_store.
Qed.

(** X15: the iteration of a row touches that row only.  However it
    ends, it leaves a well-formed frame with the same row labels, the
    columns it had (a column may have been added at the right), and in
    every other row the cells under those columns as they were. *)
Theorem iteration_keeps_other_rows (E : Env) cols idx cells st df :
  df_in st = Some df -> well_formed df -> In idx (labels df) ->
  exists df',
    df_in (snd (loop_body E cols (idx, cells) st)) = Some df'
    /\ well_formed df'
    /\ labels df' = labels df
    /\ incl (columns df) (columns df')
    /\ forall i c, i <> idx -> In c (columns df) ->
                   cell_at df' i c = cell_at df i c.
Proof.
  intros Hdf Hwf Hin.
  exact (row_kept_loop_body E cols idx cells st df Hdf Hwf Hin).
Qed.

(** X16: called on an object that was never started, with a frame
    whose first row has a name and a code, [get_stock_values_csv]
    raises [AttributeError] at the first navigation: no page is asked
    for and nothing is written. *)
Theorem needs_a_started_session (E : Env) (input output : string)
    (st : retriever) (df : DataFrame) idx cells rs :
  read_csv E input = Ok df ->
  In "timestamp" (columns df) ->
  rows df = (idx, cells) :: rs ->
  addressable (columns df) (idx, cells) ->
  page st = None ->
  exists st',
    get_stock_values_csv E input output st
      = (Raise (AttributeError "NoneType"), st')
    /\ gotos (trace st') = gotos (trace st)
    /\ writes (trace st') = writes (trace st)
    /\ visits st' = visits st.
Proof.
  intros Hread Hts Hrows (name & code & Hn & Hc) Hpage.
  destruct (col_pos "timestamp" (columns df)) as [j|] eqn:Hcol.
  2:{ apply col_pos_None in Hcol. contradiction. }
  rewrite (get_stock_values_csv_read _ _ _ _ _ _ Hread Hcol).
  unfold map_column at 1. cbn [rows]. rewrite Hrows. cbn [map fst snd].
  simpl in Hn, Hc.
  rewrite bind_run, for_each_cons.
  rewrite (loop_body_to_goto E (columns df) idx _ name code)
    by (rewrite (getitem_map_column_cells _ _ _ _ _ Hcol) by discriminate;
        assumption).
  rewrite bind_run, page_goto_no_page by exact Hpage.
  eexists. split; [reflexivity|]. unfold after_setup.
  cbn [trace visits set_df_in log]. rewrite <- !app_assoc.
  rewrite gotos_app, writes_app. simpl. rewrite !app_nil_r. auto.
Qed.

(** ** The further properties at work in the small world *)

(** X1 on Tesco's page. *)
Lemma _verify_page_accepts_iff_witness :
  let E := Fixture.env (Ok Fixture.input) Fixture.tesco_only in
  let d := Fixture.company_page "TESCO PLC" " 1,234.5 " " 04.11.26 09:15 " in
  page Fixture.on_tesco_page = Some d
  /\ fst (_verify_page E Fixture.ok Fixture.tesco_url "Tesco PLC"
            Fixture.on_tesco_page) = Ok true
  /\ (fst (_verify_page E Fixture.ok Fixture.tesco_url "Tesco PLC"
             Fixture.on_tesco_page) = Ok true
      <-> verified E Fixture.ok d "Tesco PLC")
  /\ df_in (snd (_verify_page E Fixture.ok Fixture.tesco_url "Tesco PLC"
                   Fixture.on_tesco_page)) = df_in Fixture.on_tesco_page
  /\ page (snd (_verify_page E Fixture.ok Fixture.tesco_url "Tesco PLC"
                  Fixture.on_tesco_page)) = page Fixture.on_tesco_page
  /\ visits (snd (_verify_page E Fixture.ok Fixture.tesco_url "Tesco PLC"
                    Fixture.on_tesco_page)) = visits Fixture.on_tesco_page.
Proof.
  intros E d. split; [reflexivity|]. split; [vm_compute; reflexivity|].
  exact (_verify_page_accepts_iff E Fixture.ok Fixture.tesco_url "Tesco PLC" d
           Fixture.on_tesco_page eq_refl).
Defined.

(** X2 on Tesco's page. *)
Lemma _get_stock_value_has_no_comma_witness :
  let d := Fixture.company_page "TESCO PLC" " 1,234.5 " " 04.11.26 09:15 " in
  page Fixture.on_tesco_page = Some d
  /\ fst (_get_stock_value Fixture.on_tesco_page) = Ok (PyText "1234.5")
  /\ fst (_get_stock_value Fixture.on_tesco_page) =
       match price_tag d with
       | Ok t => Ok (PyText (clean_price t))
       | Raise TimeoutError => Ok PyFalse
       | Raise e => Raise e
       end
  /\ forall s, fst (_get_stock_value Fixture.on_tesco_page) = Ok (PyText s) ->
               PyStr.contains "," s = false.
Proof.
  intros d. split; [reflexivity|]. split; [vm_compute; reflexivity|].
  exact (_get_stock_value_has_no_comma d Fixture.on_tesco_page eq_refl).
Defined.

(** X3 on Tesco's page. *)
Lemma _get_last_update_timestamp_is_trimmed_witness :
  let d := Fixture.company_page "TESCO PLC" " 1,234.5 " " 04.11.26 09:15 " in
  page Fixture.on_tesco_page = Some d
  /\ fst (_get_last_update_timestamp Fixture.on_tesco_page)
     = Ok (PyText "04.11.26 09:15")
  /\ fst (_get_last_update_timestamp Fixture.on_tesco_page) =
       match delay_ticker d with
       | Ok t => Ok (PyText (PyStr.strip (or_empty t)))
       | Raise TimeoutError => Ok PyFalse
       | Raise e => Raise e
       end
  /\ forall s, fst (_get_last_update_timestamp Fixture.on_tesco_page)
               = Ok (PyText s) ->
               PyStr.strip s = s.
Proof.
  intros d. split; [reflexivity|]. split; [vm_compute; reflexivity|].
  exact (_get_last_update_timestamp_is_trimmed d Fixture.on_tesco_page eq_refl).
Defined.

(** X6 with a browser that does not launch. *)
Lemma start_stops_at_first_failure_witness :
  acquire Fixture.without_browser RBrowser
    = Raise (PlaywrightError "Executable doesn't exist")
  /\ start Fixture.without_browser __init__
     = (Raise (PlaywrightError "Executable doesn't exist"),
        started_upto [RPlaywright])
  /\ acquired (trace (started_upto [RPlaywright])) = [RPlaywright]
  /\ held (started_upto [RPlaywright]) = rev [RPlaywright].
Proof.
  split; [reflexivity|].
  refine (proj1 (start_stops_at_first_failure Fixture.without_browser)
            [RPlaywright] RBrowser [RContext; RPage]
            (PlaywrightError "Executable doesn't exist") eq_refl _ eq_refl).
  intros x [<-|[]]. reflexivity.
Defined.

(** X9 on a header line, with an object never started. *)
Lemma header_only_input_is_copied_witness :
  let E := Fixture.env (Ok Fixture.header_only) Fixture.unreachable in
  read_csv E "in.csv" = Ok Fixture.header_only
  /\ rows Fixture.header_only = []
  /\ In "timestamp" (columns Fixture.header_only)
  /\ exists st',
       get_stock_values_csv E "in.csv" "out.csv" __init__ = (Ok tt, st')
       /\ writes (trace st')
          = writes (trace __init__) ++ [("out.csv", Fixture.header_only)]
       /\ gotos (trace st') = gotos (trace __init__)
       /\ visits st' = visits __init__.
Proof.
  intros E.
  assert (Hts : In "timestamp" (columns Fixture.header_only))
    by (simpl; auto).
  split; [reflexivity|]. split; [reflexivity|]. split; [exact Hts|].
  exact (header_only_input_is_copied E "in.csv" "out.csv" __init__
           Fixture.header_only eq_refl eq_refl Hts eq_refl).
Defined.

(** X10 on a site that cannot be reached. *)
Lemma navigation_error_ends_the_loop_witness :
  let E := Fixture.env (Ok Fixture.input) Fixture.unreachable in
  goto E (visits Fixture.ready)
    (company_page_url (str_of_cell E (Str "TSCO")) (slug "Tesco PLC"))
    = Raise (PlaywrightError "net::ERR_NAME_NOT_RESOLVED")
  /\ exists st',
       for_each [(0, Fixture.tesco); (1, Fixture.smith)]
         (loop_body E (columns Fixture.input)) Fixture.ready
         = (Raise (PlaywrightError "net::ERR_NAME_NOT_RESOLVED"), st')
       /\ df_in st' = df_in Fixture.ready
       /\ gotos (trace st')
          = gotos (trace Fixture.ready)
            ++ [company_page_url (str_of_cell E (Str "TSCO"))
                  (slug "Tesco PLC")]
       /\ visits st' = S (visits Fixture.ready).
Proof.
  intros E. split; [reflexivity|].
  exact (navigation_error_ends_the_loop E (columns Fixture.input) 0
           Fixture.tesco [(1, Fixture.smith)] "Tesco PLC" (Str "TSCO") blank
           (PlaywrightError "net::ERR_NAME_NOT_RESOLVED") Fixture.ready
           eq_refl eq_refl eq_refl eq_refl).
Defined.

(** X11 on a row with an empty company name. *)
Lemma company_name_must_be_a_string_witness :
  let E := Fixture.env (Ok Fixture.input) Fixture.tesco_only in
  getitem (columns Fixture.input) Fixture.nameless "company name" = Some NA
  /\ for_each [(0, Fixture.nameless); (1, Fixture.smith)]
       (loop_body E (columns Fixture.input)) Fixture.ready
     = (Raise (AttributeError "lower"),
        log (Print ("Looking for latest stock price value for "
                    ++ str_of_cell E NA)) Fixture.ready).
Proof.
  intros E. split; [reflexivity|].
  refine (company_name_must_be_a_string E (columns Fixture.input) 0
            Fixture.nameless [(1, Fixture.smith)] NA (Str "TSCO")
            Fixture.ready eq_refl eq_refl _).
  intros s. discriminate.
Defined.

Lemma fixture_no_names_well_formed : well_formed Fixture.no_names.
Proof.
  repeat split.
  - repeat constructor; simpl; intuition discriminate.
  - repeat constructor.
Defined.

(** X12 on a file without the [company name] column. *)
Lemma missing_required_column_raises_KeyError_witness :
  let E := Fixture.env (Ok Fixture.no_names) Fixture.tesco_only in
  read_csv E "in.csv" = Ok Fixture.no_names
  /\ ~ In "company name" (columns Fixture.no_names)
  /\ exists st',
       get_stock_values_csv E "in.csv" "out.csv" Fixture.started
         = (Raise (KeyError "company name"), st')
       /\ gotos (trace st') = gotos (trace Fixture.started)
       /\ writes (trace st') = writes (trace Fixture.started)
       /\ visits st' = visits Fixture.started.
Proof.
  intros E.
  assert (Hno : ~ In "company name" (columns Fixture.no_names))
    by (simpl; intuition discriminate).
  assert (Hrows : rows Fixture.no_names <> []) by discriminate.
  assert (Hts : In "timestamp" (columns Fixture.no_names))
    by (simpl; auto).
  split; [reflexivity|]. split; [exact Hno|].
  exact (missing_required_column_raises_KeyError E "in.csv" "out.csv"
           Fixture.started Fixture.no_names "company name" eq_refl
           fixture_no_names_well_formed Hrows Hts
           (or_introl (conj eq_refl Hno))).
Defined.

(** X13 on the two companies. *)
Lemma _setup_makes_timestamps_strings_witness :
  let E := Fixture.env (Ok Fixture.input) Fixture.tesco_only in
  read_csv E "in.csv" = Ok Fixture.input
  /\ In "timestamp" (columns Fixture.input)
  /\ exists st' df',
       _setup E "in.csv" Fixture.started = (Ok true, st')
       /\ df_in st' = Some df'
       /\ columns df' = columns Fixture.input
       /\ labels df' = labels Fixture.input
       /\ (forall i c, cell_at df' i "timestamp" = Some c ->
                       c = NA \/ exists s, c = Str s)
       /\ (forall i s, cell_at Fixture.input i "timestamp" = Some (Str s) ->
                       cell_at df' i "timestamp" = Some (Str s))
       /\ (forall i, cell_at Fixture.input i "timestamp" = Some NA ->
                     cell_at df' i "timestamp" = Some NA)
       /\ (forall i c, c <> "timestamp" ->
                       cell_at df' i c = cell_at Fixture.input i c).
Proof.
  intros E.
  assert (Hts : In "timestamp" (columns Fixture.input)) by (simpl; auto 6).
  split; [reflexivity|]. split; [exact Hts|].
  exact (_setup_makes_timestamps_strings E "in.csv" Fixture.started
           Fixture.input eq_refl Hts).
Defined.

Lemma fixture_down_fails csv : site_fails (Fixture.env csv Fixture.down).
Proof.
  intros n url name.
  exists (Some (mkResponse 503 "Service Unavailable")), blank,
    "Bad status: 503 Service Unavailable".
  split; [reflexivity|].
  apply (bad_status (Fixture.env csv Fixture.down) url name
           (mkResponse 503 "Service Unavailable") blank).
  simpl. discriminate.
Defined.

Lemma fixture_input_addressable :
  Forall (addressable (columns Fixture.input)) (rows Fixture.input).
Proof.
  repeat constructor.
  - exists "Tesco PLC", (Str "TSCO"). split; reflexivity.
  - exists "Smith (DS) PLC", (Str "SMDS"). split; reflexivity.
Defined.

(** X14 on a site that answers 503 to everything. *)
Lemma failing_site_leaves_input_unchanged_witness :
  let E := Fixture.env (Ok Fixture.input) Fixture.down in
  site_fails E
  /\ map_column (astype_string E) 3 Fixture.input = Fixture.input
  /\ exists st',
       get_stock_values_csv E "in.csv" "out.csv" Fixture.started
         = (Ok tt, st')
       /\ writes (trace st')
          = writes (trace Fixture.started)
            ++ [("out.csv", map_column (astype_string E) 3 Fixture.input)]
       /\ visits st' = visits Fixture.started + length (rows Fixture.input).
Proof.
  intros E.
  assert (Hpage : page Fixture.started <> None) by discriminate.
  split; [exact (fixture_down_fails _)|]. split; [reflexivity|].
  exact (failing_site_leaves_input_unchanged E "in.csv" "out.csv"
           Fixture.started Fixture.input 3 eq_refl eq_refl
           fixture_input_addressable Hpage (fixture_down_fails _) eq_refl).
Defined.

(** X15 on Tesco's row. *)
Lemma iteration_keeps_other_rows_witness :
  let E := Fixture.env (Ok Fixture.input) Fixture.tesco_only in
  exists df',
    df_in (snd (loop_body E (columns Fixture.input) (0, Fixture.tesco)
                  Fixture.ready)) = Some df'
    /\ well_formed df'
    /\ labels df' = labels Fixture.input
    /\ incl (columns Fixture.input) (columns df')
    /\ forall i c, i <> 0 -> In c (columns Fixture.input) ->
                   cell_at df' i c = cell_at Fixture.input i c.
Proof.
  intros E.
  exact (iteration_keeps_other_rows E (columns Fixture.input) 0 Fixture.tesco
           Fixture.ready Fixture.input eq_refl fixture_input_well_formed
           (or_introl eq_refl)).
Defined.

(** X16 on an object never started. *)
Lemma needs_a_started_session_witness :
  let E := Fixture.env (Ok Fixture.input) Fixture.tesco_only in
  page __init__ = None
  /\ exists st',
       get_stock_values_csv E "in.csv" "out.csv" __init__
         = (Raise (AttributeError "NoneType"), st')
       /\ gotos (trace st') = gotos (trace __init__)
       /\ writes (trace st') = writes (trace __init__)
       /\ visits st' = visits __init__.
Proof.
  intros E.
  assert (Hts : In "timestamp" (columns Fixture.input)) by (simpl; auto 6).
  assert (Haddr : addressable (columns Fixture.input) (0, Fixture.tesco)).
  { exists "Tesco PLC", (Str "TSCO"). split; reflexivity. }
  split; [reflexivity|].
  exact (needs_a_started_session E "in.csv" "out.csv" __init__ Fixture.input
           0 Fixture.tesco [(1, Fixture.smith)] eq_refl Hts eq_refl Haddr
           eq_refl).
Defined.
